(** * Teddy finance assistant: session cache, validation pipeline,
      record summarizer and context assembler.

    A shallow embedding of [app/core/utils.py], [app/services/expense_rag.py]
    and [app/routes/chat.py], followed by the properties stated about them.

    Conventions of the embedding.
    - A Python [str] is a [string]; every [ascii] stands for the code point
      of the same number (the Latin-1 range of Unicode).
    - A Python number is a [pynum]: an unbounded [int] or a binary64 [float]
      (the kernel's primitive floats, which compute as IEEE 754 does).
    - A parsed JSON document is a [json] value; a Python [dict] is the list
      of its (key, value) pairs in insertion order.
    - What depends on the interpreter and its version is a parameter, the
      [interpreter]: [repr], and the built-in [sum], which adds floats one
      after the other before CPython 3.12 and with compensation from 3.12 on.
    - A function that can raise returns [exc A]: the exception or the value.
    - Network calls are events of an interaction tree [prog]; a run against
      an environment yields the value and the log of the calls made. *)

From Stdlib Require Import ZArith QArith List String Ascii Bool Lia PeanoNat.
From Stdlib Require Import DecimalString.
From Stdlib Require Import Permutation Sorted.
From Stdlib Require Import Floats.
Import ListNotations.

Set Warnings "-inexact-float,-register-all".

Local Open Scope string_scope.
Local Open Scope Z_scope.

(* ================================================================== *)
(** * Part I. Definitions                                              *)
(* ================================================================== *)

(** ** Python strings *)

Module PyStr.

(** [str.isspace] on the code points below 256. *)
Definition is_space (c : ascii) : bool :=
  let n := N_of_ascii c in
  ((9 <=? n) && (n <=? 13) || (28 <=? n) && (n <=? 32)
   || (n =? 133) || (n =? 160))%N.

Fixpoint lstrip (s : string) : string :=
  match s with
  | EmptyString => EmptyString
  | String c s' => if is_space c then lstrip s' else s
  end.

Fixpoint rstrip (s : string) : string :=
  match s with
  | EmptyString => EmptyString
  | String c s' =>
      match rstrip s' with
      | EmptyString => if is_space c then EmptyString else String c EmptyString
      | r => String c r
      end
  end.

(** [s.strip()] *)
Definition strip (s : string) : string := rstrip (lstrip s).

(** Truth value of a string: [bool(s)]. *)
Definition truthy (s : string) : bool :=
  match s with EmptyString => false | _ => true end.

(** [not s or not s.strip()], the guard shared by every entry point. *)
Definition blank (s : string) : bool :=
  negb (truthy s) || negb (truthy (strip s)).

(** [str.lower] on the code points below 256: A-Z and the accented
    capitals 0xC0-0xDE (but the multiplication sign 0xD7) move up by 32. *)
Definition lower_char (c : ascii) : ascii :=
  let n := N_of_ascii c in
  if ((65 <=? n) && (n <=? 90)
      || (192 <=? n) && (n <=? 222) && negb (n =? 215))%N
  then ascii_of_N (n + 32) else c.

Fixpoint lower (s : string) : string :=
  match s with
  | EmptyString => EmptyString
  | String c s' => String (lower_char c) (lower s')
  end.

(** [sub in s] *)
Fixpoint contains (sub s : string) : bool :=
  prefix sub s ||
  match s with
  | EmptyString => false
  | String _ s' => contains sub s'
  end.

(** ["sep".join(parts)] *)
Fixpoint join (sep : string) (parts : list string) : string :=
  match parts with
  | [] => ""
  | [p] => p
  | p :: ps => p ++ sep ++ join sep ps
  end.

(** Decimal rendering of an integer, as [str(n)] does. *)
Definition of_Z (z : Z) : string := NilZero.string_of_int (Z.to_int z).
Definition of_nat (n : nat) : string := of_Z (Z.of_nat n).

End PyStr.

(** ** Exceptions *)

Inductive exn : Type :=
| ValueError (msg : string)
| KeyError (key : string)
| TypeError
| AttributeError
| OverflowError
| HTTPException (status : Z) (detail : string).

Definition exc (A : Type) : Type := (exn + A)%type.

Definition ok {A} (a : A) : exc A := inr a.
Definition raise {A} (e : exn) : exc A := inl e.

Definition ebind {A B} (m : exc A) (k : A -> exc B) : exc B :=
  match m with
  | inl e => inl e
  | inr a => k a
  end.

Declare Scope exc_scope.
Delimit Scope exc_scope with exc.
Notation "x <- m ;; k" := (ebind m (fun x => k))
  (at level 100, m at next level, right associativity) : exc_scope.
Notation "' p <- m ;; k" := (ebind m (fun p => k))
  (at level 100, p pattern, m at next level, right associativity) : exc_scope.

(** [for x in l: acc = f(acc, x)] where the body can raise. *)
Fixpoint efold {A B} (f : A -> B -> exc A) (l : list B) (a : A) : exc A :=
  match l with
  | [] => ok a
  | b :: l' => ebind (f a b) (efold f l')
  end.

(** [[f(x) for x in l]] where [f] can raise. *)
Fixpoint emap {A B} (f : A -> exc B) (l : list A) : exc (list B) :=
  match l with
  | [] => ok []
  | a :: l' => (b <- f a ;; bs <- emap f l' ;; ok (b :: bs))%exc
  end.

(** ** Python numbers *)

Module PyNum.

Inductive pynum : Type :=
| PyInt (z : Z)
| PyFloat (f : float).

(** The binary64 value nearest to an integer, ties to even; an infinity
    when the integer is out of range. *)
Definition Z2F (z : Z) : float := SF2Prim (binary_normalize prec emax z 0 false).

Definition is_finite (f : float) : bool :=
  match Prim2SF f with
  | S754_zero _ | S754_finite _ _ _ => true
  | _ => false
  end.

(** [float(z)]: raises when the integer is too large for a double. *)
Definition float_of_int (z : Z) : exc float :=
  let f := Z2F z in
  if is_finite f then ok f else raise OverflowError.

(** [float(x)] for a number. *)
Definition to_float (x : pynum) : exc float :=
  match x with
  | PyInt z => float_of_int z
  | PyFloat f => ok f
  end.

(** The coercion rule of the binary operators: two ints stay ints,
    otherwise both operands become floats. *)
Definition arith (opZ : Z -> Z -> Z) (opF : float -> float -> float)
    (x y : pynum) : exc pynum :=
  match x, y with
  | PyInt a, PyInt b => ok (PyInt (opZ a b))
  | _, _ =>
      (fx <- to_float x ;; fy <- to_float y ;; ok (PyFloat (opF fx fy)))%exc
  end.

Definition add : pynum -> pynum -> exc pynum := arith Z.add PrimFloat.add.
Definition sub : pynum -> pynum -> exc pynum := arith Z.sub PrimFloat.sub.
Definition mul : pynum -> pynum -> exc pynum := arith Z.mul PrimFloat.mul.

(** [sum(l)] on numbers before CPython 3.12: from the int 0, one addition
    after the other. *)
Definition sum (l : list pynum) : exc pynum := efold add l (PyInt 0).

(** Interpreters from 3.12 on add the floats of a [sum] with a running
    compensation (Neumaier's variant of Kahan's summation) and add it at the
    end. [compensated_sum first rest] is that loop once the running total is
    the float [first]. *)
Definition compensated_step (st : float * float) (x : float) : float * float :=
  let (f_result, c) := st in
  let t := PrimFloat.add f_result x in
  let c' :=
    if PrimFloat.leb (PrimFloat.abs x) (PrimFloat.abs f_result)
    then PrimFloat.add c (PrimFloat.add (PrimFloat.sub f_result t) x)
    else PrimFloat.add c (PrimFloat.add (PrimFloat.sub x t) f_result) in
  (t, c').

Definition compensated_sum (first : float) (rest : list float) : float :=
  let (f_result, c) := fold_left compensated_step rest (first, 0%float) in
  if negb (PrimFloat.eqb c 0%float) && is_finite c
  then PrimFloat.add f_result c else f_result.

(** [int(f)]: truncation toward zero. *)
Definition int_of_float (f : float) : exc Z :=
  match Prim2SF f with
  | S754_zero _ => ok 0
  | S754_finite s m e =>
      let a := if 0 <=? e then Zpos m * 2 ^ e else Zpos m / 2 ^ (- e) in
      ok (if s then - a else a)
  | S754_infinity _ => raise OverflowError
  | S754_nan => raise (ValueError "cannot convert float NaN to integer")
  end.

(** Exact value of a finite float, as a fraction [num / 2^k]. *)
Definition exact (f : float) : option (Z * Z) :=
  match Prim2SF f with
  | S754_zero _ => Some (0, 1)
  | S754_finite s m e =>
      let n := if s then Zneg m else Zpos m in
      Some (if 0 <=? e then (n * 2 ^ e, 1) else (n, 2 ^ (- e)))
  | _ => None
  end.

(** [m * 2^e] rounded to the nearest integer, ties to even. *)
Definition round_half_even (m e : Z) : Z :=
  if 0 <=? e then m * 2 ^ e
  else
    let d := 2 ^ (- e) in
    let q := m / d in
    let r := m mod d in
    match 2 * r ?= d with
    | Lt => q
    | Gt => q + 1
    | Eq => if Z.even q then q else q + 1
    end.

Definition two_digits (r : Z) : string :=
  if r <? 10 then "0" ++ PyStr.of_Z r else PyStr.of_Z r.

(** [f"{x:.2f}"] for a float: the exact binary value rounded to two
    decimals, ties to even, sign kept. *)
Definition format_float_2f (f : float) : string :=
  match Prim2SF f with
  | S754_zero s => (if s then "-" else "") ++ "0.00"
  | S754_infinity s => if s then "-inf" else "inf"
  | S754_nan => "nan"
  | S754_finite s m e =>
      let n := round_half_even (Zpos m * 100) e in
      (if s then "-" else "") ++ PyStr.of_Z (n / 100) ++ "." ++ two_digits (n mod 100)
  end.

(** [f"{x:.2f}"] for a number: an int is converted to a float first. *)
Definition format_2f (x : pynum) : exc string :=
  (f <- to_float x ;; ok (format_float_2f f))%exc.

End PyNum.
Import PyNum.

(** ** JSON values, as [response.json()] returns them *)

Inductive json : Type :=
| JNull
| JBool (b : bool)
| JNum (n : pynum)
| JStr (s : string)
| JList (l : list json)
| JObj (kv : list (string * json)).

(** A [dict] with string keys, in insertion order. *)
Definition dict : Type := list (string * json).

Definition nl : string := String (ascii_of_nat 10) EmptyString.

Module Py.

(** [k in d] and [d[k]] on a dict. *)
Fixpoint lookup (k : string) (d : dict) : option json :=
  match d with
  | [] => None
  | (k', v) :: d' => if String.eqb k k' then Some v else lookup k d'
  end.

Definition has_key (k : string) (d : dict) : bool :=
  match lookup k d with Some _ => true | None => false end.

(** [v[k]] with a string subscript: only a dict accepts it. *)
Definition getitem (v : json) (k : string) : exc json :=
  match v with
  | JObj d =>
      match lookup k d with
      | Some x => ok x
      | None => raise (KeyError k)
      end
  | _ => raise TypeError
  end.

(** [v.get(k, default)]: only a dict has the method. *)
Definition get (v : json) (k : string) (default : json) : exc json :=
  match v with
  | JObj d =>
      match lookup k d with
      | Some x => ok x
      | None => ok default
      end
  | _ => raise AttributeError
  end.

Fixpoint chars (s : string) : list json :=
  match s with
  | EmptyString => []
  | String c s' => JStr (String c EmptyString) :: chars s'
  end.

(** [for x in v]: a list yields its items, a dict its keys, a string its
    characters; nothing else is iterable. *)
Definition iter (v : json) : exc (list json) :=
  match v with
  | JList l => ok l
  | JObj d => ok (map (fun kv => JStr (fst kv)) d)
  | JStr s => ok (chars s)
  | _ => raise TypeError
  end.

(** [v == s] for a string literal [s]. *)
Definition eq_str (v : json) (s : string) : bool :=
  match v with
  | JStr s' => String.eqb s' s
  | _ => false
  end.

(** [isinstance(v, list)], [isinstance(v, dict)] *)
Definition is_list (v : json) : bool :=
  match v with JList _ => true | _ => false end.
Definition is_dict (v : json) : bool :=
  match v with JObj _ => true | _ => false end.

(** The number a value stands for under [+]: [True] is 1, [False] is 0,
    and nothing but numbers and booleans adds to a number. *)
Definition as_number (v : json) : exc pynum :=
  match v with
  | JNum n => ok n
  | JBool b => ok (PyInt (if b then 1 else 0))
  | _ => raise TypeError
  end.

(** The built-in [sum] before CPython 3.12: from the int 0, one addition
    after the other. *)
Definition sum (l : list json) : exc pynum :=
  efold (fun acc v => (n <- as_number v ;; PyNum.add acc n)%exc) l (PyInt 0).

(** The built-in [sum] from CPython 3.12 on, with a C [long] of 64 bits.
    It runs three loops, each handing over to the next with the items that
    are left. *)

(** An item that is an [int] or a [bool]. *)
Definition int_like (v : json) : option Z :=
  match v with
  | JNum (PyInt z) => Some z
  | JBool b => Some (if b then 1 else 0)
  | _ => None
  end.

Definition fits_long (z : Z) : bool := (- 2 ^ 63 <=? z) && (z <? 2 ^ 63).

(** The generic loop: [result = result + item]. *)
Definition generic_loop (result : pynum) (l : list json) : exc pynum :=
  efold (fun acc v => (n <- as_number v ;; PyNum.add acc n)%exc) l result.

(** The float loop: floats are added with Neumaier's compensation [c],
    ints within a [long] are added to the running total as they are; any
    other item ends the loop with the running total, and the compensation
    is added when the items are exhausted. *)
Fixpoint float_loop (f_result c : float) (l : list json) : exc pynum :=
  match l with
  | [] =>
      ok (PyFloat (if negb (PrimFloat.eqb c 0%float) && PyNum.is_finite c
                   then PrimFloat.add f_result c else f_result))
  | JNum (PyFloat x) :: l' =>
      let (t, c') := PyNum.compensated_step (f_result, c) x in
      float_loop t c' l'
  | item :: l' =>
      match int_like item with
      | Some value =>
          if fits_long value
          then float_loop (PrimFloat.add f_result (PyNum.Z2F value)) c l'
          else generic_loop (PyFloat f_result) l
      | None => generic_loop (PyFloat f_result) l
      end
  end.

(** The int loop: exact while the items are ints and the total fits a
    [long]; the first other item is added to the total, and a float total
    goes on in the float loop. *)
Fixpoint int_loop (i_result : Z) (l : list json) : exc pynum :=
  match l with
  | [] => ok (PyInt i_result)
  | item :: l' =>
      match int_like item with
      | Some b =>
          if fits_long b && fits_long (i_result + b)
          then int_loop (i_result + b) l'
          else generic_loop (PyInt (i_result + b)) l'
      | None =>
          (n <- as_number item ;;
           result <- PyNum.add (PyInt i_result) n ;;
           match result with
           | PyFloat f => float_loop f 0%float l'
           | PyInt _ => generic_loop result l'
           end)%exc
      end
  end.

Definition sum_compensated (l : list json) : exc pynum := int_loop 0 l.

(** [f"{v:.2f}"] over values. *)
Definition format_2f (v : json) : exc string :=
  match v with
  | JNum n => PyNum.format_2f n
  | JBool b => PyNum.format_2f (PyInt (if b then 1 else 0))
  | JStr _ => raise (ValueError "Unknown format code 'f' for object of type 'str'")
  | _ => raise TypeError
  end.

End Py.

(** ** The interpreter *)

(** What the program leaves to the interpreter and its version, taken as
    given: [repr] of a float, a list or a dict, and the built-in [sum],
    which adds floats one after the other before CPython 3.12 and with a
    running compensation from 3.12 on. *)
Record interpreter : Type := {
  py_repr : json -> string;
  py_sum : list json -> exc pynum
}.

(** The two families of interpreters, for a given [repr]. *)
Definition before_3_12 (repr : json -> string) : interpreter :=
  {| py_repr := repr; py_sum := Py.sum |}.
Definition from_3_12 (repr : json -> string) : interpreter :=
  {| py_repr := repr; py_sum := Py.sum_compensated |}.

(** The interpreters of the scenarios, in which no float, list or dict is
    rendered as text. *)
Definition python311 : interpreter := before_3_12 (fun _ => "").
Definition python312 : interpreter := from_3_12 (fun _ => "").

(** ** The session object: [SimpleExpenseRAG] *)

(** One entry of [processed_chunks]. The daily chunks carry the key
    ['date'], the weekly and monthly ones the key ['period']. *)
Record chunk : Type := Chunk {
  ctype : string;
  date : option json;
  period : option json;
  text : string;
  total_income : pynum;
  total_expenses : pynum;
  net : pynum
}.

Record SimpleExpenseRAG : Type := Session {
  current_conversation : list (string * string);
  chat_history : list json;
  expense_data : option dict;
  processed_chunks : list chunk
}.

Section Summarizer.

Variable py : interpreter.

(** [f"{v}"] *)
Definition py_str (v : json) : string :=
  match v with
  | JStr s => s
  | JNull => "None"
  | JBool true => "True"
  | JBool false => "False"
  | JNum (PyInt z) => PyStr.of_Z z
  | _ => py_repr py v
  end.

(** [[t['amount'] for t in transactions if t['transactionType'] == kind]] *)
Fixpoint amounts_of (kind : string) (ts : list json) : exc (list json) :=
  match ts with
  | [] => ok []
  | t :: ts' =>
      (tt <- Py.getitem t "transactionType" ;;
       if Py.eq_str tt kind
       then (a <- Py.getitem t "amount" ;;
             rest <- amounts_of kind ts' ;;
             ok (a :: rest))
       else amounts_of kind ts')%exc
  end.

(** [sum([t['amount'] for t in transactions if t['transactionType'] == kind])] *)
Definition total_of (kind : string) (transactions : json) : exc pynum :=
  (ts <- Py.iter transactions ;;
   amounts <- amounts_of kind ts ;;
   py_sum py amounts)%exc.

(** One line of the itemized listing of a daily chunk. *)
Definition transaction_line (text : string) (t : json) : exc string :=
  (tt <- Py.getitem t "transactionType" ;;
   a <- Py.getitem t "amount" ;;
   fa <- Py.format_2f a ;;
   d <- Py.get t "description" (JStr "N/A") ;;
   ok (text ++ "- " ++ py_str tt ++ ": $" ++ fa ++ " - " ++ py_str d ++ nl))%exc.

Definition process_day (day : json) : exc chunk :=
  (transactions <- Py.getitem day "transactions" ;;
   date <- Py.getitem day "_id" ;;
   total_income <- total_of "income" transactions ;;
   total_expenses <- total_of "expense" transactions ;;
   let text := "Date: " ++ py_str date ++ nl in
   fi <- PyNum.format_2f total_income ;;
   fe <- PyNum.format_2f total_expenses ;;
   n <- PyNum.sub total_income total_expenses ;;
   fn <- PyNum.format_2f n ;;
   let text := text ++ "Income: $" ++ fi ++ ", Expenses: $" ++ fe
                    ++ ", Net: $" ++ fn ++ nl in
   let text := text ++ "Transactions:" ++ nl in
   ts <- Py.iter transactions ;;
   text <- efold transaction_line ts text ;;
   net <- PyNum.sub total_income total_expenses ;;
   ok {| ctype := "daily"; date := Some date; period := None; text := text;
         total_income := total_income; total_expenses := total_expenses;
         net := net |})%exc.

Definition process_week (week : json) : exc chunk :=
  (transactions <- Py.getitem week "transactions" ;;
   total_income <- total_of "income" transactions ;;
   total_expenses <- total_of "expense" transactions ;;
   ws <- Py.getitem week "weekStartDate" ;;
   we <- Py.getitem week "weekEndDate" ;;
   let text := "Week: " ++ py_str ws ++ " to " ++ py_str we ++ nl in
   fi <- PyNum.format_2f total_income ;;
   fe <- PyNum.format_2f total_expenses ;;
   let text := text ++ "Income: $" ++ fi ++ ", Expenses: $" ++ fe ++ nl in
   n <- PyNum.sub total_income total_expenses ;;
   fn <- PyNum.format_2f n ;;
   let text := text ++ "Net: $" ++ fn ++ nl in
   id <- Py.getitem week "_id" ;;
   net <- PyNum.sub total_income total_expenses ;;
   ok {| ctype := "weekly"; date := None; period := Some id; text := text;
         total_income := total_income; total_expenses := total_expenses;
         net := net |})%exc.

Definition process_month (month : json) : exc chunk :=
  (transactions <- Py.getitem month "transactions" ;;
   total_income <- total_of "income" transactions ;;
   total_expenses <- total_of "expense" transactions ;;
   id <- Py.getitem month "_id" ;;
   let text := "Month: " ++ py_str id ++ nl in
   fi <- PyNum.format_2f total_income ;;
   fe <- PyNum.format_2f total_expenses ;;
   let text := text ++ "Income: $" ++ fi ++ ", Expenses: $" ++ fe ++ nl in
   n <- PyNum.sub total_income total_expenses ;;
   fn <- PyNum.format_2f n ;;
   let text := text ++ "Net: $" ++ fn ++ nl in
   id' <- Py.getitem month "_id" ;;
   net <- PyNum.sub total_income total_expenses ;;
   ok {| ctype := "monthly"; date := None; period := Some id'; text := text;
         total_income := total_income; total_expenses := total_expenses;
         net := net |})%exc.

(** [if key in self.expense_data: for entry in self.expense_data[key]:
    chunks.append(...)] *)
Definition process_granularity (key : string) (process : json -> exc chunk)
    (expense_data : dict) (chunks : list chunk) : exc (list chunk) :=
  match Py.lookup key expense_data with
  | None => ok chunks
  | Some entries =>
      (es <- Py.iter entries ;;
       efold (fun chunks e => c <- process e ;; ok (chunks ++ [c])%list) es chunks)%exc
  end.

Definition _process_data (expense_data : dict) : exc (list chunk) :=
  (chunks <- process_granularity "daily" process_day expense_data [] ;;
   chunks <- process_granularity "weekly" process_week expense_data chunks ;;
   process_granularity "monthly" process_month expense_data chunks)%exc.

End Summarizer.

(** ** The specification's reading of the Summarizer *)

(** The exact value of a number, as a fraction; none for an infinity or
    a NaN. *)
Definition exact_value (x : pynum) : option Q :=
  match x with
  | PyInt z => Some (inject_Z z)
  | PyFloat f =>
      match PyNum.exact f with
      | Some (n, d) => Some (Qmake n (Z.to_pos d))
      | None => None
      end
  end.

(** The number that parsing gives for the decimal literal of an amount of
    [cents] hundredths: the binary64 value nearest to [cents / 100]. *)
Definition decimal (cents : Z) : pynum :=
  PyFloat (PrimFloat.div (PyNum.Z2F cents) 100%float).

(** Fixed-point addition of amounts held in hundredths. *)
Definition fixed_point_sum (cents : list Z) : Z := fold_right Z.add 0 cents.

(** Zero rounding drift: the total has exactly the value of the
    fixed-point sum of the amounts. *)
Definition zero_drift (cents : list Z) (total : pynum) : bool :=
  match exact_value total with
  | Some t => Qeq_bool t (Qmake (fixed_point_sum cents) 100)
  | None => false
  end.

Definition pynum_eqb (x y : pynum) : bool :=
  match x, y with
  | PyInt a, PyInt b => a =? b
  | PyFloat a, PyFloat b => PrimFloat.eqb a b
  | _, _ => false
  end.

(** The period entries of a report under one granularity, and under the
    three of them in the order the Summarizer visits them. *)
Definition entries_of (key : string) (expense_data : dict) : list json :=
  match Py.lookup key expense_data with
  | Some entries =>
      match Py.iter entries with
      | inr es => es
      | inl _ => []
      end
  | None => []
  end.

Definition report_entries (expense_data : dict) : list json :=
  (entries_of "daily" expense_data ++ entries_of "weekly" expense_data
   ++ entries_of "monthly" expense_data)%list.

(** A transaction of the type [kind]: an object whose type is that very
    text. *)
Definition has_type (kind : string) (t : json) : bool :=
  match t with
  | JObj d =>
      match Py.lookup "transactionType" d with
      | Some (JStr s) => String.eqb s kind
      | _ => false
      end
  | _ => false
  end.

(** The amount of a transaction, when it has one. *)
Definition amount_of (t : json) : list json :=
  match t with
  | JObj d =>
      match Py.lookup "amount" d with
      | Some a => [a]
      | None => []
      end
  | _ => []
  end.

(** The amounts of the transactions of one type, in the order of the
    transactions. *)
Definition amounts_by_type (kind : string) (transactions : list json) : list json :=
  flat_map amount_of (filter (has_type kind) transactions).

(** A chunk carries the totals of the transactions of a period entry: the
    interpreter's sum of the amounts of the income transactions, its sum of
    the amounts of the expense transactions, and their difference as the
    net. *)
Definition summarizes (py : interpreter) (entry : json) (c : chunk) : Prop :=
  exists transactions ts,
    Py.getitem entry "transactions" = ok transactions
    /\ Py.iter transactions = ok ts
    /\ py_sum py (amounts_by_type "income" ts) = ok (total_income c)
    /\ py_sum py (amounts_by_type "expense" ts) = ok (total_expenses c)
    /\ PyNum.sub (total_income c) (total_expenses c) = ok (net c).

(** A transaction as the report gives it. *)
Definition transaction (kind : string) (amount : pynum) : json :=
  JObj [("transactionType", JStr kind); ("amount", JNum amount)].

Definition daily_report (day : string) (transactions : list json) : dict :=
  [("daily", JList [JObj [("_id", JStr day); ("transactions", JList transactions)]])].

(** A day with a salary of $100.00, three expenses of $19.99, $0.01 and
    $10.00, and a transfer of $5.00, which is neither. *)
Definition mixed_day : dict :=
  daily_report "2024-01-01"
    [transaction "income" (decimal 10000);
     transaction "expense" (decimal 1999);
     transaction "transfer" (decimal 500);
     transaction "expense" (decimal 1);
     transaction "expense" (decimal 1000)].

(** Ten amounts of $0.10. *)
Definition ten_dimes : list json := repeat (JNum (decimal 10)) 10.

(** ** Slices and [enumerate] *)

(** [l[-n:]] *)
Definition lastn {A} (n : nat) (l : list A) : list A :=
  skipn (List.length l - n)%nat l.

(** [enumerate(l, start)] *)
Definition enumerate {A} (start : nat) (l : list A) : list (nat * A) :=
  combine (seq start (List.length l)) l.

(** ** The Context Assembler: [_build_context] *)

Section ContextAssembler.

Variable py : interpreter.

Definition append {A} (parts : list A) (p : A) : list A := (parts ++ [p])%list.

Definition add_chunk (parts : list string) (ic : nat * chunk) : list string :=
  let (i, chunk) := ic in
  append parts ("Data " ++ PyStr.of_nat i ++ " (" ++ ctype chunk ++ "):" ++ nl ++ text chunk).

Definition add_previous (parts : list string) (ic : nat * json) : exc (list string) :=
  let (i, conv) := ic in
  let parts := append parts ("Previous " ++ PyStr.of_nat i ++ ":") in
  (h <- Py.get conv "human" (JStr "") ;;
   let parts := append parts ("Human: " ++ py_str py h) in
   a <- Py.get conv "assistant" (JStr "") ;;
   ok (append parts ("Assistant: " ++ py_str py a)))%exc.

Definition add_exchange (parts : list string) (ie : nat * (string * string)) : list string :=
  let '(i, (human_msg, ai_msg)) := ie in
  let parts := append parts ("Exchange " ++ PyStr.of_nat i ++ ":") in
  let parts := append parts ("Human: " ++ human_msg) in
  append parts ("Assistant: " ++ ai_msg).

Definition context_parts (self : SimpleExpenseRAG) : exc (list string) :=
  let parts := [] in
  let parts :=
    match processed_chunks self with
    | [] => parts
    | _ =>
        let parts := append parts "=== ALL EXPENSE DATA ===" in
        fold_left add_chunk (enumerate 1 (processed_chunks self)) parts
    end in
  (parts <-
     match chat_history self with
     | [] => ok parts
     | _ =>
         let parts := append parts (nl ++ "=== PREVIOUS CONVERSATIONS ===") in
         let recent_history := lastn 3 (chat_history self) in
         efold add_previous (enumerate 1 recent_history) parts
     end ;;
   ok match current_conversation self with
      | [] => parts
      | _ =>
          let parts := append parts (nl ++ "=== CURRENT CONVERSATION ===") in
          fold_left add_exchange (enumerate 1 (current_conversation self)) parts
      end)%exc.

Definition _build_context (self : SimpleExpenseRAG) (query : string) : exc string :=
  (parts <- context_parts self ;; ok (PyStr.join nl parts))%exc.

End ContextAssembler.

(** ** External calls *)

(** What a request gives back: [requests] raised (connection error,
    timeout), or a response with its status code and what
    [response.json()] yields, [None] when it raises a decode error. *)
Inductive http_result : Type :=
| RequestException
| Response (status_code : Z) (body : option json).

(** What the completion call gives back: an exception with its [str(e)],
    or the text of the first choice. *)
Inductive completion_result : Type :=
| CompletionError (msg : string)
| Completion (content : string).

Record completion_request : Type := {
  model : string;
  messages : list (string * string);
  max_tokens : Z;
  temperature : float
}.

(** The function of the source a call is made from. *)
Inductive caller : Type :=
| in_validate_user_exists
| in_fetch_chat_history_for_validated_user
| in_fetch_user_specific_expense_data
| in_validate_and_send_to_history
| in_chat.

(** A computation that makes external calls and goes on with the answers. *)
Inductive prog (A : Type) : Type :=
| Ret (a : A)
| Get (who : caller) (url : string) (params : list (string * string))
      (k : http_result -> prog A)
| Post (who : caller) (url : string) (payload : list (string * string))
      (k : http_result -> prog A)
| Create (who : caller) (req : completion_request)
      (k : completion_result -> prog A).
Arguments Ret {A} a.
Arguments Get {A} who url params k.
Arguments Post {A} who url payload k.
Arguments Create {A} who req k.

Fixpoint pbind {A B} (p : prog A) (f : A -> prog B) : prog B :=
  match p with
  | Ret a => f a
  | Get who url params k => Get who url params (fun r => pbind (k r) f)
  | Post who url payload k => Post who url payload (fun r => pbind (k r) f)
  | Create who req k => Create who req (fun r => pbind (k r) f)
  end.

(** One external call with its answer, as a run logs it. *)
Inductive event : Type :=
| EGet (who : caller) (url : string) (params : list (string * string)) (r : http_result)
| EPost (who : caller) (url : string) (payload : list (string * string)) (r : http_result)
| ECreate (who : caller) (req : completion_request) (r : completion_result).

(** The outside world: a state and the answer to each kind of call. The
    answer does not depend on the calling function. *)
Record env (W : Type) : Type := {
  on_get : W -> string -> list (string * string) -> http_result * W;
  on_post : W -> string -> list (string * string) -> http_result * W;
  on_create : W -> completion_request -> completion_result * W
}.
Arguments on_get {W}.
Arguments on_post {W}.
Arguments on_create {W}.

Record outcome (W A : Type) : Type := {
  result : A;
  trace : list event;
  world : W
}.
Arguments result {W A}.
Arguments trace {W A}.
Arguments world {W A}.

Fixpoint run_from {W A} (E : env W) (p : prog A) (w : W) (log : list event)
    : outcome W A :=
  match p with
  | Ret a => {| result := a; trace := log; world := w |}
  | Get who url params k =>
      let (r, w') := on_get E w url params in
      run_from E (k r) w' (log ++ [EGet who url params r])
  | Post who url payload k =>
      let (r, w') := on_post E w url payload in
      run_from E (k r) w' (log ++ [EPost who url payload r])
  | Create who req k =>
      let (r, w') := on_create E w req in
      run_from E (k r) w' (log ++ [ECreate who req r])
  end.

Definition run {W A} (E : env W) (p : prog A) (w : W) : outcome W A :=
  run_from E p w [].

(** ** [app/core/utils.py] *)

Definition API_BASE_URL : string := "https://teddybackend-mivk.onrender.com/api/v1".

Definition validate_user_exists (user_id : string) : prog (bool * string) :=
  if PyStr.blank user_id then Ret (false, "")
  else
    let url := API_BASE_URL ++ "/history/get-history" in
    let params := [("userId", PyStr.strip user_id)] in
    Get in_validate_user_exists url params (fun response =>
      match response with
      | RequestException => Ret (false, "")
      | Response status_code body =>
          if status_code =? 200 then
            match body with
            | Some response_data =>
                if Py.is_list response_data
                then Ret (true, PyStr.strip user_id)
                else Ret (false, "")
            | None => Ret (false, "")
            end
          else if status_code =? 404 then Ret (false, "")
          else if status_code =? 400 then Ret (false, "")
          else Ret (false, "")
      end).

Definition fetch_chat_history_for_validated_user (user_id : string) : prog (list json) :=
  let url := API_BASE_URL ++ "/history/get-history" in
  let params := [("userId", user_id)] in
  Get in_fetch_chat_history_for_validated_user url params (fun response =>
    match response with
    | RequestException => Ret []
    | Response status_code body =>
        if status_code =? 200 then
          match body with
          | Some (JList history_data) => Ret history_data
          | Some _ => Ret []
          | None => Ret []
          end
        else Ret []
    end).

Definition fetch_user_specific_expense_data (user_id : string) : prog (option dict) :=
  if PyStr.blank user_id then Ret None
  else
    pbind (validate_user_exists (PyStr.strip user_id)) (fun v =>
      let (is_valid_user, validated_user_id) := v in
      if negb is_valid_user then Ret None
      else
        let primary_url :=
          API_BASE_URL ++ "/report/monthly?userId=" ++ validated_user_id in
        Get in_fetch_user_specific_expense_data primary_url [] (fun response =>
          match response with
          | RequestException => Ret None
          | Response status_code body =>
              if status_code =? 200 then
                match body with
                | Some (JObj ((_ :: _) as data)) => Ret (Some data)
                | Some _ => Ret None
                | None => Ret None
                end
              else if status_code =? 404 then Ret None
              else Ret None
          end)).

Definition validate_and_send_to_history
    (user_message assistant_response user_id : string) : prog bool :=
  if negb (PyStr.truthy user_message) || negb (PyStr.truthy assistant_response)
     || PyStr.blank user_id
  then Ret false
  else
    pbind (validate_user_exists (PyStr.strip user_id)) (fun v =>
      let (is_valid, validated_user_id) := v in
      if negb is_valid then Ret false
      else
        let payload := [("userId", validated_user_id);
                        ("human", PyStr.strip user_message);
                        ("assistant", PyStr.strip assistant_response)] in
        let url := API_BASE_URL ++ "/history/create-history" in
        Post in_validate_and_send_to_history url payload (fun response =>
          match response with
          | RequestException => Ret false
          | Response status_code _ =>
              if (status_code =? 200) || (status_code =? 201)
              then Ret true else Ret false
          end)).

(** ** Methods: state, exceptions and external calls together *)

(** A method on a mutable object of type [S]: it makes calls, leaves the
    object in a new state and returns or raises. A raise keeps the
    mutations made before it. *)
Definition M (S A : Type) : Type := S -> prog (exc A * S).

Definition mret {S A} (a : A) : M S A := fun s => Ret (ok a, s).
Definition mraise {S A} (e : exn) : M S A := fun s => Ret (raise e, s).

Definition mbind {S A B} (m : M S A) (k : A -> M S B) : M S B :=
  fun s => pbind (m s) (fun rs =>
    match rs with
    | (inl e, s') => Ret (inl e, s')
    | (inr a, s') => k a s'
    end).

Definition mget {S} : M S S := fun s => Ret (ok s, s).
Definition mput {S} (s' : S) : M S unit := fun _ => Ret (ok tt, s').
Definition lift_prog {S A} (p : prog A) : M S A :=
  fun s => pbind p (fun a => Ret (ok a, s)).
Definition lift_exc {S A} (x : exc A) : M S A := fun s => Ret (x, s).

(** [try: m  except Exception as e: h(e)] *)
Definition try_except {S A} (m : M S A) (h : exn -> M S A) : M S A :=
  fun s => pbind (m s) (fun rs =>
    match rs with
    | (inl e, s') => h e s'
    | (inr a, s') => Ret (ok a, s')
    end).

Declare Scope method_scope.
Delimit Scope method_scope with method.
Notation "x <- m ;; k" := (mbind m (fun x => k))
  (at level 100, m at next level, right associativity) : method_scope.
Notation "' p <- m ;; k" := (mbind m (fun p => k))
  (at level 100, p pattern, m at next level, right associativity) : method_scope.
Notation "m ;; k" := (mbind m (fun _ => k))
  (at level 100, right associativity) : method_scope.

(** ** [SimpleExpenseRAG], the methods *)

Definition set_current_conversation (c : list (string * string)) (self : SimpleExpenseRAG) :=
  {| current_conversation := c; chat_history := chat_history self;
     expense_data := expense_data self; processed_chunks := processed_chunks self |}.
Definition set_chat_history (h : list json) (self : SimpleExpenseRAG) :=
  {| current_conversation := current_conversation self; chat_history := h;
     expense_data := expense_data self; processed_chunks := processed_chunks self |}.
Definition set_expense_data_field (d : option dict) (self : SimpleExpenseRAG) :=
  {| current_conversation := current_conversation self; chat_history := chat_history self;
     expense_data := d; processed_chunks := processed_chunks self |}.
Definition set_processed_chunks (c : list chunk) (self : SimpleExpenseRAG) :=
  {| current_conversation := current_conversation self; chat_history := chat_history self;
     expense_data := expense_data self; processed_chunks := c |}.

(** [self.field = v] *)
Definition assign {S} (f : S -> S) : M S unit := fun s => Ret (ok tt, f s).

Definition prompt_head : string :=
"Use the information from the context to answer the question at the end. If you don't know the answer based on the provided data, just say that you don't know, definitely do not try to make up an answer.

You are Teddy, a friendly and knowledgeable personal finance assistant. Use ALL the expense data and conversation history to provide helpful, specific financial advice.

".

Definition prompt_question : string :=
"

Question: ".

Definition prompt_guidelines : string :=
"

Guidelines:
- You have access to ALL expense data available - use it comprehensively to answer questions
- If someone asks about expenses, provide a summary of all the expenses, then ask if they specifically want to know about any particular aspect
- Use exact numbers from the expense data when available
- Be encouraging but honest about financial situations
- Provide specific recommendations based on the data
- Reference previous conversations when relevant
- If no relevant data is available, offer general financial advice
- Keep your response helpful and conversational
- If the user is engaging in normal conversation (greetings, casual chat), respond naturally and conversationally while maintaining your role as a finance assistant
".

(** [prompt_template.format(context=context, question=question)] *)
Definition prompt_template (context question : string) : string :=
  prompt_head ++ context ++ prompt_question ++ question ++ prompt_guidelines.

Section Service.

Variable py : interpreter.

(** The value of the environment variable [OPENAI_API_KEY]. *)
Variable OPENAI_API_KEY : option string.

Definition _validate_api_key_format (api_key : string) : bool :=
  prefix "sk-" api_key && (51 <=? String.length api_key)%nat.

(** [SimpleExpenseRAG(api_base_url, openai_api_key)] *)
Definition __init__ (api_base_url : string) (openai_api_key : option string)
    : exc SimpleExpenseRAG :=
  let api_key :=
    match openai_api_key with
    | Some (String _ _ as k) => Some k
    | _ => OPENAI_API_KEY
    end in
  match api_key with
  | Some (String _ _ as api_key) =>
      if negb (_validate_api_key_format api_key)
      then raise (ValueError "OpenAI API key appears to be invalid format. It should start with 'sk-' and be 51+ characters.")
      else ok {| current_conversation := []; chat_history := [];
                 expense_data := None; processed_chunks := [] |}
  | _ => raise (ValueError "OpenAI API key is required. Set OPENAI_API_KEY env var or pass it directly.")
  end.

Definition set_expense_data (expense_data : option dict) : M SimpleExpenseRAG unit :=
  (assign (set_expense_data_field expense_data) ;;
   match expense_data with
   | Some ((_ :: _) as d) =>
       chunks <- lift_exc (_process_data py d) ;;
       assign (set_processed_chunks chunks)
   | _ =>
       assign (set_processed_chunks []) ;;
       assign (set_expense_data_field None)
   end)%method.

Definition load_user_chat_history (user_id : string) : M SimpleExpenseRAG string :=
  if PyStr.blank user_id
  then mraise (ValueError "Invalid user_id: User ID cannot be empty")
  else
    ('(is_valid_user, validated_user_id) <-
        lift_prog (validate_user_exists (PyStr.strip user_id)) ;;
     if negb is_valid_user
     then mraise (ValueError ("Invalid user_id: " ++ user_id ++ ". User not found."))
     else
       chat_history <- lift_prog (fetch_chat_history_for_validated_user validated_user_id) ;;
       assign (set_chat_history chat_history) ;;
       mret validated_user_id)%method.

(** The memory update at the end of a successful [chat]. *)
Definition remember (user_query assistant_response : string)
    (conversation : list (string * string)) : list (string * string) :=
  let conversation := (conversation ++ [(user_query, assistant_response)])%list in
  if (5 <? List.length conversation)%nat then lastn 5 conversation else conversation.

Definition chat_request (full_prompt : string) : completion_request :=
  {| model := "gpt-4o-mini";
     messages := [("system", "You are Teddy, a helpful personal finance assistant.");
                  ("user", full_prompt)];
     max_tokens := 800;
     temperature := 0.7%float |}.

(** The second half of [chat], from the context to the return. *)
Definition answer (user_query validated_user_id : string)
    : M SimpleExpenseRAG (string * string) :=
  (self <- mget ;;
   context <- lift_exc (_build_context py self user_query) ;;
   let full_prompt := prompt_template context user_query in
   response <- lift_prog (Create in_chat (chat_request full_prompt) Ret) ;;
   match response with
   | Completion assistant_response =>
       assign (fun self =>
         set_current_conversation
           (remember user_query assistant_response (current_conversation self)) self) ;;
       mret (assistant_response, validated_user_id)
   | CompletionError e =>
       mret ("Error generating response: " ++ e, validated_user_id)
   end)%method.

Definition chat (user_query user_id : string) : M SimpleExpenseRAG (string * string) :=
  (validated_user_id <-
     (if PyStr.truthy user_id then
        if negb (PyStr.truthy (PyStr.strip user_id))
        then mraise (ValueError "Invalid user_id: User ID cannot be empty")
        else load_user_chat_history (PyStr.strip user_id)
      else (assign (set_chat_history []) ;; mret "")) ;;
   answer user_query validated_user_id)%method.

End Service.

(** ** [app/routes/chat.py] *)

Record ChatRequest : Type := { message : string; user_id : string }.
Record ChatResponse : Type := { response : string; status : string }.

(** The module globals. *)
Record server : Type := Server {
  rag_instance : option SimpleExpenseRAG;
  user_rag_cache : list (string * SimpleExpenseRAG)
}.

Definition MAX_CACHE_SIZE : Z := 100.

Definition keys {V} (d : list (string * V)) : list string := map fst d.

Definition in_cache {V} (k : string) (d : list (string * V)) : bool :=
  existsb (String.eqb k) (keys d).

Fixpoint cache_get {V} (k : string) (d : list (string * V)) : option V :=
  match d with
  | [] => None
  | (k', v) :: d' => if String.eqb k k' then Some v else cache_get k d'
  end.

(** [del d[k]] *)
Definition cache_del {V} (k : string) (d : list (string * V)) : list (string * V) :=
  filter (fun kv => negb (String.eqb k (fst kv))) d.

(** [d[k] = v]: a new key goes last, a known key keeps its place. *)
Fixpoint cache_set {V} (k : string) (v : V) (d : list (string * V)) : list (string * V) :=
  match d with
  | [] => [(k, v)]
  | (k', v') :: d' =>
      if String.eqb k k' then (k', v) :: d' else (k', v') :: cache_set k v d'
  end.

(** [int(len(user_rag_cache) * 0.2)] *)
Definition remove_count (len : Z) : exc Z :=
  (x <- PyNum.mul (PyInt len) (PyFloat 0.2%float) ;;
   f <- PyNum.to_float x ;;
   PyNum.int_of_float f)%exc.

Definition cleanup_rag_cache {V} (user_rag_cache : list (string * V))
    : exc (list (string * V)) :=
  (users_to_remove <-
     (if MAX_CACHE_SIZE <? Z.of_nat (List.length user_rag_cache) then
        n <- remove_count (Z.of_nat (List.length user_rag_cache)) ;;
        ok (firstn (Z.to_nat n) (keys user_rag_cache))
      else ok []) ;;
   ok (fold_left (fun cache user_id => cache_del user_id cache)
                 users_to_remove user_rag_cache))%exc.

Definition set_cache (c : list (string * SimpleExpenseRAG)) (sv : server) : server :=
  {| rag_instance := rag_instance sv; user_rag_cache := c |}.

(** A method call on the session stored under [key]: the object is
    mutated in place, so the cache sees every change, also when the
    method raises. *)
Definition on_session {A} (key : string) (m : M SimpleExpenseRAG A) : M server A :=
  fun sv =>
    match cache_get key (user_rag_cache sv) with
    | None => Ret (raise (KeyError key), sv)
    | Some self =>
        pbind (m self) (fun rs =>
          let (r, self') := rs in
          Ret (r, set_cache (cache_set key self' (user_rag_cache sv)) sv))
    end.

Definition is_greeting (message : string) : bool :=
  existsb (fun greeting => PyStr.contains greeting (PyStr.lower message))
          ["hi"; "hello"; "hey"].

Section Route.

Variable py : interpreter.
Variable OPENAI_API_KEY : option string.

(** [str(e)] of an exception, as the interpreter and the libraries word
    it, taken as given. *)
Variable exn_text : exn -> string.

(** The get-or-create step: clean up when over capacity, then insert a
    fresh session for an unseen key. *)
Definition get_or_create (user_id_key : string) : M server unit :=
  (sv <- mget ;;
   (if MAX_CACHE_SIZE <? Z.of_nat (List.length (user_rag_cache sv)) then
      cache <- lift_exc (cleanup_rag_cache (user_rag_cache sv)) ;;
      assign (set_cache cache)
    else mret tt) ;;
   sv <- mget ;;
   if negb (in_cache user_id_key (user_rag_cache sv)) then
     self <- lift_exc (__init__ OPENAI_API_KEY API_BASE_URL OPENAI_API_KEY) ;;
     assign (set_cache (user_rag_cache sv ++ [(user_id_key, self)])%list)
   else mret tt)%method.

(** The body of the [try] block. *)
Definition handle (request : ChatRequest) : M server ChatResponse :=
  let user_id_key := PyStr.strip (user_id request) in
  (get_or_create user_id_key ;;
   user_expense_data <-
     lift_prog (fetch_user_specific_expense_data (PyStr.strip (user_id request))) ;;
   match user_expense_data with
   | Some (_ :: _) => on_session user_id_key (set_expense_data py user_expense_data)
   | _ => on_session user_id_key (set_expense_data py None)
   end ;;
   '(assistant_response, validated_user_id) <-
      on_session user_id_key
        (chat py (PyStr.strip (message request)) (PyStr.strip (user_id request))) ;;
   (if negb (PyStr.truthy assistant_response)
    then mraise (HTTPException 500 "No response from assistant")
    else mret tt) ;;
   (if PyStr.truthy validated_user_id && negb (is_greeting (message request))
    then
      _ <- lift_prog (validate_and_send_to_history
                        (PyStr.strip (message request)) assistant_response
                        validated_user_id) ;;
      mret tt
    else mret tt) ;;
   mret {| response := assistant_response; status := "success" |})%method.

Definition chat_with_teddy (request : ChatRequest) : M server ChatResponse :=
  (sv <- mget ;;
   match rag_instance sv with
   | None => mraise (HTTPException 503 "RAG system not initialized")
   | Some _ =>
       if PyStr.blank (message request)
       then mraise (HTTPException 400 "Message is required and cannot be empty")
       else if PyStr.blank (user_id request)
       then mraise (HTTPException 400 "User ID is required and cannot be empty. Chat history cannot be collected without a valid user ID.")
       else
         try_except (handle request) (fun e =>
           match e with
           | ValueError error_msg =>
               if PyStr.contains "Invalid user_id" error_msg
                  || PyStr.contains "User not found" error_msg
               then mraise (HTTPException 404 ("Unable to fetch chat data. " ++ error_msg))
               else mraise (HTTPException 400 error_msg)
           | e => mraise (HTTPException 500 ("Error processing chat: " ++ exn_text e))
           end)
   end)%method.

End Route.

(** ** Reading a log of calls *)

Definition event_caller (e : event) : caller :=
  match e with
  | EGet who _ _ _ | EPost who _ _ _ | ECreate who _ _ => who
  end.

Definition caller_eqb (a b : caller) : bool :=
  match a, b with
  | in_validate_user_exists, in_validate_user_exists
  | in_fetch_chat_history_for_validated_user, in_fetch_chat_history_for_validated_user
  | in_fetch_user_specific_expense_data, in_fetch_user_specific_expense_data
  | in_validate_and_send_to_history, in_validate_and_send_to_history
  | in_chat, in_chat => true
  | _, _ => false
  end.

(** How many calls of a log were made from the function [who]. *)
Definition calls (who : caller) (log : list event) : nat :=
  List.length (filter (fun e => caller_eqb who (event_caller e)) log).

(** A write to the history-create endpoint. *)
Definition is_write (e : event) : bool :=
  match e with EPost _ _ _ _ => true | _ => false end.

Definition history_url : string := API_BASE_URL ++ "/history/get-history".
Definition create_url : string := API_BASE_URL ++ "/history/create-history".
Definition report_url (user_id : string) : string :=
  API_BASE_URL ++ "/report/monthly?userId=" ++ user_id.

(** The one answer of the history endpoint that validates an identifier:
    status 200 with a list for a body. *)
Definition accepted (r : http_result) : Prop :=
  exists l, r = Response 200 (Some (JList l)).

Definition is_accepted (r : http_result) : bool :=
  match r with
  | Response s (Some (JList _)) => s =? 200
  | _ => false
  end.

(** What the record fetch makes of the answer of the report endpoint. *)
Definition report_of (r : http_result) : option dict :=
  match r with
  | Response s (Some (JObj ((_ :: _) as d))) => if s =? 200 then Some d else None
  | _ => None
  end.

(** What the persist step makes of the answer of the create endpoint. *)
Definition persisted (r : http_result) : bool :=
  match r with
  | Response s _ => (s =? 200) || (s =? 201)
  | RequestException => false
  end.

(** What the History Loader makes of the answer of the history endpoint. *)
Definition history_of (r : http_result) : list json :=
  match r with
  | Response s (Some (JList l)) => if s =? 200 then l else []
  | _ => []
  end.

(** The answers the specification lists as failures of a history read. *)
Inductive rejected : http_result -> Prop :=
| rejected_network : rejected RequestException
| rejected_404 body : rejected (Response 404 body)
| rejected_400 body : rejected (Response 400 body)
| rejected_status s body : s <> 200 -> rejected (Response s body)
| rejected_malformed : rejected (Response 200 None)
| rejected_not_list v : Py.is_list v = false -> rejected (Response 200 (Some v)).

(** ** The specification's reading of the memory and of the context *)


(** The last three entries of a list, oldest first: entries are dropped
    from the front while more than three are left. *)
Fixpoint last_three {A} (l : list A) : list A :=
  match l with
  | _ :: ((_ :: _ :: _ :: _) as rest) => last_three rest
  | _ => l
  end.

(** The entries of a list with their numbers, counted from [n]. *)
Fixpoint numbered {A} (n : nat) (l : list A) : list (nat * A) :=
  match l with
  | [] => []
  | x :: l' => (n, x) :: numbered (S n) l'
  end.

Section ContextSpec.

Variable py : interpreter.

(** A labeled section: nothing at all for an empty collection. *)
Definition labeled {A} (header : string) (collection : list A)
    (lines : list A -> list string) : list string :=
  match collection with
  | [] => []
  | _ => header :: lines collection
  end.

(** A chunk rendered in full under its number and kind. *)
Definition chunk_line (ic : nat * chunk) : string :=
  "Data " ++ PyStr.of_nat (fst ic) ++ " (" ++ ctype (snd ic) ++ "):"
  ++ nl ++ text (snd ic).

Definition chunk_lines (chunks : list chunk) : list string :=
  map chunk_line (numbered 1 chunks).

(** The text of a field of a persisted turn, empty when absent. *)
Definition turn_field (conv : json) (k : string) : string :=
  match conv with
  | JObj d =>
      match Py.lookup k d with
      | Some v => py_str py v
      | None => ""
      end
  | _ => ""
  end.

(** The last three persisted turns, oldest first. *)
Definition previous_lines (ic : nat * json) : list string :=
  ["Previous " ++ PyStr.of_nat (fst ic) ++ ":";
   "Human: " ++ turn_field (snd ic) "human";
   "Assistant: " ++ turn_field (snd ic) "assistant"].

Definition history_lines (history : list json) : list string :=
  flat_map previous_lines (numbered 1 (last_three history)).

Definition exchange_lines (ie : nat * (string * string)) : list string :=
  ["Exchange " ++ PyStr.of_nat (fst ie) ++ ":";
   "Human: " ++ fst (snd ie);
   "Assistant: " ++ snd (snd ie)].

(** All the turns of the in-session memory, oldest first. *)
Definition memory_lines (memory : list (string * string)) : list string :=
  flat_map exchange_lines (numbered 1 memory).

(** The three sections in their fixed order. *)
Definition assemble (chunks : list chunk) (history : list json)
    (memory : list (string * string)) : string :=
  PyStr.join nl
    (labeled "=== ALL EXPENSE DATA ===" chunks chunk_lines
     ++ labeled (nl ++ "=== PREVIOUS CONVERSATIONS ===") history history_lines
     ++ labeled (nl ++ "=== CURRENT CONVERSATION ===") memory memory_lines)%list.

End ContextSpec.

(** ** Shapes of runs *)

(** How a run of [chat] can end: with an exception and no completion
    call, with a failed completion call, or with a successful one. *)
Inductive chat_ending {W} (user_query user_id : string) (self : SimpleExpenseRAG)
    (o : outcome W (exc (string * string) * SimpleExpenseRAG)) : Prop :=
| ending_raised e :
    fst (result o) = inl e ->
    current_conversation (snd (result o)) = current_conversation self ->
    (forall req r, ~ In (ECreate in_chat req r) (trace o)) ->
    chat_ending user_query user_id self o
| ending_provider_failure req msg :
    fst (result o)
    = ok ("Error generating response: " ++ msg,
          if PyStr.truthy user_id then PyStr.strip user_id else "") ->
    current_conversation (snd (result o)) = current_conversation self ->
    In (ECreate in_chat req (CompletionError msg)) (trace o) ->
    (forall req' r, In (ECreate in_chat req' r) (trace o) ->
                    req' = req /\ r = CompletionError msg) ->
    chat_ending user_query user_id self o
| ending_success req assistant_response :
    fst (result o)
    = ok (assistant_response, if PyStr.truthy user_id then PyStr.strip user_id else "") ->
    current_conversation (snd (result o))
    = remember user_query assistant_response (current_conversation self) ->
    In (ECreate in_chat req (Completion assistant_response)) (trace o) ->
    (forall req' r, In (ECreate in_chat req' r) (trace o) ->
                    req' = req /\ r = Completion assistant_response) ->
    chat_ending user_query user_id self o.

(** A method that makes no call. *)
Definition quiet {S A} (m : M S A) : Prop :=
  forall W (E : env W) (w : W) (s : S),
    trace (run E (m s) w) = [] /\ world (run E (m s) w) = w.

(** A method of the server that leaves the keys of the cache as they
    are, in their order, whatever it returns or raises. *)
Definition keeps_keys {A} (m : M server A) : Prop :=
  forall W (E : env W) (w : W) (sv : server),
    keys (user_rag_cache (snd (result (run E (m sv) w)))) = keys (user_rag_cache sv).

(** The cache after the get-or-create step, whatever the outcome. *)
Definition cache_after {W} (E : env W) (w : W) (key : option string)
    (user_id_key : string) (sv : server) : list (string * SimpleExpenseRAG) :=
  user_rag_cache (snd (result (run E (get_or_create key user_id_key sv) w))).

(** The module globals and the world after a sequence of requests,
    served one after the other. *)
Fixpoint serve_all {W} (E : env W) (py : interpreter) (key : option string)
    (exn_text : exn -> string) (requests : list ChatRequest) (sv : server) (w : W)
    : server * W :=
  match requests with
  | [] => (sv, w)
  | request :: rest =>
      let o := run E (chat_with_teddy py key exn_text request sv) w in
      serve_all E py key exn_text rest (snd (result o)) (world o)
  end.

(** ** Scenarios *)

(** A well-formed API key. *)
Definition sample_key : option string :=
  Some "sk-000000000000000000000000000000000000000000000000".

(** A store that knows every user, holds no records and accepts every
    write, with a completion provider that answers. *)
Definition friendly : env unit := {|
  on_get := fun w url params =>
    if PyStr.contains "/report/" url then (Response 404 None, w)
    else (Response 200 (Some (JList [])), w);
  on_post := fun w url payload => (Response 201 None, w);
  on_create := fun w req => (Completion "Happy to help.", w)
|}.

(** The same store with a completion provider that raises. *)
Definition provider_down : env unit := {|
  on_get := on_get friendly;
  on_post := on_post friendly;
  on_create := fun w req => (CompletionError "Connection error.", w)
|}.

(** A store that knows nobody, with the same provider. *)
Definition unknown_to_store : env unit := {|
  on_get := fun w url params => (Response 404 None, w);
  on_post := on_post friendly;
  on_create := on_create friendly
|}.

Definition started : server :=
  {| rag_instance := Some (Session [] [] None []); user_rag_cache := [] |}.

(** The identifiers [u0], [u1], ... of [n] distinct users. *)
Definition users (n : nat) : list string :=
  map (fun i => "u" ++ PyStr.of_nat i) (seq 0 n).

(** A store whose report for every user holds a transaction without an
    amount. *)
Definition broken_records : env unit := {|
  on_get := fun w url params =>
    if PyStr.contains "/report/" url
    then (Response 200 (Some (JObj
            [("daily", JList [JObj [("_id", JStr "2024-01-01");
                                    ("transactions",
                                     JList [JObj [("transactionType", JStr "expense")]])]])])),
          w)
    else (Response 200 (Some (JList [])), w);
  on_post := on_post friendly;
  on_create := on_create friendly
|}.

(** A persisted turn as the store gives it. *)
Definition turn (human assistant : string) : json :=
  JObj [("human", JStr human); ("assistant", JStr assistant)].

(** A session with two chunks, five persisted turns and a memory of two
    exchanges. *)
Definition busy_session : SimpleExpenseRAG :=
  {| current_conversation :=
       [("How much on food?", "About $200."); ("And on rent?", "Exactly $900.")];
     chat_history :=
       [turn "first question" "first answer"; turn "second question" "second answer";
        turn "third question" "third answer"; turn "fourth question" "fourth answer";
        turn "fifth question" "fifth answer"];
     expense_data := None;
     processed_chunks :=
       [Chunk "daily" (Some (JStr "2024-01-01")) None "Date: 2024-01-01"
          (PyInt 0) (PyInt 0) (PyInt 0);
        Chunk "monthly" None (Some (JStr "2024-01")) "Month: 2024-01"
          (PyInt 0) (PyInt 0) (PyInt 0)] |}.

(** The context of that session, as it is sent to the provider. *)
Definition busy_context : string :=
"=== ALL EXPENSE DATA ===
Data 1 (daily):
Date: 2024-01-01
Data 2 (monthly):
Month: 2024-01

=== PREVIOUS CONVERSATIONS ===
Previous 1:
Human: third question
Assistant: third answer
Previous 2:
Human: fourth question
Assistant: fourth answer
Previous 3:
Human: fifth question
Assistant: fifth answer

=== CURRENT CONVERSATION ===
Exchange 1:
Human: How much on food?
Assistant: About $200.
Exchange 2:
Human: And on rent?
Assistant: Exactly $900.".

(** A cache of [n] users who each had one exchange. *)
Definition crowded (n : nat) : server :=
  {| rag_instance := Some (Session [] [] None []);
     user_rag_cache :=
       map (fun k => (k, Session [("an earlier question", "an earlier answer")] [] None []))
           (users n) |}.

(** The module globals after one more request served. *)
Definition serve (sv : server) (request : ChatRequest) : server :=
  snd (result (run friendly (chat_with_teddy python311 sample_key (fun _ => "") request sv) tt)).

Definition ask (user_id : string) : ChatRequest :=
  {| message := "what did I spend?"; user_id := user_id |}.

(** ** The rest of [app/core/utils.py] *)

(** The functions below are not on the path of a turn; their calls are
    logged without a calling function. *)
Inductive call (A : Type) : Type :=
| Done (a : A)
| GetThen (url : string) (params : list (string * string)) (k : http_result -> call A)
| PostThen (url : string) (payload : list (string * string)) (k : http_result -> call A).
Arguments Done {A} a.
Arguments GetThen {A} url params k.
Arguments PostThen {A} url payload k.

(** A request with its answer. *)
Inductive sent : Type :=
| SentGet (url : string) (params : list (string * string)) (r : http_result)
| SentPost (url : string) (payload : list (string * string)) (r : http_result).

Fixpoint perform {W A} (E : env W) (p : call A) (w : W) : A * list sent * W :=
  match p with
  | Done a => (a, [], w)
  | GetThen url params k =>
      let (r, w') := on_get E w url params in
      let '(a, log, w'') := perform E (k r) w' in
      (a, SentGet url params r :: log, w'')
  | PostThen url payload k =>
      let (r, w') := on_post E w url payload in
      let '(a, log, w'') := perform E (k r) w' in
      (a, SentPost url payload r :: log, w'')
  end.

(** The request of a logged call of the turn, without its calling function. *)
Definition sent_of (e : event) : option sent :=
  match e with
  | EGet _ url params r => Some (SentGet url params r)
  | EPost _ url payload r => Some (SentPost url payload r)
  | ECreate _ _ _ => None
  end.

(** [fetch_expense_data(user_id=None)] *)
Definition fetch_expense_data (user_id : option string) : call (option dict) :=
  match user_id with
  | Some user_id =>
      if PyStr.truthy user_id && PyStr.truthy (PyStr.strip user_id) then
        let url := API_BASE_URL ++ "/report/monthly" in
        let params := [("userId", PyStr.strip user_id)] in
        GetThen url params (fun response =>
          match response with
          | RequestException => Done None
          | Response status_code body =>
              if status_code =? 404 then Done None
              else if negb (status_code =? 200) then Done None
              else
                match body with
                | Some (JObj data) => Done (Some data)
                | Some _ => Done None
                | None => Done None
                end
          end)
      else Done None
  | None => Done None
  end.

(** [fetch_chat_history(user_id)]: the history and whether the user is valid. *)
Definition fetch_chat_history (user_id : string) : call (list json * bool) :=
  if PyStr.blank user_id then Done ([], false)
  else
    let url := API_BASE_URL ++ "/history/get-history" in
    let params := [("userId", PyStr.strip user_id)] in
    GetThen url params (fun response =>
      match response with
      | RequestException => Done ([], false)
      | Response status_code body =>
          if status_code =? 200 then
            match body with
            | Some (JList history_data) => Done (history_data, true)
            | Some _ => Done ([], false)
            | None => Done ([], false)
            end
          else if status_code =? 404 then Done ([], false)
          else if status_code =? 400 then Done ([], false)
          else Done ([], false)
      end).

(** [send_to_history(user_message, assistant_response, user_id)], the
    write without the identity check. *)
Definition send_to_history (user_message assistant_response user_id : string) : call bool :=
  if negb (PyStr.truthy user_message) || negb (PyStr.truthy assistant_response)
     || PyStr.blank user_id
  then Done false
  else
    let payload := [("userId", PyStr.strip user_id);
                    ("human", PyStr.strip user_message);
                    ("assistant", PyStr.strip assistant_response)] in
    let url := API_BASE_URL ++ "/history/create-history" in
    PostThen url payload (fun response =>
      match response with
      | RequestException => Done false
      | Response status_code _ =>
          if (status_code =? 200) || (status_code =? 201) then Done true else Done false
      end).

(** ** The rest of [SimpleExpenseRAG] *)

Definition reset_conversation_state (self : SimpleExpenseRAG) : SimpleExpenseRAG :=
  {| current_conversation := []; chat_history := [];
     expense_data := None; processed_chunks := [] |}.

(** [load_chat_history(chat_history_data=None)] *)
Definition load_chat_history (chat_history_data : option (list json))
    (self : SimpleExpenseRAG) : SimpleExpenseRAG :=
  match chat_history_data with
  | Some ((_ :: _) as h) => set_chat_history h self
  | _ => set_chat_history [] self
  end.

Module PyText.

(** [s.split()]: the words between runs of whitespace. *)
Fixpoint split_from (s word : string) : list string :=
  match s with
  | EmptyString => match word with EmptyString => [] | _ => [word] end
  | String c s' =>
      if PyStr.is_space c then
        match word with
        | EmptyString => split_from s' EmptyString
        | _ => word :: split_from s' EmptyString
        end
      else split_from s' (word ++ String c EmptyString)
  end.

Definition split (s : string) : list string := split_from s EmptyString.

(** [s.count(sub)]: the occurrences of [sub] that do not overlap, from the
    left. [skip] is the number of characters still covered by the last
    occurrence found. *)
Fixpoint count_from (sub s : string) (skip : nat) : nat :=
  match s with
  | EmptyString => 0
  | String c s' =>
      match skip with
      | S k => count_from sub s' k
      | O =>
          if prefix sub s
          then S (count_from sub s' (String.length sub - 1))
          else count_from sub s' 0
      end
  end.

Definition count (sub s : string) : nat :=
  match sub with
  | EmptyString => S (String.length s)
  | _ => count_from sub s 0
  end.

(** [l[:n]], for an [n] of either sign. *)
Definition slice_to {A} (n : Z) (l : list A) : list A :=
  if 0 <=? n then firstn (Z.to_nat n) l
  else firstn (List.length l - Z.to_nat (- n)) l.

(** [l.sort(reverse=True, key=...)] on scored items: by decreasing score,
    items of equal score in their original order. *)
Fixpoint insert_desc {A} (x : nat * A) (l : list (nat * A)) : list (nat * A) :=
  match l with
  | [] => [x]
  | y :: l' => if (fst y <=? fst x)%nat then x :: l else y :: insert_desc x l'
  end.

Definition sort_desc {A} (l : list (nat * A)) : list (nat * A) :=
  fold_right insert_desc [] l.

End PyText.

Definition word_score (text_lower : string) (score : nat) (word : string) : nat :=
  if PyStr.contains word text_lower
  then (score + PyText.count word text_lower)%nat else score.

Definition kind_boost (query_lower : string) (c : chunk) : nat :=
  if PyStr.contains "daily" query_lower && String.eqb (ctype c) "daily" then 5%nat
  else if PyStr.contains "weekly" query_lower && String.eqb (ctype c) "weekly" then 5%nat
  else if PyStr.contains "monthly" query_lower && String.eqb (ctype c) "monthly" then 5%nat
  else 0%nat.

(** The score of a chunk for a query already in lower case. *)
Definition chunk_score (query_lower : string) (c : chunk) : nat :=
  let text_lower := PyStr.lower (text c) in
  let query_words := PyText.split query_lower in
  (fold_left (word_score text_lower) query_words 0 + kind_boost query_lower c)%nat.

Definition score_chunk (query_lower : string) (scored_chunks : list (nat * chunk))
    (c : chunk) : list (nat * chunk) :=
  let score := chunk_score query_lower c in
  if (0 <? score)%nat then (scored_chunks ++ [(score, c)])%list else scored_chunks.

(** [_simple_search(query, n_results=5)] *)
Definition _simple_search (self : SimpleExpenseRAG) (query : string) (n_results : Z)
    : list chunk :=
  let query_lower := PyStr.lower query in
  let scored_chunks := fold_left (score_chunk query_lower) (processed_chunks self) [] in
  map snd (PyText.slice_to n_results (PyText.sort_desc scored_chunks)).

(** One scored chunk stands before another when its score is not less. *)
Definition before {A} (x y : nat * A) : Prop := (fst y <= fst x)%nat.

(** The step of the route that hands the fetched records to the session
    of the user. *)
Definition refresh_records (py : interpreter) (user_id_key : string)
    (user_expense_data : option dict) : M server unit :=
  match user_expense_data with
  | Some (_ :: _) => on_session user_id_key (set_expense_data py user_expense_data)
  | _ => on_session user_id_key (set_expense_data py None)
  end.

(** A read: a call that is neither a write nor a completion. *)
Definition is_read (e : event) : bool :=
  match e with EGet _ _ _ _ => true | _ => false end.

Section Stages.

Variable py : interpreter.
Variable OPENAI_API_KEY : option string.

(** How far the [try] block of a well-formed request gets: the creation
    of the session raises, or the hand-over of the records raises, or the
    session is not in the cache, or the session runs [chat]; then [chat]
    raises or answers nothing, or the turn is answered, and persisted unless
    it is a greeting. *)
Inductive turn_stage {W} (E : env W) (w : W) (request : ChatRequest) (sv : server)
    (o : outcome W (exc ChatResponse * server)) : Prop :=
| create_failed e sv0 :
    let key := PyStr.strip (user_id request) in
    result (run E (get_or_create OPENAI_API_KEY key sv) w) = (inl e, sv0) ->
    result o = (inl e, sv0) ->
    trace o = [] ->
    world o = w ->
    turn_stage E w request sv o
| refresh_failed e sv0 sv2 :
    let key := PyStr.strip (user_id request) in
    let o1 := run E (fetch_user_specific_expense_data key) w in
    result (run E (get_or_create OPENAI_API_KEY key sv) w) = (ok tt, sv0) ->
    result (run E (refresh_records py key (result o1) sv0) (world o1)) = (inl e, sv2) ->
    result o = (inl e, sv2) ->
    trace o = trace o1 ->
    turn_stage E w request sv o
| session_missing sv0 sv2 :
    let key := PyStr.strip (user_id request) in
    let o1 := run E (fetch_user_specific_expense_data key) w in
    result (run E (get_or_create OPENAI_API_KEY key sv) w) = (ok tt, sv0) ->
    result (run E (refresh_records py key (result o1) sv0) (world o1)) = (ok tt, sv2) ->
    cache_get key (user_rag_cache sv2) = None ->
    result o = (inl (KeyError key), sv2) ->
    trace o = trace o1 ->
    turn_stage E w request sv o
| session_ran sv0 sv2 self :
    let key := PyStr.strip (user_id request) in
    let o1 := run E (fetch_user_specific_expense_data key) w in
    let o3 := run E (chat py (PyStr.strip (message request)) key self) (world o1) in
    result (run E (get_or_create OPENAI_API_KEY key sv) w) = (ok tt, sv0) ->
    result (run E (refresh_records py key (result o1) sv0) (world o1)) = (ok tt, sv2) ->
    cache_get key (user_rag_cache sv2) = Some self ->
    snd (result o)
    = set_cache (cache_set key (snd (result o3)) (user_rag_cache sv2)) sv2 ->
    (exists e, fst (result o) = inl e /\ trace o = (trace o1 ++ trace o3)%list
               /\ (fst (result o3) = inl e
                   \/ (e = HTTPException 500 "No response from assistant"
                       /\ exists v, fst (result o3) = ok ("", v))))
    \/ (exists a,
          fst (result o3) = ok (a, key) /\ PyStr.truthy a = true
          /\ fst (result o) = ok {| response := a; status := "success" |}
          /\ trace o
             = (trace o1 ++ trace o3
                ++ if is_greeting (message request) then []
                   else trace (run E (validate_and_send_to_history
                                        (PyStr.strip (message request)) a key)
                                 (world o3)))%list) ->
    turn_stage E w request sv o.

End Stages.

(** The [except] clauses of the route: what an exception of the [try]
    block becomes. *)
Definition http_error (exn_text : exn -> string) (e : exn) : exn :=
  match e with
  | ValueError error_msg =>
      if PyStr.contains "Invalid user_id" error_msg
         || PyStr.contains "User not found" error_msg
      then HTTPException 404 ("Unable to fetch chat data. " ++ error_msg)
      else HTTPException 400 error_msg
  | e => HTTPException 500 ("Error processing chat: " ++ exn_text e)
  end.

(** A chunk carries the kind of its granularity and the [_id] of its
    period entry: under ['date'] for a day, under ['period'] for a week or a
    month. *)
Definition labelled (kind : string) (entry : json) (c : chunk) : Prop :=
  ctype c = kind
  /\ exists id,
       Py.getitem entry "_id" = ok id
       /\ if String.eqb kind "daily"
          then date c = Some id /\ period c = None
          else date c = None /\ period c = Some id.

(** ** [app/services/rag_manager.py] and the startup of [app/main.py] *)

Definition initialize_rag_system (OPENAI_API_KEY : option string)
    : option SimpleExpenseRAG :=
  match OPENAI_API_KEY with
  | Some (String _ _) =>
      match __init__ OPENAI_API_KEY API_BASE_URL OPENAI_API_KEY with
      | inr rag_instance => Some rag_instance
      | inl _ => None
      end
  | _ => None
  end.

Definition set_rag_instance (rag : SimpleExpenseRAG) (sv : server) : server :=
  {| rag_instance := Some rag; user_rag_cache := user_rag_cache sv |}.

(** The module globals as the imports leave them. *)
Definition imported : server := {| rag_instance := None; user_rag_cache := [] |}.

Definition startup_event (OPENAI_API_KEY : option string) : server :=
  match initialize_rag_system OPENAI_API_KEY with
  | Some rag_system => set_rag_instance rag_system imported
  | None => imported
  end.

(* ================================================================== *)
(** * Part II. Properties                                              *)
(* ================================================================== *)

(** ** The embedding at work *)

Example format_2f_fifty : PyNum.format_2f (PyInt 50) = ok "50.00".
Proof. vm_compute. reflexivity. Qed.

Example format_2f_tie : PyNum.format_2f (PyFloat 0.125) = ok "0.12".
Proof. vm_compute. reflexivity. Qed.

Example format_2f_negative : PyNum.format_2f (PyFloat (-1234.5678)) = ok "-1234.57".
Proof. vm_compute. reflexivity. Qed.

Example strip_identifier : PyStr.strip "  u1  " = "u1".
Proof. vm_compute. reflexivity. Qed.

Example greeting_inside_a_word : is_greeting "What did I spend this month?" = true.
Proof. vm_compute. reflexivity. Qed.

(** The end-to-end scenario of the specification: one daily entry with one
    $50 expense shows [Expenses: $50.00] in the prompt, and the turn of [u1]
    is answered and persisted. *)
Example fifty_dollar_turn :
  let store : env unit := {|
    on_get := fun w url params =>
      if PyStr.contains "/report/" url
      then (Response 200 (Some (JObj (daily_report "2024-01-01"
                                        [transaction "expense" (PyInt 50)]))), w)
      else (Response 200 (Some (JList [])), w);
    on_post := on_post friendly;
    on_create := on_create friendly |} in
  let o := run store (chat_with_teddy python311 sample_key (fun _ => "") (ask "u1") started) tt in
  fst (result o) = ok {| response := "Happy to help."; status := "success" |}
  /\ existsb (fun e => match e with
                       | ECreate _ req _ =>
                           existsb (fun m => PyStr.contains "Expenses: $50.00" (snd m))
                                   (messages req)
                       | _ => false
                       end) (trace o) = true
  /\ existsb is_write (trace o) = true.
Proof. cbv zeta. repeat split; vm_compute; reflexivity. Qed.

(** ** Runs *)

Lemma accepted_or_rejected (r : http_result) : accepted r \/ rejected r.
Proof.
  destruct r as [|s body]; [right; apply rejected_network|].
  destruct (Z.eq_dec s 200) as [->|Hs]; [|right; now apply rejected_status].
  destruct body as [v|]; [|right; apply rejected_malformed].
  destruct v; try (right; apply rejected_not_list; reflexivity).
  left. now eexists.
Qed.

Lemma rejected_not_accepted (r : http_result) : rejected r -> ~ accepted r.
Proof.
  intros H [l ->]. inversion H; subst; try discriminate; congruence.
Qed.

Lemma run_from_log {W A} (E : env W) (p : prog A) :
  forall (w : W) (log : list event),
    run_from E p w log
    = {| result := result (run E p w);
         trace := (log ++ trace (run E p w))%list;
         world := world (run E p w) |}.
Proof.
  unfold run.
  induction p as [a|who url params k IH|who url payload k IH|who req k IH];
    intros w log; cbn [run_from].
  - now rewrite app_nil_r.
  - destruct (on_get E w url params) as [r w'].
    rewrite (IH r w' (log ++ _)%list), (IH r w' ([] ++ _)%list).
    cbn. now rewrite <- app_assoc.
  - destruct (on_post E w url payload) as [r w'].
    rewrite (IH r w' (log ++ _)%list), (IH r w' ([] ++ _)%list).
    cbn. now rewrite <- app_assoc.
  - destruct (on_create E w req) as [r w'].
    rewrite (IH r w' (log ++ _)%list), (IH r w' ([] ++ _)%list).
    cbn. now rewrite <- app_assoc.
Qed.

(** Running [p] and then [f] logs the calls of [p] followed by those of [f]. *)
Lemma run_pbind {W A B} (E : env W) (p : prog A) (f : A -> prog B) :
  forall w : W,
    run E (pbind p f) w
    = let o := run E p w in
      let o' := run E (f (result o)) (world o) in
      {| result := result o'; trace := (trace o ++ trace o')%list; world := world o' |}.
Proof.
  unfold run.
  induction p as [a|who url params k IH|who url payload k IH|who req k IH];
    intros w; cbn [pbind run_from].
  - cbn. now destruct (run_from E (f a) w []).
  - destruct (on_get E w url params) as [r w'].
    rewrite run_from_log, (run_from_log E (k r)). unfold run. rewrite IH.
    reflexivity.
  - destruct (on_post E w url payload) as [r w'].
    rewrite run_from_log, (run_from_log E (k r)). unfold run. rewrite IH.
    reflexivity.
  - destruct (on_create E w req) as [r w'].
    rewrite run_from_log, (run_from_log E (k r)). unfold run. rewrite IH.
    reflexivity.
Qed.

Lemma run_Ret {W A} (E : env W) (a : A) (w : W) :
  run E (Ret a) w = {| result := a; trace := []; world := w |}.
Proof. reflexivity. Qed.

(** ** Stripping *)

Lemma rstrip_cons (c : ascii) (s : string) :
  PyStr.rstrip (String c s)
  = match PyStr.rstrip s with
    | EmptyString => if PyStr.is_space c then EmptyString else String c EmptyString
    | r => String c r
    end.
Proof. reflexivity. Qed.

Lemma rstrip_idempotent (s : string) : PyStr.rstrip (PyStr.rstrip s) = PyStr.rstrip s.
Proof.
  induction s as [|c s IH]; [reflexivity|].
  rewrite rstrip_cons. destruct (PyStr.rstrip s) as [|c' r] eqn:Hr.
  - destruct (PyStr.is_space c) eqn:Hc; [reflexivity|].
    rewrite rstrip_cons. cbn [PyStr.rstrip]. now rewrite Hc.
  - rewrite rstrip_cons, IH. reflexivity.
Qed.

Lemma rstrip_head (c : ascii) (s : string) :
  PyStr.is_space c = false ->
  exists r, PyStr.rstrip (String c s) = String c r.
Proof.
  intros Hc. rewrite rstrip_cons. destruct (PyStr.rstrip s).
  - rewrite Hc. now eexists.
  - now eexists.
Qed.

Lemma lstrip_head (s : string) :
  PyStr.lstrip s = "" \/
  exists c r, PyStr.lstrip s = String c r /\ PyStr.is_space c = false.
Proof.
  induction s as [|c s IH]; [now left|].
  cbn [PyStr.lstrip]. destruct (PyStr.is_space c) eqn:Hc; [exact IH|].
  right. now exists c, s.
Qed.

Lemma strip_idempotent (s : string) : PyStr.strip (PyStr.strip s) = PyStr.strip s.
Proof.
  unfold PyStr.strip. destruct (lstrip_head s) as [->|(c & r & -> & Hc)].
  - reflexivity.
  - destruct (rstrip_head c r Hc) as [r' Hr]. rewrite Hr.
    cbn [PyStr.lstrip]. rewrite Hc, <- Hr. apply rstrip_idempotent.
Qed.

Lemma blank_strip (s : string) : PyStr.blank (PyStr.strip s) = PyStr.blank s.
Proof.
  unfold PyStr.blank. rewrite strip_idempotent.
  destruct s as [|c s]; [reflexivity|].
  cbn [PyStr.truthy negb orb]. now rewrite orb_diag.
Qed.

Lemma blank_false_strip (s : string) :
  PyStr.blank s = false -> PyStr.truthy (PyStr.strip s) = true /\ PyStr.truthy s = true.
Proof.
  unfold PyStr.blank. intros H. apply orb_false_elim in H as [H1 H2].
  split; now apply negb_false_iff.
Qed.

(** ** C5. The Identity Validator *)

Lemma validate_user_exists_blank {W} (E : env W) (w : W) (user_id : string) :
  PyStr.blank user_id = true ->
  run E (validate_user_exists user_id) w
  = {| result := (false, ""); trace := []; world := w |}.
Proof.
  intros H. unfold validate_user_exists. rewrite H. reflexivity.
Qed.

Lemma validate_user_exists_run {W} (E : env W) (w : W) (user_id : string) :
  PyStr.blank user_id = false ->
  let params := [("userId", PyStr.strip user_id)] in
  let r := fst (on_get E w history_url params) in
  let o := run E (validate_user_exists user_id) w in
  trace o = [EGet in_validate_user_exists history_url params r]
  /\ world o = snd (on_get E w history_url params)
  /\ (accepted r -> result o = (true, PyStr.strip user_id))
  /\ (rejected r -> result o = (false, "")).
Proof.
  intros H params r o. subst o. unfold validate_user_exists, run. rewrite H.
  cbn [run_from]. fold history_url. fold params.
  subst r. destruct (on_get E w history_url params) as [r w'].
  cbn [fst snd].
  destruct r as [|s body]; cbn.
  - repeat split; auto. intros [l Hl]. discriminate.
  - destruct (Z.eqb_spec s 200) as [->|Hs].
    + destruct body as [v|].
      * destruct v; cbn; repeat split; auto;
          try (intros [l Hl]; discriminate);
          intros Hr; inversion Hr; subst; try congruence; discriminate.
      * cbn. repeat split; auto. intros [l Hl]; discriminate.
    + assert (Hfalse : (if s =? 404 then Ret (false, "")
                        else if s =? 400 then Ret (false, "") else Ret (false, ""))
                       = @Ret (bool * string) (false, "")).
      { destruct (s =? 404); [reflexivity|]. destruct (s =? 400); reflexivity. }
      rewrite Hfalse. cbn. repeat split; auto.
      intros [l Hl]. congruence.
Qed.

(** C5 -- The Identity Validator returns [(false, "")] for every empty or
    whitespace-only identifier (without asking the store), and for every
    answer of the store that is a 404, a 400, another status than 200, a 200
    with malformed JSON, a 200 whose body is not a list, or a network
    failure; it returns [(true, trimmed identifier)] exactly when the
    identifier is not blank and the store answers 200 with a list-shaped
    body, the empty list included. *)
Theorem validate_user_exists_spec {W} (E : env W) (w : W) (user_id : string) :
  let params := [("userId", PyStr.strip user_id)] in
  let r := fst (on_get E w history_url params) in
  let o := run E (validate_user_exists user_id) w in
  (PyStr.blank user_id = true -> result o = (false, "") /\ trace o = [])
  /\ (PyStr.blank user_id = false ->
      trace o = [EGet in_validate_user_exists history_url params r]
      /\ (rejected r -> result o = (false, ""))
      /\ (r = Response 200 (Some (JList [])) -> result o = (true, PyStr.strip user_id)))
  /\ (result o = (true, PyStr.strip user_id)
      <-> PyStr.blank user_id = false /\ accepted r)
  /\ (result o = (true, PyStr.strip user_id) \/ result o = (false, "")).
Proof.
  intros params r o.
  destruct (PyStr.blank user_id) eqn:Hb.
  - subst o. rewrite (validate_user_exists_blank E w user_id Hb). cbn.
    split; [auto|]. split; [discriminate|]. split; [|now right].
    split; [discriminate|]. intros [H _]; discriminate.
  - destruct (validate_user_exists_run E w user_id Hb) as (Ht & _ & Hacc & Hrej).
    fold params r o in Ht, Hacc, Hrej.
    split; [discriminate|]. split; [|split].
    + intros _. split; [exact Ht|]. split; [exact Hrej|].
      intros Hr. apply Hacc. now exists [].
    + split.
      * intros Hres. split; [reflexivity|].
        destruct (accepted_or_rejected r) as [Ha|Hr]; [exact Ha|].
        rewrite (Hrej Hr) in Hres. discriminate.
      * intros [_ Ha]. auto.
    + destruct (accepted_or_rejected r) as [Ha|Hr]; [left|right]; auto.
Qed.

Lemma is_accepted_spec (r : http_result) : is_accepted r = true <-> accepted r.
Proof.
  split.
  - destruct r as [|s [[| | | |l|]|]]; cbn; try discriminate.
    intros H%Z.eqb_eq. subst. now exists l.
  - intros [l ->]. reflexivity.
Qed.

Lemma rejected_is_accepted (r : http_result) : rejected r -> is_accepted r = false.
Proof.
  intros H. destruct (is_accepted r) eqn:Ha; [|reflexivity].
  apply is_accepted_spec in Ha. now apply rejected_not_accepted in H.
Qed.

Lemma validate_user_exists_eq {W} (E : env W) (w : W) (user_id : string) :
  PyStr.blank user_id = false ->
  run E (validate_user_exists user_id) w
  = let params := [("userId", PyStr.strip user_id)] in
    let rw := on_get E w history_url params in
    {| result := if is_accepted (fst rw) then (true, PyStr.strip user_id) else (false, "");
       trace := [EGet in_validate_user_exists history_url params (fst rw)];
       world := snd rw |}.
Proof.
  intros Hb.
  destruct (validate_user_exists_run E w user_id Hb) as (Ht & Hw & Hacc & Hrej).
  cbv zeta in *.
  destruct (run E (validate_user_exists user_id) w) as [res t w'].
  cbn [result trace world] in *. subst t w'. f_equal.
  destruct (accepted_or_rejected (fst (on_get E w history_url [("userId", PyStr.strip user_id)])))
    as [Ha|Hr].
  - rewrite (Hacc Ha). apply is_accepted_spec in Ha. now rewrite Ha.
  - rewrite (Hrej Hr). now rewrite (rejected_is_accepted _ Hr).
Qed.

(** ** C6. The History Loader *)

(** C6 -- For every validated identifier and every answer of the store, the
    History Loader makes one read of the history endpoint and returns a
    list, never an exception: the list of the body when the answer is a 200
    with a list-shaped body, and the empty list on every failure (network
    error or timeout, a status other than 200, malformed JSON, a 200 body
    that is not a list). *)
Theorem fetch_chat_history_for_validated_user_spec {W} (E : env W) (w : W)
    (user_id : string) :
  let params := [("userId", user_id)] in
  let r := fst (on_get E w history_url params) in
  let o := run E (fetch_chat_history_for_validated_user user_id) w in
  trace o = [EGet in_fetch_chat_history_for_validated_user history_url params r]
  /\ (forall l, r = Response 200 (Some (JList l)) -> result o = l)
  /\ (rejected r -> result o = [])
  /\ (r = RequestException -> result o = [])
  /\ (r = Response 500 None -> result o = [])
  /\ (r = Response 200 None -> result o = []).
Proof.
  intros params r o.
  assert (Hrun : trace o = [EGet in_fetch_chat_history_for_validated_user history_url params r]
                 /\ (forall l, r = Response 200 (Some (JList l)) -> result o = l)
                 /\ (rejected r -> result o = [])).
  { subst o r. unfold fetch_chat_history_for_validated_user, run.
    cbn [run_from]. fold history_url. fold params.
    destruct (on_get E w history_url params) as [r w']. cbn [fst].
    destruct r as [|s body]; cbn.
    - repeat split; auto. discriminate.
    - destruct (Z.eqb_spec s 200) as [->|Hs].
      + destruct body as [v|]; [destruct v|]; cbn; repeat split; auto;
          try discriminate; try (intros l' [= <-]; reflexivity);
          intros Hr; inversion Hr; subst; try congruence; discriminate.
      + cbn. repeat split; auto. intros l [= -> _]. congruence. }
  destruct Hrun as (Ht & Hok & Hrej).
  repeat split; auto.
  - intros ->. apply Hrej, rejected_network.
  - intros Hr. apply Hrej. rewrite Hr. now apply rejected_status.
  - intros Hr. apply Hrej. rewrite Hr. apply rejected_malformed.
Qed.

(** ** C9. The record fetch *)

Lemma fetch_user_specific_expense_data_eq {W} (E : env W) (w : W) (user_id : string) :
  PyStr.blank user_id = false ->
  run E (fetch_user_specific_expense_data user_id) w
  = let uid := PyStr.strip user_id in
    let params := [("userId", uid)] in
    let rw1 := on_get E w history_url params in
    let e1 := EGet in_validate_user_exists history_url params (fst rw1) in
    if is_accepted (fst rw1) then
      let rw2 := on_get E (snd rw1) (report_url uid) [] in
      {| result := report_of (fst rw2);
         trace := [e1; EGet in_fetch_user_specific_expense_data (report_url uid) [] (fst rw2)];
         world := snd rw2 |}
    else {| result := None; trace := [e1]; world := snd rw1 |}.
Proof.
  intros Hb. unfold fetch_user_specific_expense_data. rewrite Hb.
  rewrite run_pbind. cbv zeta.
  rewrite validate_user_exists_eq by now rewrite blank_strip.
  cbv zeta. rewrite strip_idempotent. cbn [result trace world].
  destruct (on_get E w history_url [("userId", PyStr.strip user_id)]) as [r1 w1].
  cbn [fst snd]. destruct (is_accepted r1); cbn [negb].
  - unfold run. cbn [run_from]. fold (report_url (PyStr.strip user_id)).
    destruct (on_get E w1 (report_url (PyStr.strip user_id)) []) as [r2 w2].
    cbn [fst snd]. destruct r2 as [|s body]; [reflexivity|].
    cbn [report_of]. destruct (s =? 200) eqn:Hs.
    + destruct body as [[| | | | |[|kv d]]|]; reflexivity.
    + destruct (s =? 404); cbn;
        destruct body as [[| | | | |[|kv d]]|]; reflexivity.
  - reflexivity.
Qed.

Lemma report_of_Some (r : http_result) (d : dict) :
  report_of r = Some d <-> d <> [] /\ r = Response 200 (Some (JObj d)).
Proof.
  split.
  - destruct r as [|s [[| | | | |[|kv d']]|]]; cbn; try discriminate.
    destruct (Z.eqb_spec s 200) as [->|]; [|discriminate].
    intros [= <-]. split; [discriminate|reflexivity].
  - intros [Hd ->]. destruct d; [congruence|reflexivity].
Qed.

(** C9 -- For every identifier and every behaviour of the store, the record
    fetch yields a report [d] only when the identifier is not blank, its own
    identity check was accepted, and the report endpoint answered 200 with
    the non-empty dict [d]; a 200 answer whose body is the empty object
    yields none, as do the documented failures (network error, 404, any
    other status, malformed JSON, a body that is not a dict); and a 200
    answer with a non-empty dict does yield that dict. *)
Theorem fetch_user_specific_expense_data_spec {W} (E : env W) (w : W)
    (user_id : string) :
  let uid := PyStr.strip user_id in
  let o := run E (fetch_user_specific_expense_data user_id) w in
  (forall d, result o = Some d ->
     d <> [] /\ PyStr.blank user_id = false /\
     exists r1, accepted r1 /\
       trace o = [EGet in_validate_user_exists history_url [("userId", uid)] r1;
                  EGet in_fetch_user_specific_expense_data (report_url uid) []
                       (Response 200 (Some (JObj d)))])
  /\ (forall url params r,
        In (EGet in_fetch_user_specific_expense_data url params r) (trace o) ->
        (r = Response 200 (Some (JObj [])) -> result o = None)
        /\ (r = RequestException -> result o = None)
        /\ (forall s body, r = Response s body -> s <> 200 -> result o = None)
        /\ (r = Response 200 None -> result o = None)
        /\ (forall v, r = Response 200 (Some v) -> Py.is_dict v = false -> result o = None)
        /\ (forall d, r = Response 200 (Some (JObj d)) -> d <> [] -> result o = Some d)).
Proof.
  intros uid o. subst o.
  destruct (PyStr.blank user_id) eqn:Hb.
  { unfold fetch_user_specific_expense_data. rewrite Hb. cbn.
    split; [discriminate|]. intros url params r []. }
  rewrite (fetch_user_specific_expense_data_eq E w user_id Hb). cbv zeta. fold uid.
  destruct (on_get E w history_url [("userId", uid)]) as [r1 w1]. cbn [fst snd].
  destruct (is_accepted r1) eqn:Ha; cbn [result trace].
  - destruct (on_get E w1 (report_url uid) []) as [r2 w2]. cbn [fst snd]. split.
    + intros d Hd. apply report_of_Some in Hd as [Hd ->].
      split; [exact Hd|]. split; [reflexivity|].
      exists r1. split; [now apply is_accepted_spec|reflexivity].
    + intros url params r [Hin|[Hin|[]]]; [discriminate|].
      injection Hin as _ _ <-.
      repeat split.
      * intros ->. reflexivity.
      * intros ->. reflexivity.
      * intros s body -> Hs. cbn.
        destruct body as [[| | | | |[|kv d]]|]; try reflexivity.
        destruct (Z.eqb_spec s 200); [contradiction|reflexivity].
      * intros ->. reflexivity.
      * intros v -> Hv. destruct v; try reflexivity. discriminate.
      * intros d -> Hd. apply report_of_Some. now split.
  - split; [discriminate|].
    intros url params r [Hin|[]]. discriminate.
Qed.

(** ** C10. Persisting a turn *)

Lemma validate_and_send_to_history_eq {W} (E : env W) (w : W)
    (user_message assistant_response user_id : string) :
  PyStr.truthy user_message = true ->
  PyStr.truthy assistant_response = true ->
  PyStr.blank user_id = false ->
  run E (validate_and_send_to_history user_message assistant_response user_id) w
  = let uid := PyStr.strip user_id in
    let params := [("userId", uid)] in
    let rw1 := on_get E w history_url params in
    let e1 := EGet in_validate_user_exists history_url params (fst rw1) in
    if is_accepted (fst rw1) then
      let payload := [("userId", uid); ("human", PyStr.strip user_message);
                      ("assistant", PyStr.strip assistant_response)] in
      let rw2 := on_post E (snd rw1) create_url payload in
      {| result := persisted (fst rw2);
         trace := [e1; EPost in_validate_and_send_to_history create_url payload (fst rw2)];
         world := snd rw2 |}
    else {| result := false; trace := [e1]; world := snd rw1 |}.
Proof.
  intros Hm Ha Hb. unfold validate_and_send_to_history. rewrite Hm, Ha, Hb.
  cbn [negb orb]. rewrite run_pbind. cbv zeta.
  rewrite validate_user_exists_eq by now rewrite blank_strip.
  cbv zeta. rewrite strip_idempotent. cbn [result trace world].
  destruct (on_get E w history_url [("userId", PyStr.strip user_id)]) as [r1 w1].
  cbn [fst snd]. destruct (is_accepted r1); cbn [negb]; [|reflexivity].
  unfold run. cbn [run_from]. fold create_url.
  match goal with |- context [on_post E w1 create_url ?p] =>
    destruct (on_post E w1 create_url p) as [r2 w2] end.
  cbn [fst snd]. destruct r2 as [|s body]; [reflexivity|].
  cbn [persisted]. now destruct ((s =? 200) || (s =? 201)).
Qed.

(** C10 -- Every attempt to persist a turn returns false without any
    request when the identifier is blank or the human or assistant text is
    empty; otherwise its first request is its own identity check, and when
    that check is not accepted it returns false having made no other
    request; a write to the history-create endpoint is issued only after an
    accepted check, as the second and last request, with the trimmed
    identifier and texts, and the result is true exactly when that write is
    answered 200 or 201. *)
Theorem validate_and_send_to_history_spec {W} (E : env W) (w : W)
    (user_message assistant_response user_id : string) :
  let uid := PyStr.strip user_id in
  let params := [("userId", uid)] in
  let r1 := fst (on_get E w history_url params) in
  let e1 := EGet in_validate_user_exists history_url params r1 in
  let o := run E (validate_and_send_to_history user_message assistant_response user_id) w in
  (user_message = "" \/ assistant_response = "" \/ PyStr.blank user_id = true ->
     result o = false /\ trace o = [])
  /\ (user_message <> "" /\ assistant_response <> "" /\ PyStr.blank user_id = false ->
      hd_error (trace o) = Some e1
      /\ (~ accepted r1 -> result o = false /\ trace o = [e1])
      /\ (accepted r1 -> exists payload r2,
            payload = [("userId", uid); ("human", PyStr.strip user_message);
                       ("assistant", PyStr.strip assistant_response)]
            /\ trace o = [e1; EPost in_validate_and_send_to_history create_url payload r2]
            /\ result o = persisted r2))
  /\ (existsb is_write (trace o) = true ->
      user_message <> "" /\ assistant_response <> "" /\ PyStr.blank user_id = false
      /\ accepted r1)
  /\ (result o = true -> existsb is_write (trace o) = true).
Proof.
  intros uid params r1 e1 o.
  assert (Hempty : forall s, PyStr.truthy s = false <-> s = "").
  { intros [|c s]; cbn; split; congruence. }
  destruct (PyStr.truthy user_message) eqn:Hm;
    [destruct (PyStr.truthy assistant_response) eqn:Ha;
       [destruct (PyStr.blank user_id) eqn:Hb|]|].
  4: { assert (Ho : o = {| result := false; trace := []; world := w |}).
       { subst o. unfold validate_and_send_to_history. now rewrite Hm. }
       rewrite Ho. cbn [result trace existsb]. apply Hempty in Hm.
       split; [intros _; now split|].
       split; [intros (H1 & H2 & H3); congruence|]. split; discriminate. }
  3: { assert (Ho : o = {| result := false; trace := []; world := w |}).
       { subst o. unfold validate_and_send_to_history. now rewrite Hm, Ha. }
       rewrite Ho. cbn [result trace existsb]. apply Hempty in Ha.
       split; [intros _; now split|].
       split; [intros (H1 & H2 & H3); congruence|]. split; discriminate. }
  { assert (Ho : o = {| result := false; trace := []; world := w |}).
    { subst o. unfold validate_and_send_to_history. now rewrite Hm, Ha, Hb. }
    rewrite Ho. cbn [result trace existsb].
    split; [intros _; now split|].
    split; [intros (H1 & H2 & H3); congruence|]. split; discriminate. }
  assert (Hm' : user_message <> "") by (intros H%Hempty; congruence).
  assert (Ha' : assistant_response <> "") by (intros H%Hempty; congruence).
  subst o. rewrite (validate_and_send_to_history_eq E w _ _ _ Hm Ha Hb).
  cbv zeta. fold uid. fold params. fold r1. fold e1.
  destruct (is_accepted r1) eqn:Hacc.
  - apply is_accepted_spec in Hacc.
    match goal with |- context [on_post E ?w1 create_url ?p] =>
      destruct (on_post E w1 create_url p) as [r2 w2] end.
    cbn [result trace fst snd hd_error].
    split; [intros [?|[?|[=]]]; contradiction|].
    split; [|split; [intros _; now repeat split|reflexivity]].
    intros _. split; [reflexivity|]. split; [intros Hn; contradiction|].
    intros _. eexists _, r2. repeat split.
  - assert (Hn : ~ accepted r1).
    { intros H%is_accepted_spec. congruence. }
    cbn [result trace fst snd hd_error].
    split; [intros [?|[?|[=]]]; contradiction|].
    split; [|split; [cbn; discriminate|discriminate]].
    intros _. split; [reflexivity|]. split; [now split|].
    intros H. contradiction.
Qed.

(** ** C4. The in-session memory *)








(** ** C8. The Context Assembler *)

Section ContextAssemblerProofs.

Variable py : interpreter.

Lemma enumerate_cons {A} (start : nat) (x : A) (l : list A) :
  enumerate start (x :: l) = (start, x) :: enumerate (S start) l.
Proof. reflexivity. Qed.

Lemma map_snd_enumerate {A} (l : list A) :
  forall start, map snd (enumerate start l) = l.
Proof.
  induction l as [|x l IH]; intros start; [reflexivity|].
  rewrite enumerate_cons. cbn [map snd]. now rewrite IH.
Qed.

Lemma fold_add_chunk (l : list (nat * chunk)) :
  forall parts,
    fold_left add_chunk l parts
    = (parts ++ map chunk_line l)%list.
Proof.
  induction l as [|[i c] l IH]; intros parts; cbn [fold_left map].
  - now rewrite app_nil_r.
  - rewrite IH. unfold add_chunk, append. now rewrite <- app_assoc.
Qed.

Lemma fold_add_exchange (l : list (nat * (string * string))) :
  forall parts,
    fold_left add_exchange l parts
    = (parts ++ flat_map exchange_lines l)%list.
Proof.
  induction l as [|[i [h a]] l IH]; intros parts; cbn [fold_left flat_map].
  - now rewrite app_nil_r.
  - rewrite IH. unfold add_exchange, append. cbn [fst snd].
    now rewrite <- !app_assoc.
Qed.

Lemma add_previous_dict (parts : list string) (i : nat) (d : dict) :
  add_previous py parts (i, JObj d)
  = ok (parts ++ previous_lines py (i, JObj d))%list.
Proof.
  unfold add_previous, append, previous_lines, turn_field, Py.get. cbn [fst snd].
  destruct (Py.lookup "human" d), (Py.lookup "assistant" d); cbn;
    now rewrite <- !app_assoc.
Qed.

Lemma add_previous_not_dict (parts : list string) (i : nat) (conv : json) :
  Py.is_dict conv = false ->
  add_previous py parts (i, conv) = raise AttributeError.
Proof. destruct conv; cbn; try reflexivity. discriminate. Qed.

Lemma efold_add_previous (l : list (nat * json)) :
  forall parts,
    efold (add_previous py) l parts
    = if forallb Py.is_dict (map snd l)
      then ok (parts ++ flat_map (previous_lines py) l)%list
      else raise AttributeError.
Proof.
  induction l as [|[i conv] l IH]; intros parts; cbn [efold map forallb flat_map snd fst].
  - now rewrite app_nil_r.
  - destruct (Py.is_dict conv) eqn:Hd.
    + destruct conv; try discriminate. rewrite add_previous_dict.
      cbn [ebind ok andb]. rewrite IH.
      destruct (forallb Py.is_dict (map snd l)); [|reflexivity].
      now rewrite <- app_assoc.
    + rewrite (add_previous_not_dict _ _ _ Hd). reflexivity.
Qed.

Lemma labeled_nonempty {A} (header : string) (x : A) (l : list A) lines :
  labeled header (x :: l) lines = header :: lines (x :: l).
Proof. reflexivity. Qed.

(** The slices of the code against the words of the specification. *)
Lemma enumerate_numbered {A} (l : list A) :
  forall start, enumerate start l = numbered start l.
Proof.
  induction l as [|x l IH]; intros start; [reflexivity|].
  rewrite enumerate_cons. cbn [numbered]. now rewrite IH.
Qed.

Lemma lastn_three {A} (l : list A) : lastn 3 l = last_three l.
Proof.
  induction l as [|a l IH]; [reflexivity|].
  destruct l as [|b [|c [|d l]]]; try reflexivity.
  change (last_three (a :: b :: c :: d :: l)) with (last_three (b :: c :: d :: l)).
  rewrite <- IH. unfold lastn. cbn [List.length].
  replace (S (S (S (S (List.length l)))) - 3)%nat with (S (List.length l)) by lia.
  replace (S (S (S (List.length l))) - 3)%nat with (List.length l) by lia.
  reflexivity.
Qed.

Lemma context_parts_spec (self : SimpleExpenseRAG) :
  context_parts py self
  = if forallb Py.is_dict (last_three (chat_history self))
    then ok (labeled "=== ALL EXPENSE DATA ===" (processed_chunks self) chunk_lines
             ++ labeled (nl ++ "=== PREVIOUS CONVERSATIONS ===") (chat_history self)
                        (history_lines py)
             ++ labeled (nl ++ "=== CURRENT CONVERSATION ===") (current_conversation self)
                        memory_lines)%list
    else raise AttributeError.
Proof.
  unfold context_parts. rewrite <- lastn_three.
  set (p1 := match processed_chunks self with [] => [] | _ => _ end).
  assert (Hp1 : p1 = labeled "=== ALL EXPENSE DATA ===" (processed_chunks self) chunk_lines).
  { subst p1. destruct (processed_chunks self) as [|c cs]; [reflexivity|].
    rewrite fold_add_chunk, labeled_nonempty. unfold chunk_lines.
    now rewrite enumerate_numbered. }
  rewrite Hp1. clear Hp1 p1.
  assert (Hmem : forall parts,
             match current_conversation self with
             | [] => parts
             | _ :: _ =>
                 fold_left add_exchange (enumerate 1 (current_conversation self))
                   (append parts (nl ++ "=== CURRENT CONVERSATION ==="))
             end
             = (parts ++ labeled (nl ++ "=== CURRENT CONVERSATION ===")
                           (current_conversation self) memory_lines)%list).
  { intros parts. destruct (current_conversation self) as [|e es]; cbn [labeled].
    - now rewrite app_nil_r.
    - rewrite fold_add_exchange. unfold append, memory_lines.
      rewrite enumerate_numbered. now rewrite <- app_assoc. }
  destruct (chat_history self) as [|h hs] eqn:Hh.
  - cbn [lastn List.length Nat.sub skipn forallb labeled ebind ok app].
    now rewrite Hmem.
  - rewrite efold_add_previous, map_snd_enumerate, labeled_nonempty.
    destruct (forallb Py.is_dict (lastn 3 (h :: hs))); [|reflexivity].
    cbn [ebind ok]. rewrite Hmem. unfold history_lines, append.
    rewrite enumerate_numbered, lastn_three. now rewrite <- !app_assoc.
Qed.

(** C8 -- For every chunk list, persisted-history list and in-session
    memory list, the Context Assembler joins, in this fixed order, the
    section of all record chunks in Summarizer output order, the section of
    the last 3 persisted-history entries oldest first with their human and
    assistant text, and the section of all in-session memory entries oldest
    first; a section whose collection is empty is left out entirely. (The
    last 3 history entries have to be objects, as turns are: on any other
    value the assembler raises.) On the session with two chunks, five
    persisted turns and two exchanges in memory, the context is the text
    [busy_context]: both chunks, the third, fourth and fifth turn numbered 1
    to 3, and both exchanges. *)
Theorem build_context_sections :
  (forall (self : SimpleExpenseRAG) (query : string),
      _build_context py self query
      = if forallb Py.is_dict (last_three (chat_history self))
        then ok (assemble py (processed_chunks self) (chat_history self)
                          (current_conversation self))
        else raise AttributeError)
  /\ (forall query, _build_context py busy_session query = ok busy_context).
Proof.
  split.
  - intros self query. unfold _build_context. rewrite context_parts_spec.
    now destruct (forallb Py.is_dict (last_three (chat_history self))).
  - intros query. vm_compute. reflexivity.
Qed.

End ContextAssemblerProofs.

(** ** Runs of methods *)

Lemma run_mbind {W S A B} (E : env W) (m : M S A) (k : A -> M S B) (s : S) (w : W) :
  run E (mbind m k s) w
  = let o := run E (m s) w in
    match result o with
    | (inl e, s') => {| result := (inl e, s'); trace := trace o; world := world o |}
    | (inr a, s') =>
        let o' := run E (k a s') (world o) in
        {| result := result o'; trace := (trace o ++ trace o')%list; world := world o' |}
    end.
Proof.
  unfold mbind. rewrite run_pbind. cbv zeta.
  destruct (result (run E (m s) w)) as [[e|a] s']; [|reflexivity].
  rewrite run_Ret. cbn. now rewrite app_nil_r.
Qed.

Lemma run_lift_prog {W S A} (E : env W) (p : prog A) (s : S) (w : W) :
  run E (lift_prog p s) w
  = let o := run E p w in
    {| result := (ok (result o), s); trace := trace o; world := world o |}.
Proof.
  unfold lift_prog. rewrite run_pbind. cbv zeta. rewrite run_Ret. cbn.
  now rewrite app_nil_r.
Qed.

Lemma run_mget {W S} (E : env W) (s : S) (w : W) :
  run E (mget s) w = {| result := (inr s, s); trace := []; world := w |}.
Proof. reflexivity. Qed.

Lemma run_mret {W S A} (E : env W) (a : A) (s : S) (w : W) :
  run E (mret a s) w = {| result := (inr a, s); trace := []; world := w |}.
Proof. reflexivity. Qed.

Lemma run_mraise {W S A} (E : env W) (e : exn) (s : S) (w : W) :
  run E (@mraise S A e s) w = {| result := (inl e, s); trace := []; world := w |}.
Proof. reflexivity. Qed.

Lemma run_lift_exc {W S A} (E : env W) (x : exc A) (s : S) (w : W) :
  run E (lift_exc x s) w = {| result := (x, s); trace := []; world := w |}.
Proof. reflexivity. Qed.

Lemma run_assign {W S} (E : env W) (f : S -> S) (s : S) (w : W) :
  run E (assign f s) w = {| result := (inr tt, f s); trace := []; world := w |}.
Proof. reflexivity. Qed.

Lemma run_Create {W} (E : env W) (who : caller) (req : completion_request) (w : W) :
  run E (Create who req Ret) w
  = let rw := on_create E w req in
    {| result := fst rw; trace := [ECreate who req (fst rw)]; world := snd rw |}.
Proof.
  unfold run. cbn [run_from]. cbv zeta. now destruct (on_create E w req).
Qed.

(** One step of symbolic execution of a method. *)
Ltac run_step :=
  rewrite ?run_mbind, ?run_lift_prog, ?run_mget, ?run_mret, ?run_mraise,
    ?run_lift_exc, ?run_assign;
  cbv zeta; cbn [result trace world fst snd ok raise app].

Lemma fetch_chat_history_for_validated_user_eq {W} (E : env W) (w : W) (user_id : string) :
  run E (fetch_chat_history_for_validated_user user_id) w
  = let params := [("userId", user_id)] in
    let rw := on_get E w history_url params in
    {| result := history_of (fst rw);
       trace := [EGet in_fetch_chat_history_for_validated_user history_url params (fst rw)];
       world := snd rw |}.
Proof.
  unfold fetch_chat_history_for_validated_user, run. cbn [run_from].
  fold history_url. cbv zeta.
  destruct (on_get E w history_url [("userId", user_id)]) as [r w']. cbn [fst snd].
  destruct r as [|s body]; [reflexivity|]. cbn [history_of].
  destruct (s =? 200); [|now destruct body as [[| | | | |]|]].
  now destruct body as [[| | | | |]|].
Qed.

(** ** C4 and C7. The runs of [chat] *)

Section ServiceProofs.

Variable py : interpreter.

Lemma load_user_chat_history_eq {W} (E : env W) (w : W) (user_id : string)
    (self : SimpleExpenseRAG) :
  PyStr.blank user_id = false ->
  run E (load_user_chat_history user_id self) w
  = let uid := PyStr.strip user_id in
    let params := [("userId", uid)] in
    let rw1 := on_get E w history_url params in
    let e1 := EGet in_validate_user_exists history_url params (fst rw1) in
    if is_accepted (fst rw1) then
      let rw2 := on_get E (snd rw1) history_url params in
      {| result := (ok uid, set_chat_history (history_of (fst rw2)) self);
         trace := [e1; EGet in_fetch_chat_history_for_validated_user history_url params
                            (fst rw2)];
         world := snd rw2 |}
    else
      {| result := (raise (ValueError ("Invalid user_id: " ++ user_id ++ ". User not found.")),
                    self);
         trace := [e1]; world := snd rw1 |}.
Proof.
  intros Hb. unfold load_user_chat_history. rewrite Hb.
  rewrite run_mbind, run_lift_prog. cbv zeta.
  rewrite validate_user_exists_eq by now rewrite blank_strip.
  cbv zeta. rewrite strip_idempotent. cbn [result trace world].
  destruct (on_get E w history_url [("userId", PyStr.strip user_id)]) as [r1 w1].
  cbn [fst snd]. destruct (is_accepted r1); cbn [negb ok].
  - rewrite run_mbind, run_lift_prog. cbv zeta.
    rewrite fetch_chat_history_for_validated_user_eq. cbv zeta.
    cbn [result trace world ok].
    destruct (on_get E w1 history_url [("userId", PyStr.strip user_id)]) as [r2 w2].
    cbn [fst snd]. reflexivity.
  - reflexivity.
Qed.

Lemma answer_eq {W} (E : env W) (w : W) (user_query validated_user_id : string)
    (self : SimpleExpenseRAG) :
  run E (answer py user_query validated_user_id self) w
  = match _build_context py self user_query with
    | inl e => {| result := (inl e, self); trace := []; world := w |}
    | inr context =>
        let req := chat_request (prompt_template context user_query) in
        let rw := on_create E w req in
        {| result :=
             match fst rw with
             | Completion assistant_response =>
                 (ok (assistant_response, validated_user_id),
                  set_current_conversation
                    (remember user_query assistant_response (current_conversation self))
                    self)
             | CompletionError msg =>
                 (ok ("Error generating response: " ++ msg, validated_user_id), self)
             end;
           trace := [ECreate in_chat req (fst rw)];
           world := snd rw |}
    end.
Proof.
  unfold answer. repeat run_step.
  destruct (_build_context py self user_query) as [e|context]; [reflexivity|].
  repeat run_step. rewrite run_Create. cbv zeta.
  destruct (on_create E w (chat_request (prompt_template context user_query))) as [r3 w3].
  cbn [fst snd result trace world ok app].
  destruct r3 as [msg|a]; repeat run_step; reflexivity.
Qed.

Lemma chat_eq {W} (E : env W) (w : W) (user_query user_id : string)
    (self : SimpleExpenseRAG) :
  PyStr.blank user_id = false ->
  run E (chat py user_query user_id self) w
  = let uid := PyStr.strip user_id in
    let params := [("userId", uid)] in
    let rw1 := on_get E w history_url params in
    let e1 := EGet in_validate_user_exists history_url params (fst rw1) in
    if is_accepted (fst rw1) then
      let rw2 := on_get E (snd rw1) history_url params in
      let e2 := EGet in_fetch_chat_history_for_validated_user history_url params (fst rw2) in
      let self1 := set_chat_history (history_of (fst rw2)) self in
      let o := run E (answer py user_query uid self1) (snd rw2) in
      {| result := result o; trace := e1 :: e2 :: trace o; world := world o |}
    else
      {| result := (raise (ValueError ("Invalid user_id: " ++ PyStr.strip user_id
                                        ++ ". User not found.")), self);
         trace := [e1]; world := snd rw1 |}.
Proof.
  intros Hb. destruct (blank_false_strip user_id Hb) as [Hs Ht].
  unfold chat. rewrite Ht, Hs. cbn [negb].
  rewrite run_mbind. cbv zeta.
  rewrite load_user_chat_history_eq by now rewrite blank_strip.
  cbv zeta. rewrite strip_idempotent.
  destruct (on_get E w history_url [("userId", PyStr.strip user_id)]) as [r1 w1].
  cbn [fst snd]. destruct (is_accepted r1); [|reflexivity].
  destruct (on_get E w1 history_url [("userId", PyStr.strip user_id)]) as [r2 w2].
  cbn [fst snd result trace world ok app]. reflexivity.
Qed.

(** Without an identifier, [chat] answers from an empty history; with an
    identifier of blanks only, it raises before any call. *)
Lemma chat_blank_eq {W} (E : env W) (w : W) (user_query user_id : string)
    (self : SimpleExpenseRAG) :
  PyStr.blank user_id = true ->
  run E (chat py user_query user_id self) w
  = if PyStr.truthy user_id
    then {| result := (raise (ValueError "Invalid user_id: User ID cannot be empty"), self);
            trace := []; world := w |}
    else run E (answer py user_query "" (set_chat_history [] self)) w.
Proof.
  intros Hb. unfold chat. unfold PyStr.blank in Hb.
  destruct (PyStr.truthy user_id) eqn:Ht; cbn [negb orb] in Hb.
  - rewrite Hb. repeat run_step. reflexivity.
  - repeat run_step.
    destruct (run E (answer py user_query "" (set_chat_history [] self)) w)
      as [res t w']. reflexivity.
Qed.

Lemma answer_ending {W} (E : env W) (w : W) (user_query user_id : string)
    (self self1 : SimpleExpenseRAG) (pre : list event) :
  current_conversation self1 = current_conversation self ->
  (forall req r, ~ In (ECreate in_chat req r) pre) ->
  let o := run E (answer py user_query
                    (if PyStr.truthy user_id then PyStr.strip user_id else "") self1) w in
  chat_ending user_query user_id self
    {| result := result o; trace := (pre ++ trace o)%list; world := world o |}.
Proof.
  intros Hcc Hpre o. subst o. rewrite answer_eq.
  destruct (_build_context py self1 user_query) as [e|context].
  - apply (ending_raised _ _ _ _ e); cbn [result trace fst snd]; auto.
    now rewrite app_nil_r.
  - cbv zeta.
    destruct (on_create E w (chat_request (prompt_template context user_query)))
      as [[msg|a] w3]; cbn [fst snd].
    + apply (ending_provider_failure _ _ _ _
               (chat_request (prompt_template context user_query)) msg);
        cbn [result trace fst snd]; auto.
      * apply in_or_app. right. now left.
      * intros req' r [Hin|[Hin|[]]]%in_app_or; [now apply Hpre in Hin|].
        now injection Hin as <- <-.
    + apply (ending_success _ _ _ _
               (chat_request (prompt_template context user_query)) a);
        cbn [result trace fst snd current_conversation]; auto.
      * now rewrite Hcc.
      * apply in_or_app. right. now left.
      * intros req' r [Hin|[Hin|[]]]%in_app_or; [now apply Hpre in Hin|].
        now injection Hin as <- <-.
Qed.

Lemma chat_endings {W} (E : env W) (w : W) (user_query user_id : string)
    (self : SimpleExpenseRAG) :
  chat_ending user_query user_id self (run E (chat py user_query user_id self) w).
Proof.
  destruct (PyStr.blank user_id) eqn:Hb.
  - rewrite (chat_blank_eq E w user_query user_id self Hb).
    destruct (PyStr.truthy user_id) eqn:Ht.
    + eapply ending_raised; cbn [result trace fst snd]; auto.
    + pose proof (answer_ending E w user_query user_id self (set_chat_history [] self) [])
        as H. rewrite Ht in H. cbn [app] in H.
      destruct (run E (answer py user_query "" (set_chat_history [] self)) w).
      apply H; auto.
  - rewrite (chat_eq E w user_query user_id self Hb). cbv zeta.
    destruct (blank_false_strip user_id Hb) as [_ Ht].
    destruct (on_get E w history_url [("userId", PyStr.strip user_id)]) as [r1 w1].
    cbn [fst snd]. destruct (is_accepted r1).
    + destruct (on_get E w1 history_url [("userId", PyStr.strip user_id)]) as [r2 w2].
      cbn [fst snd].
      pose proof (answer_ending E w2 user_query user_id self
                    (set_chat_history (history_of r2) self)
                    [EGet in_validate_user_exists history_url
                          [("userId", PyStr.strip user_id)] r1;
                     EGet in_fetch_chat_history_for_validated_user history_url
                          [("userId", PyStr.strip user_id)] r2]) as H.
      rewrite Ht in H. cbn [app] in H. apply H; [reflexivity|].
      intros req r [Hin|[Hin|[]]]; discriminate.
    + eapply ending_raised; cbn [result trace fst snd]; auto.
      intros req r [Hin|[]]; discriminate.
Qed.

Lemma contains_here (sub s : string) : prefix sub s = true -> PyStr.contains sub s = true.
Proof. intros H. destruct s; cbn [PyStr.contains]; now rewrite H. Qed.

Lemma prefix_refl (s : string) : prefix s s = true.
Proof.
  induction s as [|c s IH]; [reflexivity|].
  cbn [prefix]. destruct (ascii_dec c c); [exact IH|contradiction].
Qed.

Lemma contains_append (p s : string) : PyStr.contains s (p ++ s) = true.
Proof.
  induction p as [|c p IH].
  - apply contains_here, prefix_refl.
  - cbn [String.append PyStr.contains]. rewrite IH. apply orb_true_r.
Qed.

(** When the identity check of the turn was accepted and the completion
    call raised with message [msg], [chat] returns the error text, which
    contains [msg], with the trimmed identifier, and leaves the memory as it
    was. *)
Lemma chat_provider_failure {W} (E : env W) (w : W) (user_query user_id : string)
    (self : SimpleExpenseRAG) (l : list json) (req : completion_request) (msg : string) :
  let o := run E (chat py user_query user_id self) w in
  In (EGet in_validate_user_exists history_url [("userId", PyStr.strip user_id)]
           (Response 200 (Some (JList l)))) (trace o) ->
  In (ECreate in_chat req (CompletionError msg)) (trace o) ->
  fst (result o) = ok ("Error generating response: " ++ msg, PyStr.strip user_id)
  /\ PyStr.contains msg ("Error generating response: " ++ msg) = true
  /\ current_conversation (snd (result o)) = current_conversation self.
Proof.
  intros o Hv Hc.
  assert (Ht : PyStr.truthy user_id = true).
  { destruct (PyStr.blank user_id) eqn:Hb.
    - subst o. rewrite (chat_blank_eq E w user_query user_id self Hb) in Hv.
      destruct (PyStr.truthy user_id); [reflexivity|]. exfalso.
      rewrite answer_eq in Hv.
      destruct (_build_context py (set_chat_history [] self) user_query);
        cbn in Hv; [contradiction|]. destruct Hv as [Hv|[]]. discriminate.
    - now destruct (blank_false_strip user_id Hb). }
  destruct (chat_endings E w user_query user_id self)
    as [e _ _ Hno|req' msg' Hr Hcc _ Hall|req' a _ _ _ Hall].
  - exfalso. exact (Hno _ _ Hc).
  - destruct (Hall _ _ Hc) as [_ Hm]. injection Hm as <-.
    fold o in Hr, Hcc. rewrite Hr, Ht. repeat split; auto. apply contains_append.
  - destruct (Hall _ _ Hc) as [_ Hm]. discriminate.
Qed.


End ServiceProofs.

(** ** C1. The Record Summarizer *)

Lemma ebind_ok {A B} (m : exc A) (k : A -> exc B) (b : B) :
  ebind m k = ok b -> exists a, m = ok a /\ k a = ok b.
Proof. destruct m as [e|a]; [discriminate|]. intros H. now exists a. Qed.

(** Splits a successful sequence of steps into its steps. *)
Ltac ebind_inv H :=
  let a := fresh "v" in
  let Ha := fresh "Hv" in
  apply ebind_ok in H as (a & Ha & H).

Lemma amounts_of_by_type (kind : string) (ts : list json) :
  forall amounts, amounts_of kind ts = ok amounts -> amounts = amounts_by_type kind ts.
Proof.
  unfold amounts_by_type.
  induction ts as [|t ts IH]; intros amounts H; cbn [amounts_of] in H.
  - now injection H as <-.
  - ebind_inv H. destruct t as [| | | | |d]; try discriminate Hv.
    cbn [Py.getitem] in Hv. cbn [filter has_type].
    destruct (Py.lookup "transactionType" d) as [ty|]; [|discriminate Hv].
    injection Hv as <-. destruct ty as [| | |s| |]; cbn [Py.eq_str] in H; auto.
    destruct (String.eqb s kind); [|auto].
    ebind_inv H. ebind_inv H. injection H as <-.
    cbn [Py.getitem] in Hv. cbn [flat_map amount_of].
    destruct (Py.lookup "amount" d) as [a|]; [|discriminate Hv].
    injection Hv as <-. cbn [app]. f_equal. auto.
Qed.

Section SummarizerProofs.

Variable py : interpreter.

Lemma total_of_by_type (kind : string) (transactions : json) (total : pynum) :
  total_of py kind transactions = ok total ->
  exists ts, Py.iter transactions = ok ts
             /\ py_sum py (amounts_by_type kind ts) = ok total.
Proof.
  unfold total_of. intros H. ebind_inv H. ebind_inv H.
  apply amounts_of_by_type in Hv0 as ->. now exists v.
Qed.

Lemma summarizes_totals (entry transactions : json) (c : chunk) :
  Py.getitem entry "transactions" = ok transactions ->
  total_of py "income" transactions = ok (total_income c) ->
  total_of py "expense" transactions = ok (total_expenses c) ->
  PyNum.sub (total_income c) (total_expenses c) = ok (net c) ->
  summarizes py entry c.
Proof.
  intros Ht Hi He Hn.
  apply total_of_by_type in Hi as (ts & Hts & Hi).
  apply total_of_by_type in He as (ts' & Hts' & He).
  rewrite Hts in Hts'. injection Hts' as <-.
  now exists transactions, ts.
Qed.

Lemma process_day_summarizes (day : json) (c : chunk) :
  process_day py day = ok c -> summarizes py day c.
Proof.
  unfold process_day. intros H. repeat ebind_inv H.
  injection H as <-. eapply summarizes_totals; cbn [total_income total_expenses net];
    eassumption.
Qed.

Lemma process_week_summarizes (week : json) (c : chunk) :
  process_week py week = ok c -> summarizes py week c.
Proof.
  unfold process_week. intros H. repeat ebind_inv H.
  injection H as <-. eapply summarizes_totals; cbn [total_income total_expenses net];
    eassumption.
Qed.

Lemma process_month_summarizes (month : json) (c : chunk) :
  process_month py month = ok c -> summarizes py month c.
Proof.
  unfold process_month. intros H. repeat ebind_inv H.
  injection H as <-. eapply summarizes_totals; cbn [total_income total_expenses net];
    eassumption.
Qed.

Lemma efold_process (process : json -> exc chunk) (es : list json) :
  (forall e c, process e = ok c -> summarizes py e c) ->
  forall chunks chunks',
    efold (fun chunks e => (c <- process e ;; ok (chunks ++ [c])%list)%exc) es chunks
    = ok chunks' ->
    exists cs, chunks' = (chunks ++ cs)%list /\ Forall2 (summarizes py) es cs.
Proof.
  intros Hp. induction es as [|e es IH]; intros chunks chunks' H; cbn [efold] in H.
  - injection H as <-. exists []. now rewrite app_nil_r.
  - ebind_inv H. ebind_inv Hv. injection Hv as <-.
    apply IH in H as (cs & -> & Hcs).
    exists (v0 :: cs). rewrite <- app_assoc. split; [reflexivity|].
    constructor; auto.
Qed.

Lemma process_granularity_summarizes (key : string) (process : json -> exc chunk)
    (expense_data : dict) (chunks chunks' : list chunk) :
  (forall e c, process e = ok c -> summarizes py e c) ->
  process_granularity key process expense_data chunks = ok chunks' ->
  exists cs, chunks' = (chunks ++ cs)%list
             /\ Forall2 (summarizes py) (entries_of key expense_data) cs.
Proof.
  intros Hp. unfold process_granularity, entries_of.
  destruct (Py.lookup key expense_data) as [entries|].
  - intros H. ebind_inv H. rewrite Hv. now apply efold_process in H.
  - intros [= <-]. exists []. now rewrite app_nil_r.
Qed.

Lemma process_data_summarizes (expense_data : dict) (chunks : list chunk) :
  _process_data py expense_data = ok chunks ->
  Forall2 (summarizes py) (report_entries expense_data) chunks.
Proof.
  unfold _process_data. intros H. ebind_inv H. ebind_inv H.
  apply process_granularity_summarizes in Hv as (cs1 & -> & H1);
    [|apply process_day_summarizes].
  apply process_granularity_summarizes in Hv0 as (cs2 & -> & H2);
    [|apply process_week_summarizes].
  apply process_granularity_summarizes in H as (cs3 & -> & H3);
    [|apply process_month_summarizes].
  unfold report_entries. cbn [app]. rewrite <- app_assoc.
  apply Forall2_app; [assumption|]. now apply Forall2_app.
Qed.

End SummarizerProofs.

Lemma sum_ints_from (zs : list Z) :
  forall a,
    efold (fun acc v => (n <- Py.as_number v ;; PyNum.add acc n)%exc)
          (map (fun z => JNum (PyInt z)) zs) (PyInt a)
    = ok (PyInt (a + fold_right Z.add 0 zs)).
Proof.
  induction zs as [|z zs IH]; intros a; cbn [map efold fold_right].
  - now rewrite Z.add_0_r.
  - cbn [Py.as_number ebind ok PyNum.add PyNum.arith]. rewrite IH.
    now rewrite Z.add_assoc.
Qed.

(** With whole amounts the sum is the exact integer sum, before 3.12 ... *)
Lemma sum_ints (zs : list Z) :
  Py.sum (map (fun z => JNum (PyInt z)) zs) = ok (PyInt (fold_right Z.add 0 zs)).
Proof. unfold Py.sum. now rewrite sum_ints_from. Qed.

(** ... and from 3.12 on, also when the total leaves the range of a C
    [long] and the int loop hands over to the generic one. *)
Lemma int_loop_ints (zs : list Z) :
  forall i,
    Py.int_loop i (map (fun z => JNum (PyInt z)) zs)
    = ok (PyInt (i + fold_right Z.add 0 zs)).
Proof.
  induction zs as [|z zs IH]; intros i; cbn [map Py.int_loop fold_right Py.int_like].
  - now rewrite Z.add_0_r.
  - destruct (Py.fits_long z && Py.fits_long (i + z)).
    + rewrite IH. now rewrite Z.add_assoc.
    + unfold Py.generic_loop. rewrite sum_ints_from. now rewrite Z.add_assoc.
Qed.

Lemma sum_compensated_ints (zs : list Z) :
  Py.sum_compensated (map (fun z => JNum (PyInt z)) zs)
  = ok (PyInt (fold_right Z.add 0 zs)).
Proof. unfold Py.sum_compensated. now rewrite int_loop_ints. Qed.

(** C1, as stated, fails -- The sums are not fixed-point: on the
    interpreters before 3.12 and on those from 3.12 on alike, two expense
    transactions of $0.10 and $0.20 are added as binary64 numbers, and the
    total of the chunk is 0.30000000000000004, which is neither the number
    0.30 nor of the value 30/100. *)
Lemma summarizer_rounding_drift :
  decimal 10 = PyFloat 0.1
  /\ decimal 20 = PyFloat 0.2
  /\ forall py, In py [python311; python312] ->
       exists c,
         _process_data py
           (daily_report "2024-01-01"
              [transaction "expense" (decimal 10); transaction "expense" (decimal 20)])
         = ok [c]
         /\ total_expenses c = PyFloat 0.30000000000000004
         /\ pynum_eqb (total_expenses c) (decimal 30) = false
         /\ zero_drift [10; 20] (total_expenses c) = false.
Proof.
  split; [vm_compute; reflexivity|]. split; [vm_compute; reflexivity|].
  intros py [<-|[<-|[]]]; eexists; (split; [vm_compute; reflexivity|]);
    repeat split; vm_compute; reflexivity.
Qed.

(** The running compensation of the newer interpreters, on its own: the
    same drift on the two amounts, and the same exact $30.00 on the three. *)
Remark compensated_sum_drifts_too :
  PyNum.compensated_sum 0.1 [0.2%float] = 0.30000000000000004%float
  /\ zero_drift [10; 20] (PyFloat (PyNum.compensated_sum 0.1 [0.2%float])) = false
  /\ PyNum.compensated_sum 19.99 [0.01%float; 10%float] = 30%float.
Proof. repeat split; vm_compute; reflexivity. Qed.

(** C1, amended -- On every interpreter and for every record report on
    which the Summarizer returns, there is one chunk per period entry, in
    order, whose income total is the interpreter's [sum] of the amounts of
    exactly the transactions of type [income], whose expense total is its
    [sum] of the amounts of exactly those of type [expense], and whose net
    is the income total minus the expense total. The [sum] is exact on whole
    amounts, before 3.12 and from 3.12 on; on decimal amounts it is a
    binary64 sum, added one after the other before 3.12 and with a running
    compensation from 3.12 on, so that ten amounts of $0.10 total
    0.9999999999999999 on the former and 1.0 on the latter. On both, the day
    with a salary of $100.00, a transfer and the expenses $19.99, $0.01 and
    $10.00 has the totals 100.0 and exactly 30.0 and the net 70.0, and its
    text shows them to the cent. *)
Theorem summarizer_totals :
  (forall py expense_data chunks,
      _process_data py expense_data = ok chunks ->
      Forall2 (summarizes py) (report_entries expense_data) chunks)
  /\ (forall zs,
        Py.sum (map (fun z => JNum (PyInt z)) zs) = ok (PyInt (fold_right Z.add 0 zs))
        /\ Py.sum_compensated (map (fun z => JNum (PyInt z)) zs)
           = ok (PyInt (fold_right Z.add 0 zs)))
  /\ (Py.sum ten_dimes = ok (PyFloat 0.9999999999999999)
      /\ Py.sum_compensated ten_dimes = ok (PyFloat 1))
  /\ (forall py, In py [python311; python312] ->
        exists c,
          _process_data py mixed_day = ok [c]
          /\ total_income c = PyFloat 100
          /\ total_expenses c = PyFloat 30
          /\ net c = PyFloat 70
          /\ zero_drift [1999; 1; 1000] (total_expenses c) = true
          /\ PyStr.contains "Income: $100.00, Expenses: $30.00, Net: $70.00" (text c)
             = true).
Proof.
  split; [|split; [|split]].
  - intros py expense_data chunks. apply process_data_summarizes.
  - intros zs. split; [apply sum_ints|apply sum_compensated_ints].
  - split; vm_compute; reflexivity.
  - intros py [<-|[<-|[]]]; eexists; (split; [vm_compute; reflexivity|]);
      repeat split; vm_compute; reflexivity.
Qed.

(** ** C2. The Session Cache *)

Lemma remove_count_101 : remove_count 101 = ok 20.
Proof. vm_compute. reflexivity. Qed.

(** On every size up to 1000, [int(n * 0.2)] is the integer part of a
    fifth of [n]. *)
Lemma remove_count_floor (n : nat) :
  (n <= 1000)%nat -> remove_count (Z.of_nat n) = ok (Z.of_nat n / 5).
Proof.
  intros Hn.
  assert (Hall : forallb (fun k => match remove_count (Z.of_nat k) with
                                   | inr c => c =? Z.of_nat k / 5
                                   | inl _ => false
                                   end) (seq 0 1001) = true)
    by (vm_compute; reflexivity).
  rewrite forallb_forall in Hall. specialize (Hall n).
  destruct (remove_count (Z.of_nat n)) as [e|c].
  - discriminate Hall. apply in_seq. lia.
  - unfold ok. f_equal. apply Z.eqb_eq, Hall, in_seq. lia.
Qed.

Lemma cache_del_absent {V} (k : string) (d : list (string * V)) :
  ~ In k (keys d) -> cache_del k d = d.
Proof.
  induction d as [|[k' v] d IH]; intros Hk; [reflexivity|].
  cbn [cache_del filter fst]. destruct (String.eqb_spec k k') as [->|Hne].
  - exfalso. apply Hk. now left.
  - cbn [negb]. f_equal. apply IH. intros Hin. apply Hk. now right.
Qed.

(** Deleting the first [n] keys of a cache without repeated keys leaves
    the cache without its [n] oldest entries. *)
Lemma delete_oldest {V} (d : list (string * V)) :
  NoDup (keys d) ->
  forall n, fold_left (fun cache user_id => cache_del user_id cache)
                      (firstn n (keys d)) d
            = skipn n d.
Proof.
  induction d as [|[k v] d IH]; intros Hnd n.
  - now destruct n.
  - destruct n as [|n]; [reflexivity|].
    cbn [keys map fst firstn fold_left skipn].
    inversion Hnd as [|k0 ks Hk Hnd']; subst.
    replace (cache_del k ((k, v) :: d)) with d.
    + now apply IH.
    + cbn [cache_del filter fst]. rewrite String.eqb_refl. cbn [negb].
      symmetry. now apply cache_del_absent.
Qed.

Lemma cleanup_rag_cache_small {V} (d : list (string * V)) :
  (List.length d <= 100)%nat -> cleanup_rag_cache d = ok d.
Proof.
  intros H. unfold cleanup_rag_cache, MAX_CACHE_SIZE.
  destruct (Z.ltb_spec 100 (Z.of_nat (List.length d))); [lia|reflexivity].
Qed.

(** Over capacity, the cleanup evicts exactly the [floor(0.2 * size)]
    oldest entries. *)
Lemma cleanup_rag_cache_evicts {V} (d : list (string * V)) :
  NoDup (keys d) ->
  (100 < List.length d <= 1000)%nat ->
  cleanup_rag_cache d = ok (skipn (List.length d / 5) d).
Proof.
  intros Hnd H. unfold cleanup_rag_cache, MAX_CACHE_SIZE.
  destruct (Z.ltb_spec 100 (Z.of_nat (List.length d))); [|lia].
  rewrite remove_count_floor by lia. cbn [ebind ok].
  replace (Z.to_nat (Z.of_nat (List.length d) / 5)) with (List.length d / 5)%nat.
  - now rewrite delete_oldest.
  - change 5 with (Z.of_nat 5). rewrite <- Nat2Z.inj_div. now rewrite Nat2Z.id.
Qed.

Lemma in_cache_spec {V} (k : string) (d : list (string * V)) :
  in_cache k d = true <-> In k (keys d).
Proof.
  unfold in_cache. rewrite existsb_exists. split.
  - intros (x & Hin & Heq). apply String.eqb_eq in Heq. now subst.
  - intros Hin. exists k. split; [assumption|apply String.eqb_refl].
Qed.

Lemma keys_app {V} (d1 d2 : list (string * V)) :
  keys (d1 ++ d2) = (keys d1 ++ keys d2)%list.
Proof. apply map_app. Qed.

Lemma NoDup_skipn {A} (n : nat) (l : list A) : NoDup l -> NoDup (skipn n l).
Proof.
  intros H. rewrite <- (firstn_skipn n l) in H. now apply NoDup_app_remove_l in H.
Qed.

Lemma keys_skipn {V} (n : nat) (d : list (string * V)) :
  keys (skipn n d) = skipn n (keys d).
Proof. unfold keys. symmetry. apply skipn_map. Qed.

(** The get-or-create step keeps the keys distinct and at most 101
    entries: one more than the configured maximum. A step that finds 101
    entries first evicts the 20 oldest. *)
Lemma get_or_create_bound {W} (E : env W) (w : W) (key : option string)
    (user_id_key : string) (sv : server) :
  NoDup (keys (user_rag_cache sv)) ->
  (List.length (user_rag_cache sv) <= 101)%nat ->
  let after := cache_after E w key user_id_key sv in
  NoDup (keys after)
  /\ (List.length after <= 101)%nat
  /\ (List.length (user_rag_cache sv) = 101%nat ->
      (exists new, after = (skipn 20 (user_rag_cache sv) ++ new)%list
                   /\ (List.length new <= 1)%nat))
  /\ (List.length (user_rag_cache sv) <= 100 ->
      exists new, after = (user_rag_cache sv ++ new)%list /\ (List.length new <= 1)%nat)%nat.
Proof.
  intros Hnd Hlen after. subst after. unfold cache_after, get_or_create.
  repeat run_step. unfold MAX_CACHE_SIZE.
  assert (Hstep : forall c sv0,
             NoDup (keys c) ->
             let o := run E
               (mbind mget (fun sv1 : server =>
                  if negb (in_cache user_id_key (user_rag_cache sv1))
                  then mbind (lift_exc (__init__ key API_BASE_URL key))
                         (fun self => assign (set_cache
                            (user_rag_cache sv1 ++ [(user_id_key, self)])%list))
                  else mret tt) (set_cache c sv0)) w in
             exists new, user_rag_cache (snd (result o)) = (c ++ new)%list
                         /\ (List.length new <= 1)%nat
                         /\ NoDup (keys (c ++ new))).
  { intros c sv0 Hc o. subst o. repeat run_step. cbn [user_rag_cache set_cache].
    destruct (in_cache user_id_key c) eqn:Hin; cbn [negb].
    - repeat run_step. exists []. rewrite app_nil_r. cbn. auto.
    - repeat run_step. destruct (__init__ key API_BASE_URL key) as [e|self].
      + exists []. rewrite app_nil_r. cbn. auto.
      + repeat run_step. cbn [user_rag_cache set_cache].
        exists [(user_id_key, self)]. split; [reflexivity|]. split; [cbn; lia|].
        rewrite keys_app. cbn [keys map fst].
        apply NoDup_app; [assumption|repeat constructor; intros []|].
        intros k Hk [<-|[]]. apply in_cache_spec in Hk. congruence. }
  destruct (Z.ltb_spec 100 (Z.of_nat (List.length (user_rag_cache sv)))) as [Hover|Hfit].
  - assert (Hc : List.length (user_rag_cache sv) = 101%nat) by lia.
    rewrite cleanup_rag_cache_evicts by (auto; lia).
    rewrite Hc. change (101 / 5)%nat with 20%nat.
    repeat run_step.
    destruct (Hstep (skipn 20 (user_rag_cache sv)) sv) as (new & Hafter & Hnew & Hnd').
    { rewrite keys_skipn. now apply NoDup_skipn. }
    cbv zeta in Hafter.
    match goal with |- context [run E ?m w] =>
      match type of Hafter with context [run E ?m' w] => change m with m' end end.
    rewrite Hafter. split; [assumption|]. split; [|split].
    + rewrite length_app, length_skipn. lia.
    + intros _. now exists new.
    + lia.
  - repeat run_step.
    destruct (Hstep (user_rag_cache sv) sv Hnd) as (new & Hafter & Hnew & Hnd').
    cbv zeta in Hafter.
    replace (set_cache (user_rag_cache sv) sv) with sv in Hafter by now destruct sv.
    match goal with |- context [run E ?m w] =>
      match type of Hafter with context [run E ?m' w] => change m with m' end end.
    rewrite Hafter. split; [assumption|]. split; [|split].
    + rewrite length_app. lia.
    + lia.
    + intros _. now exists new.
Qed.

(** C2, at the failing input -- The 101st distinct user is inserted
    without any eviction: after 101 requests from distinct users the cache
    holds 101 sessions, one more than [MAX_CACHE_SIZE]. The next request
    evicts the 20 oldest, [floor(0.2 * 101)], and leaves 82. *)
Theorem cache_exceeds_maximum :
  let cache := user_rag_cache (fold_left serve (map ask (users 101)) started) in
  let next := user_rag_cache (fold_left serve (map ask (users 102)) started) in
  keys cache = users 101
  /\ List.length cache = 101%nat
  /\ (MAX_CACHE_SIZE <? Z.of_nat (List.length cache)) = true
  /\ keys next = (skipn 20 (users 101) ++ ["u101"])%list
  /\ List.length next = 82%nat.
Proof.
  cbv zeta. repeat split; vm_compute; reflexivity.
Qed.

(** ** C3. The calls of a turn *)


Lemma run_try_except {W S A} (E : env W) (m : M S A) (h : exn -> M S A) (s : S) (w : W) :
  run E (try_except m h s) w
  = let o := run E (m s) w in
    match result o with
    | (inl e, s') =>
        let o' := run E (h e s') (world o) in
        {| result := result o'; trace := (trace o ++ trace o')%list; world := world o' |}
    | (inr a, s') => {| result := (inr a, s'); trace := trace o; world := world o |}
    end.
Proof.
  unfold try_except. rewrite run_pbind. cbv zeta.
  destruct (result (run E (m s) w)) as [[e|a] s']; [reflexivity|].
  rewrite run_Ret. cbn. now rewrite app_nil_r.
Qed.

Lemma run_on_session {W A} (E : env W) (key : string) (m : M SimpleExpenseRAG A)
    (sv : server) (w : W) :
  run E (on_session key m sv) w
  = match cache_get key (user_rag_cache sv) with
    | None => {| result := (raise (KeyError key), sv); trace := []; world := w |}
    | Some self =>
        let o := run E (m self) w in
        {| result := (fst (result o),
                      set_cache (cache_set key (snd (result o)) (user_rag_cache sv)) sv);
           trace := trace o; world := world o |}
    end.
Proof.
  unfold on_session. destruct (cache_get key (user_rag_cache sv)) as [self|];
    [|reflexivity].
  rewrite run_pbind. cbv zeta.
  destruct (result (run E (m self) w)) as [r self']. rewrite run_Ret. cbn.
  now rewrite app_nil_r.
Qed.

Lemma quiet_mret {S A} (a : A) : quiet (@mret S A a).
Proof. intros W E w s. now split. Qed.

Lemma quiet_mraise {S A} (e : exn) : quiet (@mraise S A e).
Proof. intros W E w s. now split. Qed.

Lemma quiet_mget {S} : quiet (@mget S).
Proof. intros W E w s. now split. Qed.

Lemma quiet_assign {S} (f : S -> S) : quiet (assign f).
Proof. intros W E w s. now split. Qed.

Lemma quiet_lift_exc {S A} (x : exc A) : quiet (@lift_exc S A x).
Proof. intros W E w s. now split. Qed.

Lemma quiet_mbind {S A B} (m : M S A) (k : A -> M S B) :
  quiet m -> (forall a, quiet (k a)) -> quiet (mbind m k).
Proof.
  intros Hm Hk W E w s. rewrite run_mbind. cbv zeta.
  destruct (Hm W E w s) as [Ht Hw].
  destruct (result (run E (m s) w)) as [[e|a] s']; cbn [trace world].
  - now split.
  - rewrite Ht, Hw. destruct (Hk a W E w s') as [Ht' Hw']. now rewrite Ht', Hw'.
Qed.

Lemma quiet_on_session {A} (key : string) (m : M SimpleExpenseRAG A) :
  quiet m -> quiet (on_session key m).
Proof.
  intros Hm W E w sv. rewrite run_on_session.
  destruct (cache_get key (user_rag_cache sv)) as [self|]; [|now split].
  cbv zeta. cbn [trace world]. apply Hm.
Qed.

Lemma quiet_set_expense_data (py : interpreter) (d : option dict) :
  quiet (set_expense_data py d).
Proof.
  unfold set_expense_data. apply quiet_mbind; [apply quiet_assign|]. intros _.
  destruct d as [[|kv d]|]; repeat (apply quiet_mbind; [|intros ?]);
    auto using quiet_assign, quiet_lift_exc.
Qed.

Lemma quiet_get_or_create (key : option string) (user_id_key : string) :
  quiet (get_or_create key user_id_key).
Proof.
  unfold get_or_create. apply quiet_mbind; [apply quiet_mget|]. intros sv.
  apply quiet_mbind.
  - destruct (MAX_CACHE_SIZE <? _); [|apply quiet_mret].
    apply quiet_mbind; [apply quiet_lift_exc|]. intros c. apply quiet_assign.
  - intros _. apply quiet_mbind; [apply quiet_mget|]. intros sv'.
    destruct (negb _); [|apply quiet_mret].
    apply quiet_mbind; [apply quiet_lift_exc|]. intros c. apply quiet_assign.
Qed.


Lemma fetch_user_specific_expense_data_calls {W} (E : env W) (w : W) (user_id : string) :
  PyStr.blank user_id = false ->
  let t := trace (run E (fetch_user_specific_expense_data user_id) w) in
  calls in_validate_user_exists t = 1%nat
  /\ (calls in_fetch_user_specific_expense_data t <= 1)%nat
  /\ calls in_fetch_chat_history_for_validated_user t = 0%nat
  /\ calls in_validate_and_send_to_history t = 0%nat
  /\ calls in_chat t = 0%nat.
Proof.
  intros Hb t. subst t. rewrite (fetch_user_specific_expense_data_eq E w user_id Hb).
  cbv zeta. destruct (is_accepted _); cbn [trace]; unfold calls;
    cbn [filter event_caller caller_eqb List.length]; repeat split; lia.
Qed.

Lemma validate_and_send_to_history_calls {W} (E : env W) (w : W)
    (user_message assistant_response user_id : string) :
  PyStr.truthy user_message = true ->
  PyStr.truthy assistant_response = true ->
  PyStr.blank user_id = false ->
  let t := trace (run E (validate_and_send_to_history user_message assistant_response
                           user_id) w) in
  calls in_validate_user_exists t = 1%nat
  /\ (calls in_validate_and_send_to_history t <= 1)%nat
  /\ calls in_fetch_user_specific_expense_data t = 0%nat
  /\ calls in_fetch_chat_history_for_validated_user t = 0%nat
  /\ calls in_chat t = 0%nat.
Proof.
  intros Hm Ha Hb t. subst t.
  rewrite (validate_and_send_to_history_eq E w _ _ _ Hm Ha Hb).
  cbv zeta. destruct (is_accepted _); cbn [trace]; unfold calls;
    cbn [filter event_caller caller_eqb List.length]; repeat split; lia.
Qed.


Section RouteProofs.

Variable py : interpreter.
Variable OPENAI_API_KEY : option string.
Variable exn_text : exn -> string.




(** ** C7. A provider failure, seen from the route *)

Lemma calls_In (e : event) (t : list event) :
  In e t -> (1 <= calls (event_caller e) t)%nat.
Proof.
  unfold calls. induction t as [|e' t IH]; intros Hin; [contradiction|].
  cbn [filter]. destruct Hin as [->|Hin].
  - replace (caller_eqb (event_caller e) (event_caller e)) with true
      by now destruct (event_caller e).
    cbn [List.length]. lia.
  - specialize (IH Hin). destruct (caller_eqb _ _); cbn [List.length]; lia.
Qed.

Lemma no_completion (t : list event) (req : completion_request) (r : completion_result) :
  calls in_chat t = 0%nat -> ~ In (ECreate in_chat req r) t.
Proof. intros H Hin. apply calls_In in Hin. cbn [event_caller] in Hin. lia. Qed.

(** When the completion call of a turn raises, the route still answers:
    the response is the error text and the status is success. *)
Lemma turn_survives_provider_failure {W} (E : env W) (w : W) (request : ChatRequest)
    (sv : server) (req : completion_request) (msg : string) :
  let o := run E (chat_with_teddy py OPENAI_API_KEY exn_text request sv) w in
  In (ECreate in_chat req (CompletionError msg)) (trace o) ->
  fst (result o)
  = ok {| response := "Error generating response: " ++ msg; status := "success" |}.
Proof.
  cbv zeta. unfold chat_with_teddy. repeat run_step.
  destruct (rag_instance sv); [|intros []].
  destruct (PyStr.blank (message request)) eqn:Hm; [intros []|].
  destruct (PyStr.blank (user_id request)) eqn:Hu; [intros []|].
  destruct (blank_false_strip _ Hu) as [Hsu _].
  destruct (blank_false_strip _ Hm) as [Hsm _].
  rewrite run_try_except. cbv zeta.
  assert (Hhandle :
            In (ECreate in_chat req (CompletionError msg))
               (trace (run E (handle py OPENAI_API_KEY request sv) w)) ->
            fst (result (run E (handle py OPENAI_API_KEY request sv) w))
            = ok {| response := "Error generating response: " ++ msg;
                    status := "success" |}).
  { unfold handle.
    (* get-or-create *)
    rewrite run_mbind. cbv zeta.
    destruct (quiet_get_or_create OPENAI_API_KEY (PyStr.strip (user_id request)) W E w sv)
      as [-> ->].
    destruct (result (run E (get_or_create _ _ sv) w)) as [[e|u0] sv0];
      cbn [result trace fst app]; [intros []|].
    (* record fetch *)
    rewrite run_mbind, run_lift_prog. cbv zeta. cbn [result trace world ok].
    pose proof (fetch_user_specific_expense_data_calls E w (PyStr.strip (user_id request)))
      as Hfetch. rewrite blank_strip in Hfetch. specialize (Hfetch Hu). cbv zeta in Hfetch.
    destruct Hfetch as (_ & _ & _ & _ & Hf).
    set (o1 := run E (fetch_user_specific_expense_data (PyStr.strip (user_id request))) w)
      in *.
    cbn [result trace]. intros [Hin|Hin]%in_app_or; [now apply no_completion in Hin|].
    revert Hin.
    (* set_expense_data *)
    rewrite run_mbind. cbv zeta.
    assert (Hq2 : quiet
              match result o1 with
              | Some (_ :: _) =>
                  on_session (PyStr.strip (user_id request))
                    (set_expense_data py (result o1))
              | _ => on_session (PyStr.strip (user_id request))
                       (set_expense_data py None)
              end).
    { destruct (result o1) as [[|kv d]|];
        apply quiet_on_session, quiet_set_expense_data. }
    destruct (Hq2 W E (world o1) sv0) as [-> ->]. clear Hq2.
    match goal with |- context [result (run E ?m (world o1))] =>
      destruct (result (run E m (world o1))) as [[e|u2] sv2] end;
      cbn [result trace fst app]; [intros []|].
    (* chat *)
    rewrite run_mbind, run_on_session. cbv zeta.
    destruct (cache_get (PyStr.strip (user_id request)) (user_rag_cache sv2)) as [self|];
      cbn [result trace world fst]; [|intros []].
    pose proof (chat_endings py E (world o1) (PyStr.strip (message request))
                  (PyStr.strip (user_id request)) self) as Hend.
    set (o3 := run E (chat py (PyStr.strip (message request))
                        (PyStr.strip (user_id request)) self) (world o1)) in *.
    assert (Htail : forall a sv3 (w3 : W),
               PyStr.truthy a = true ->
               let o4 := run E
                 (@mbind server unit ChatResponse
                        (if negb (PyStr.truthy a)
                         then mraise (HTTPException 500 "No response from assistant")
                         else mret tt)
                    (fun _ =>
                       mbind (if PyStr.truthy (PyStr.strip (user_id request))
                                 && negb (is_greeting (message request))
                              then mbind (lift_prog
                                            (validate_and_send_to_history
                                               (PyStr.strip (message request)) a
                                               (PyStr.strip (user_id request))))
                                         (fun _ => mret tt)
                              else mret tt)
                         (fun _ => mret {| response := a; status := "success" |})) sv3) w3 in
               fst (result o4) = ok {| response := a; status := "success" |}
               /\ calls in_chat (trace o4) = 0%nat).
    { intros a sv3 w3 Ha. cbv zeta. rewrite Ha, Hsu. cbn [negb andb].
      repeat run_step.
      destruct (is_greeting (message request)); cbn [negb]; repeat run_step.
      - now split.
      - split; [reflexivity|]. rewrite !app_nil_r.
        pose proof (validate_and_send_to_history_calls E w3
                      (PyStr.strip (message request)) a (PyStr.strip (user_id request))
                      Hsm Ha) as Hp.
        rewrite blank_strip in Hp. specialize (Hp Hu). cbv zeta in Hp. apply Hp. }
    destruct Hend as [e He _ Hno|req' msg' Hr _ _ Hall|req' a Hr _ _ Hall];
      try rewrite Hsu, strip_idempotent in Hr.
    - destruct (result o3) as [[e'|[a v]] self']; cbn [fst] in He |- *; [|discriminate].
      cbn [result trace fst]. intros Hin. now apply Hno in Hin.
    - destruct (result o3) as [[e'|[a v]] self']; cbn [fst] in Hr |- *; [discriminate|].
      injection Hr as -> ->.
      destruct (Htail ("Error generating response: " ++ msg')
                      (set_cache (cache_set (PyStr.strip (user_id request)) self'
                                            (user_rag_cache sv2)) sv2)
                      (world o3) eq_refl) as [Hres Hnone].
      cbv zeta in Hres, Hnone. cbn [result trace].
      intros [Hin|Hin]%in_app_or.
      + destruct (Hall _ _ Hin) as [_ [= ->]]. exact Hres.
      + now apply no_completion in Hin.
    - destruct (result o3) as [[e'|[a' v]] self']; cbn [fst] in Hr |- *; [discriminate|].
      injection Hr as -> ->.
      destruct (PyStr.truthy a) eqn:Ha.
      + destruct (Htail a
                        (set_cache (cache_set (PyStr.strip (user_id request)) self'
                                              (user_rag_cache sv2)) sv2)
                        (world o3) Ha) as [Hres Hnone].
        cbv zeta in Hres, Hnone. rewrite Ha in Hres, Hnone. cbn [result trace snd].
        intros [Hin|Hin]%in_app_or.
        * destruct (Hall _ _ Hin) as [_ [=]].
        * now apply no_completion in Hin.
      + cbn [negb]. repeat run_step. rewrite app_nil_r.
        intros Hin. destruct (Hall _ _ Hin) as [_ [=]]. }
  destruct (result (run E (handle py OPENAI_API_KEY request sv) w))
    as [[e|a] sv'] eqn:Hr; cbn [result trace fst] in Hhandle |- *.
  - intros Hin. exfalso.
    assert (Hin' : In (ECreate in_chat req (CompletionError msg))
                      (trace (run E (handle py OPENAI_API_KEY request sv) w))).
    { apply in_app_or in Hin as [Hin|Hin]; [assumption|]. exfalso.
      destruct e; try (cbn in Hin; contradiction).
      destruct (PyStr.contains "Invalid user_id" msg0
                || PyStr.contains "User not found" msg0); cbn in Hin; contradiction. }
    specialize (Hhandle Hin'). discriminate.
  - exact Hhandle.
Qed.

(** C7 -- For every turn in which the identity check was accepted and the
    completion call raises with message [msg], the turn completes normally.
    [chat] raises nothing: it returns the text
    ["Error generating response: " ++ msg], which contains [msg], together
    with the canonical (trimmed) identifier, and leaves the in-session memory
    as it was. The route raises nothing either: it answers with that text as
    the response and the status [success]. *)
Theorem provider_failure_downgraded :
  (forall W (E : env W) (w : W) (user_query user_id : string) (self : SimpleExpenseRAG)
          (l : list json) (req : completion_request) (msg : string),
      let o := run E (chat py user_query user_id self) w in
      In (EGet in_validate_user_exists history_url [("userId", PyStr.strip user_id)]
               (Response 200 (Some (JList l)))) (trace o) ->
      In (ECreate in_chat req (CompletionError msg)) (trace o) ->
      fst (result o) = ok ("Error generating response: " ++ msg, PyStr.strip user_id)
      /\ PyStr.contains msg ("Error generating response: " ++ msg) = true
      /\ current_conversation (snd (result o)) = current_conversation self)
  /\ (forall W (E : env W) (w : W) (request : ChatRequest) (sv : server)
             (req : completion_request) (msg : string),
        let o := run E (chat_with_teddy py OPENAI_API_KEY exn_text request sv) w in
        In (ECreate in_chat req (CompletionError msg)) (trace o) ->
        fst (result o)
        = ok {| response := "Error generating response: " ++ msg; status := "success" |}).
Proof.
  split.
  - intros W E w user_query user_id self l req msg. apply chat_provider_failure.
  - intros W E w request sv req msg. apply turn_survives_provider_failure.
Qed.

(** ** C2, continued. The cache along the requests *)

Lemma keeps_keys_mret {A} (a : A) : keeps_keys (mret a).
Proof. intros W E w sv. reflexivity. Qed.

Lemma keeps_keys_mraise {A} (e : exn) : keeps_keys (@mraise server A e).
Proof. intros W E w sv. reflexivity. Qed.

Lemma keeps_keys_lift_prog {A} (p : prog A) : keeps_keys (lift_prog p).
Proof. intros W E w sv. now rewrite run_lift_prog. Qed.

Lemma keeps_keys_mbind {A B} (m : M server A) (k : A -> M server B) :
  keeps_keys m -> (forall a, keeps_keys (k a)) -> keeps_keys (mbind m k).
Proof.
  intros Hm Hk W E w sv. rewrite run_mbind. cbv zeta.
  specialize (Hm W E w sv).
  destruct (result (run E (m sv) w)) as [[e|a] sv'] eqn:Hr; cbn [result snd] in *.
  - exact Hm.
  - now rewrite Hk.
Qed.

Lemma keys_cache_set {V} (k : string) (v : V) (d : list (string * V)) :
  In k (keys d) -> keys (cache_set k v d) = keys d.
Proof.
  induction d as [|[k' v'] d IH]; intros Hin; [contradiction|].
  cbn [cache_set]. destruct (String.eqb_spec k k') as [->|Hne]; [reflexivity|].
  cbn [keys map fst]. f_equal. apply IH. destruct Hin as [Heq|Hin]; [|assumption].
  cbn in Heq. congruence.
Qed.

Lemma cache_get_In {V} (k : string) (d : list (string * V)) (v : V) :
  cache_get k d = Some v -> In k (keys d).
Proof.
  induction d as [|[k' v'] d IH]; [discriminate|].
  cbn [cache_get]. destruct (String.eqb_spec k k') as [->|Hne].
  - intros _. now left.
  - intros H. right. now apply IH.
Qed.

Lemma keeps_keys_on_session {A} (key : string) (m : M SimpleExpenseRAG A) :
  keeps_keys (on_session key m).
Proof.
  intros W E w sv. rewrite run_on_session.
  destruct (cache_get key (user_rag_cache sv)) as [self|] eqn:Hg; [|reflexivity].
  cbv zeta. cbn [result snd user_rag_cache set_cache].
  apply keys_cache_set. now apply cache_get_In in Hg.
Qed.

(** After the get-or-create step, the rest of the [try] block keeps the
    keys of the cache. *)
Lemma handle_keys {W} (E : env W) (w : W) (request : ChatRequest) (sv : server) :
  keys (user_rag_cache (snd (result (run E (handle py OPENAI_API_KEY request sv) w))))
  = keys (cache_after E w OPENAI_API_KEY (PyStr.strip (user_id request)) sv).
Proof.
  unfold handle, cache_after. rewrite run_mbind. cbv zeta.
  destruct (result (run E (get_or_create OPENAI_API_KEY (PyStr.strip (user_id request)) sv) w))
    as [[e|u] sv'] eqn:Hr; cbn [result snd]; [reflexivity|].
  match goal with |- context [run E (?k sv') ?w'] =>
    assert (Hk : keeps_keys k); [|apply Hk] end.
  apply keeps_keys_mbind; [apply keeps_keys_lift_prog|]. intros data.
  apply keeps_keys_mbind.
  { destruct data as [[|kv d]|]; apply keeps_keys_on_session. }
  intros _. apply keeps_keys_mbind; [apply keeps_keys_on_session|]. intros [a v].
  apply keeps_keys_mbind.
  { destruct (negb (PyStr.truthy a)); [apply keeps_keys_mraise|apply keeps_keys_mret]. }
  intros _. apply keeps_keys_mbind; [|intros _; apply keeps_keys_mret].
  destruct (PyStr.truthy v && negb (is_greeting (message request)));
    [|apply keeps_keys_mret].
  apply keeps_keys_mbind; [apply keeps_keys_lift_prog|]. intros _. apply keeps_keys_mret.
Qed.

Lemma chat_with_teddy_keys {W} (E : env W) (w : W) (request : ChatRequest) (sv : server) :
  let after := user_rag_cache
    (snd (result (run E (chat_with_teddy py OPENAI_API_KEY exn_text request sv) w))) in
  keys after = keys (user_rag_cache sv)
  \/ keys after = keys (cache_after E w OPENAI_API_KEY (PyStr.strip (user_id request)) sv).
Proof.
  cbv zeta. unfold chat_with_teddy. repeat run_step.
  destruct (rag_instance sv); [|now left].
  destruct (PyStr.blank (message request)); [now left|].
  destruct (PyStr.blank (user_id request)); [now left|].
  right. rewrite run_try_except. cbv zeta. rewrite <- handle_keys.
  destruct (result (run E (handle py OPENAI_API_KEY request sv) w))
    as [[e|a] sv'] eqn:Hr; cbn [result snd]; [|reflexivity].
  destruct e; try reflexivity.
  now destruct (PyStr.contains "Invalid user_id" msg || PyStr.contains "User not found" msg).
Qed.

(** Whatever the requests and whatever the store and the provider answer,
    the cache of a server that starts empty never holds two sessions for one
    key nor more than 101 sessions: [MAX_CACHE_SIZE] and one. *)
Lemma cache_at_most_101 {W} (E : env W) (requests : list ChatRequest) :
  forall (sv : server) (w : W),
    NoDup (keys (user_rag_cache sv)) ->
    (List.length (user_rag_cache sv) <= 101)%nat ->
    let after := user_rag_cache
      (fst (serve_all E py OPENAI_API_KEY exn_text requests sv w)) in
    NoDup (keys after) /\ (List.length after <= 101)%nat.
Proof.
  induction requests as [|request rest IH]; intros sv w Hnd Hlen; [now split|].
  cbn [serve_all]. cbv zeta. apply IH.
  - destruct (chat_with_teddy_keys E w request sv) as [-> | ->]; [assumption|].
    now apply get_or_create_bound.
  - destruct (chat_with_teddy_keys E w request sv) as [Hk|Hk];
      apply (f_equal (@List.length string)) in Hk; unfold keys in Hk;
      rewrite !length_map in Hk; rewrite Hk; [assumption|].
    now apply get_or_create_bound.
Qed.

End RouteProofs.



Lemma provider_failure_downgraded_witness :
  let self := Session [] [] None [] in
  let o := run provider_down (chat python311 "what did I spend?" " u1 " self) tt in
  fst (result o) = ok ("Error generating response: Connection error.", "u1")
  /\ PyStr.contains "Connection error." "Error generating response: Connection error." = true
  /\ current_conversation (snd (result o)) = current_conversation self.
Proof.
  cbv zeta.
  apply (proj1 (provider_failure_downgraded python311 sample_key (fun _ => ""))
           unit provider_down tt "what did I spend?" " u1 "
           (Session [] [] None []) []
           (chat_request (prompt_template "" "what did I spend?")) "Connection error.").
  - vm_compute. left. reflexivity.
  - vm_compute. right. right. left. reflexivity.
Defined.

(** The same failure seen from the route: the request of [u1] is answered
    with the error text, status [success]. *)
Example provider_down_turn :
  fst (result (run provider_down
                 (chat_with_teddy python311 sample_key (fun _ => "") (ask "u1") started)
                 tt))
  = ok {| response := "Error generating response: Connection error.";
          status := "success" |}.
Proof. vm_compute. reflexivity. Qed.

(* ================================================================== *)
(** * Part III. Properties of the rest of the code                     *)
(* ================================================================== *)

(** ** The functions of [utils.py] outside the turn *)

(** X1 -- The combined read [fetch_chat_history] makes no request for a
    blank identifier and answers [([], False)]; otherwise it makes the one
    read of the history endpoint that the validator makes, and from that one
    answer it gives the validity that [validate_user_exists] gives and the
    history that [fetch_chat_history_for_validated_user] gives; an invalid
    user never comes with a history. *)
Theorem fetch_chat_history_agrees {W} (E : env W) (w : W) (user_id : string) :
  let res := fst (fst (perform E (fetch_chat_history user_id) w)) in
  let log := snd (fst (perform E (fetch_chat_history user_id) w)) in
  let ov := run E (validate_user_exists user_id) w in
  let ol := run E (fetch_chat_history_for_validated_user (PyStr.strip user_id)) w in
  snd res = fst (result ov)
  /\ map sent_of (trace ov) = map Some log
  /\ (PyStr.blank user_id = true -> res = ([], false) /\ log = [])
  /\ (PyStr.blank user_id = false ->
      fst res = result ol /\ exists r, log = [SentGet history_url
                                                [("userId", PyStr.strip user_id)] r])
  /\ (snd res = false -> fst res = []).
Proof.
  cbv zeta. destruct (PyStr.blank user_id) eqn:Hb.
  - rewrite (validate_user_exists_blank E w user_id Hb).
    unfold fetch_chat_history. rewrite Hb. cbn.
    repeat split; auto; discriminate.
  - rewrite (validate_user_exists_eq E w user_id Hb),
      fetch_chat_history_for_validated_user_eq.
    unfold fetch_chat_history. rewrite Hb. cbv zeta. cbn [perform].
    fold history_url.
    destruct (on_get E w history_url [("userId", PyStr.strip user_id)]) as [r w'].
    cbn [fst snd result trace].
    assert (Hperform :
              exists res,
                perform E
                  match r with
                  | RequestException => Done ([], false)
                  | Response status_code body =>
                      if status_code =? 200
                      then match body with
                           | Some (JList history_data) => Done (history_data, true)
                           | _ => Done ([], false)
                           end
                      else if status_code =? 404 then Done ([], false)
                      else if status_code =? 400 then Done ([], false)
                      else Done ([], false)
                  end w' = (res, [], w')
                /\ snd res = is_accepted r /\ fst res = history_of r
                /\ (snd res = false -> fst res = [])).
    { destruct r as [|s body]; [exists ([], false); cbn; auto|].
      cbn [is_accepted history_of]. destruct (s =? 200) eqn:Hs.
      - destruct body as [[| | | |l|]|];
          try (exists ([], false); cbn; now rewrite ?Hs).
        exists (l, true). cbn. rewrite ?Hs. repeat split. discriminate.
      - exists ([], false).
        destruct (s =? 404), (s =? 400); cbn;
          destruct body as [[| | | |l|]|]; cbn; rewrite ?Hs; auto. }
    destruct Hperform as (res & -> & Hv & Hh & Hnone). cbn [fst snd map sent_of].
    split; [rewrite Hv; now destruct (is_accepted r)|].
    split; [reflexivity|]. split; [discriminate|]. split; [|exact Hnone].
    intros _. split; [exact Hh|]. now exists r.
Qed.

Lemma send_to_history_eq {W} (E : env W) (w : W)
    (user_message assistant_response user_id : string) :
  PyStr.truthy user_message = true ->
  PyStr.truthy assistant_response = true ->
  PyStr.blank user_id = false ->
  perform E (send_to_history user_message assistant_response user_id) w
  = let payload := [("userId", PyStr.strip user_id);
                    ("human", PyStr.strip user_message);
                    ("assistant", PyStr.strip assistant_response)] in
    let rw := on_post E w create_url payload in
    (persisted (fst rw), [SentPost create_url payload (fst rw)], snd rw).
Proof.
  intros Hm Ha Hb. unfold send_to_history. rewrite Hm, Ha, Hb. cbn [negb orb perform].
  fold create_url. cbv zeta.
  match goal with |- context [on_post E w create_url ?p] =>
    destruct (on_post E w create_url p) as [r w'] end.
  cbn [fst snd]. destruct r as [|s body]; [reflexivity|].
  cbn [persisted]. now destruct ((s =? 200) || (s =? 201)).
Qed.

(** X2 -- The validated persist is the identity check followed by the
    plain persist: with non-empty texts and a non-blank identifier, when the
    check is accepted [validate_and_send_to_history] sends and returns
    exactly what [send_to_history] sends and returns on the validated
    identifier in the world the check left, and when the check is not
    accepted it sends nothing more and returns false. With an empty text or
    a blank identifier both return false without a request. *)
Theorem validate_and_send_is_validate_then_send {W} (E : env W) (w : W)
    (user_message assistant_response user_id : string) :
  let o := run E (validate_and_send_to_history user_message assistant_response user_id) w in
  let ov := run E (validate_user_exists (PyStr.strip user_id)) w in
  let send := perform E (send_to_history user_message assistant_response
                           (snd (result ov))) (world ov) in
  (user_message = "" \/ assistant_response = "" \/ PyStr.blank user_id = true ->
   result o = false /\ trace o = []
   /\ perform E (send_to_history user_message assistant_response user_id) w
      = (false, [], w))
  /\ (user_message <> "" /\ assistant_response <> "" /\ PyStr.blank user_id = false ->
      (fst (result ov) = true ->
       result o = fst (fst send)
       /\ map sent_of (trace o) = (map sent_of (trace ov) ++ map Some (snd (fst send)))%list
       /\ world o = snd send)
      /\ (fst (result ov) = false ->
          result o = false /\ trace o = trace ov /\ world o = world ov)).
Proof.
  cbv zeta.
  assert (Hempty : forall s, PyStr.truthy s = false <-> s = "").
  { intros [|c s]; cbn; split; congruence. }
  split.
  - intros H.
    assert (Hguard : negb (PyStr.truthy user_message)
                     || negb (PyStr.truthy assistant_response)
                     || PyStr.blank user_id = true).
    { destruct H as [ -> | [ -> | -> ] ]; cbn; auto using orb_true_r.
      destruct (PyStr.truthy user_message); cbn; auto using orb_true_r. }
    unfold validate_and_send_to_history, send_to_history. rewrite Hguard. now cbn.
  - intros (Hm & Ha & Hb).
    assert (Hm' : PyStr.truthy user_message = true).
    { destruct (PyStr.truthy user_message) eqn:H; [reflexivity|].
      apply Hempty in H. contradiction. }
    assert (Ha' : PyStr.truthy assistant_response = true).
    { destruct (PyStr.truthy assistant_response) eqn:H; [reflexivity|].
      apply Hempty in H. contradiction. }
    rewrite (validate_and_send_to_history_eq E w _ _ _ Hm' Ha' Hb).
    rewrite validate_user_exists_eq by now rewrite blank_strip.
    cbv zeta. rewrite strip_idempotent.
    destruct (on_get E w history_url [("userId", PyStr.strip user_id)]) as [r1 w1].
    cbn [fst snd result trace world].
    destruct (is_accepted r1); cbn [fst snd result trace world].
    + split; [intros _|discriminate].
      rewrite send_to_history_eq by (auto; now rewrite blank_strip).
      cbv zeta. rewrite strip_idempotent. cbn [fst snd map sent_of app]. auto.
    + split; [discriminate|]. intros _. auto.
Qed.

(** X3 -- The plain record fetch [fetch_expense_data] makes no request
    without an identifier or for a blank one; otherwise it makes one read of
    the report endpoint, with no identity check, and yields a report exactly
    when the answer is a 200 with a dict for a body: any dict, the empty one
    included (which the per-user fetch turns into none). *)
Theorem fetch_expense_data_spec {W} (E : env W) (w : W) (user_id : option string) :
  let res := fst (fst (perform E (fetch_expense_data user_id) w)) in
  let log := snd (fst (perform E (fetch_expense_data user_id) w)) in
  ((user_id = None \/ exists u, user_id = Some u /\ PyStr.blank u = true) ->
   res = None /\ log = [])
  /\ (forall u, user_id = Some u -> PyStr.blank u = false ->
      exists r,
        log = [SentGet (API_BASE_URL ++ "/report/monthly") [("userId", PyStr.strip u)] r]
        /\ (forall d, res = Some d <-> r = Response 200 (Some (JObj d)))
        /\ (r = Response 200 (Some (JObj [])) -> res = Some [])).
Proof.
  cbv zeta. split.
  - intros [ -> | (u & -> & Hb) ]; [now cbn|].
    unfold fetch_expense_data. unfold PyStr.blank in Hb.
    destruct (PyStr.truthy u), (PyStr.truthy (PyStr.strip u)); try discriminate; now cbn.
  - intros u -> Hb. destruct (blank_false_strip u Hb) as [Hs Ht].
    unfold fetch_expense_data. rewrite Ht, Hs. cbn [andb perform].
    destruct (on_get E w (API_BASE_URL ++ "/report/monthly") [("userId", PyStr.strip u)])
      as [r w'].
    exists r.
    destruct r as [|s body].
    { cbn. repeat split; try discriminate. }
    destruct (Z.eqb_spec s 404) as [->|H404].
    { cbn. repeat split; try discriminate. }
    destruct (Z.eqb_spec s 200) as [->|H200]; cbn [negb].
    + destruct body as [[| | | | |d]|]; cbn; repeat split; try discriminate;
        try (intros [= ->]; reflexivity); intros; congruence.
    + cbn. repeat split; try discriminate; intros [= -> _]; contradiction.
Qed.

(** ** The keyword search [_simple_search] *)

Lemma scored_chunks_spec (query_lower : string) (chunks : list chunk) :
  forall scored,
    fold_left (score_chunk query_lower) chunks scored
    = (scored ++ map (fun c => (chunk_score query_lower c, c))
                     (filter (fun c => (0 <? chunk_score query_lower c)%nat) chunks))%list.
Proof.
  induction chunks as [|c chunks IH]; intros scored; cbn [fold_left filter map].
  - now rewrite app_nil_r.
  - rewrite IH. unfold score_chunk.
    destruct (0 <? chunk_score query_lower c)%nat; [|reflexivity].
    cbn [map]. now rewrite <- app_assoc.
Qed.

Lemma insert_desc_perm {A} (x : nat * A) (l : list (nat * A)) :
  Permutation (PyText.insert_desc x l) (x :: l).
Proof.
  induction l as [|y l IH]; cbn [PyText.insert_desc]; [reflexivity|].
  destruct (fst y <=? fst x)%nat; [reflexivity|].
  rewrite IH. apply perm_swap.
Qed.

Lemma sort_desc_perm {A} (l : list (nat * A)) : Permutation (PyText.sort_desc l) l.
Proof.
  induction l as [|x l IH]; cbn [PyText.sort_desc fold_right]; [reflexivity|].
  fold (PyText.sort_desc l). rewrite insert_desc_perm. now constructor.
Qed.

Lemma insert_desc_sorted {A} (x : nat * A) (l : list (nat * A)) :
  StronglySorted before l -> StronglySorted before (PyText.insert_desc x l).
Proof.
  induction l as [|y l IH]; intros Hs; cbn [PyText.insert_desc].
  - repeat constructor.
  - inversion Hs as [|y' l' Hl Hy]; subst.
    destruct (Nat.leb_spec (fst y) (fst x)) as [Hle|Hgt].
    + constructor; [assumption|]. constructor; [exact Hle|].
      eapply Forall_impl; [|exact Hy]. unfold before. intros z Hz. lia.
    + constructor; [now apply IH|].
      eapply Permutation_Forall; [symmetry; apply insert_desc_perm|].
      constructor; [unfold before; lia|assumption].
Qed.

Lemma sort_desc_sorted {A} (l : list (nat * A)) :
  StronglySorted before (PyText.sort_desc l).
Proof.
  induction l as [|x l IH]; cbn [PyText.sort_desc fold_right]; [constructor|].
  now apply insert_desc_sorted.
Qed.

Lemma slice_to_firstn {A} (n : Z) (l : list A) :
  exists k, PyText.slice_to n l = firstn k l /\ (0 <= n -> k = Z.to_nat n).
Proof.
  unfold PyText.slice_to. destruct (Z.leb_spec 0 n).
  - now eexists.
  - eexists. split; [reflexivity|lia].
Qed.

Lemma sorted_split {A} (k : nat) (l : list (nat * A)) :
  StronglySorted before l ->
  forall x y, In x (firstn k l) -> In y (skipn k l) -> before x y.
Proof.
  intros Hs. revert k. induction Hs as [|a l Hl IH Ha]; intros k x y Hx Hy.
  - now destruct k.
  - destruct k as [|k]; [contradiction|].
    cbn [firstn skipn] in Hx, Hy. destruct Hx as [<-|Hx].
    + rewrite Forall_forall in Ha. apply Ha.
      rewrite <- (firstn_skipn k l). apply in_or_app. now right.
    + now apply (IH k).
Qed.

Section SearchProofs.

Variable self : SimpleExpenseRAG.
Variable query : string.
Variable n_results : Z.

Let score := chunk_score (PyStr.lower query).
Let scored := map (fun c => (score c, c))
                  (filter (fun c => (0 <? score c)%nat) (processed_chunks self)).

Lemma simple_search_eq :
  _simple_search self query n_results
  = map snd (PyText.slice_to n_results (PyText.sort_desc scored)).
Proof.
  unfold _simple_search. cbv zeta. now rewrite scored_chunks_spec.
Qed.

Lemma scored_In (x : nat * chunk) :
  In x (PyText.sort_desc scored) ->
  fst x = score (snd x) /\ In (snd x) (processed_chunks self) /\ (0 < fst x)%nat.
Proof.
  intros Hin. apply (Permutation_in _ (sort_desc_perm scored)) in Hin.
  unfold scored in Hin. apply in_map_iff in Hin as (c & <- & Hc).
  apply filter_In in Hc as [Hc Hpos]. apply Nat.ltb_lt in Hpos. cbn. auto.
Qed.

(** X4 -- Every chunk that the keyword search returns is a chunk of the
    session with a positive score for the query; the search returns no more
    chunks than the session holds, and no more than [n_results] when that is
    not negative. *)
Theorem simple_search_sound :
  let found := _simple_search self query n_results in
  (forall c, In c found -> In c (processed_chunks self) /\ (0 < score c)%nat)
  /\ (List.length found <= List.length (processed_chunks self))%nat
  /\ (0 <= n_results -> (List.length found <= Z.to_nat n_results)%nat).
Proof.
  cbv zeta. rewrite simple_search_eq.
  destruct (slice_to_firstn n_results (PyText.sort_desc scored)) as (k & -> & Hk).
  split; [|split].
  - intros c Hin. apply in_map_iff in Hin as (x & <- & Hx).
    assert (Hx' : In x (PyText.sort_desc scored)).
    { rewrite <- (firstn_skipn k). apply in_or_app. now left. }
    apply scored_In in Hx' as (Hs & Hc & Hpos). split; [assumption|]. now rewrite <- Hs.
  - rewrite length_map, length_firstn.
    rewrite (Permutation_length (sort_desc_perm scored)). unfold scored.
    rewrite length_map. pose proof (filter_length_le
      (fun c => (0 <? score c)%nat) (processed_chunks self)). lia.
  - intros Hn. rewrite length_map, length_firstn, (Hk Hn). lia.
Qed.

(** X5 -- The chunks that the keyword search returns come by decreasing
    score, and they are the best ones: no chunk of the session that is left
    out scores more than a chunk that is returned. *)
Theorem simple_search_ranked :
  let found := _simple_search self query n_results in
  StronglySorted (fun c c' => (score c' <= score c)%nat) found
  /\ (forall c c', In c (processed_chunks self) -> ~ In c found -> In c' found ->
                   (score c <= score c')%nat).
Proof.
  cbv zeta. rewrite simple_search_eq.
  destruct (slice_to_firstn n_results (PyText.sort_desc scored)) as (k & -> & _).
  pose proof (sort_desc_sorted scored) as Hsorted.
  split.
  - assert (Hfirst : StronglySorted before (firstn k (PyText.sort_desc scored))).
    { rewrite <- (firstn_skipn k (PyText.sort_desc scored)) in Hsorted.
      clear -Hsorted. induction (firstn k (PyText.sort_desc scored)) as [|x l IH].
      - constructor.
      - cbn [app] in Hsorted. inversion Hsorted as [|x' l' Hl Hx]; subst.
        constructor; [now apply IH|]. apply Forall_app in Hx. tauto. }
    assert (Hscores : forall x, In x (firstn k (PyText.sort_desc scored)) ->
                                fst x = score (snd x)).
    { intros x Hx. apply scored_In. rewrite <- (firstn_skipn k).
      apply in_or_app. now left. }
    induction Hfirst as [|x l Hl IH Hx]; cbn [map]; [constructor|].
    constructor.
    + apply IH. intros y Hy. apply Hscores. now right.
    + rewrite Forall_forall in Hx |- *. intros c Hc.
      apply in_map_iff in Hc as (y & <- & Hy).
      specialize (Hx y Hy). unfold before in Hx.
      rewrite <- (Hscores x (or_introl eq_refl)), <- (Hscores y (or_intror Hy)). exact Hx.
  - intros c c' Hc Hout Hin.
    destruct (Nat.eq_dec (score c) 0) as [->|Hpos]; [lia|].
    assert (Hsc : In (score c, c) (PyText.sort_desc scored)).
    { apply (Permutation_in _ (Permutation_sym (sort_desc_perm scored))).
      unfold scored. apply in_map_iff. exists c. split; [reflexivity|].
      apply filter_In. split; [assumption|]. apply Nat.ltb_lt. lia. }
    rewrite <- (firstn_skipn k) in Hsc. apply in_app_or in Hsc as [Hsc|Hsc].
    + exfalso. apply Hout. apply in_map_iff. now exists (score c, c).
    + apply in_map_iff in Hin as (x & <- & Hx).
      pose proof (sorted_split k _ Hsorted x (score c, c) Hx Hsc) as Hb.
      unfold before in Hb. cbn [fst] in Hb.
      assert (Hx' : In x (PyText.sort_desc scored)).
      { rewrite <- (firstn_skipn k). apply in_or_app. now left. }
      apply scored_In in Hx' as (Hs & _). now rewrite <- Hs.
Qed.

End SearchProofs.

Lemma fold_word_score_absent (text_lower : string) (words : list string) :
  (forall w, In w words -> PyStr.contains w text_lower = false) ->
  forall acc, fold_left (word_score text_lower) words acc = acc.
Proof.
  induction words as [|w words IH]; intros Habs acc; [reflexivity|].
  cbn [fold_left]. unfold word_score at 2. rewrite (Habs w (or_introl eq_refl)).
  apply IH. intros w' Hw'. apply Habs. now right.
Qed.

(** X6 -- When no word of the query occurs in the text of any chunk (case
    apart) and the query names the kind of none of them, the keyword search
    finds nothing, whatever the limit. *)
Theorem simple_search_no_match (self : SimpleExpenseRAG) (query : string) (n_results : Z) :
  (forall c, In c (processed_chunks self) ->
     (forall w, In w (PyText.split (PyStr.lower query)) ->
                PyStr.contains w (PyStr.lower (text c)) = false)
     /\ kind_boost (PyStr.lower query) c = 0%nat) ->
  _simple_search self query n_results = [].
Proof.
  intros Habs. rewrite simple_search_eq.
  assert (Hnone : filter (fun c => (0 <? chunk_score (PyStr.lower query) c)%nat)
                         (processed_chunks self) = []).
  { induction (processed_chunks self) as [|c l IH]; [reflexivity|].
    cbn [filter]. destruct (Habs c (or_introl eq_refl)) as [Hw Hk].
    unfold chunk_score at 1. cbv zeta. rewrite (fold_word_score_absent _ _ Hw), Hk.
    cbn. apply IH. intros c' Hc'. apply Habs. now right. }
  rewrite Hnone. cbn [map PyText.sort_desc fold_right].
  destruct (slice_to_firstn n_results (@nil (nat * chunk))) as (k & -> & _).
  now destruct k.
Qed.

Lemma simple_search_no_match_witness :
  let c := {| ctype := "daily"; date := Some (JStr "2024-01-01"); period := None;
              text := "Date: 2024-01-01"; total_income := PyInt 0;
              total_expenses := PyInt 50; net := PyInt (-50) |} in
  _simple_search (Session [] [] None [c]) "Rent this WEEK" 5 = [].
Proof.
  cbv zeta. apply simple_search_no_match.
  intros c [<-|[]]. split; [|vm_compute; reflexivity].
  intros w Hw. vm_compute in Hw.
  destruct Hw as [<-|[<-|[<-|[]]]]; vm_compute; reflexivity.
Defined.

(** ** The guards of the route and the startup *)

Lemma refused_trace {W} (E : env W) (w : W) (py : interpreter)
    (key : option string) (exn_text : exn -> string)
    (request : ChatRequest) (sv : server) :
  rag_instance sv = None \/ PyStr.blank (message request) = true
  \/ PyStr.blank (user_id request) = true ->
  trace (run E (chat_with_teddy py key exn_text request sv) w) = [].
Proof.
  intros H. unfold chat_with_teddy. repeat run_step.
  destruct (rag_instance sv) as [rag|] eqn:Hrag; [|reflexivity].
  destruct (PyStr.blank (message request)) eqn:Hm; [reflexivity|].
  destruct (PyStr.blank (user_id request)) eqn:Hu; [reflexivity|].
  destruct H as [H|[H|H]]; discriminate.
Qed.

(** X7 -- A request to a server whose assistant is not initialized, or
    with a blank message or a blank identifier, is refused before anything
    happens: no external call is made, the cache and the world are left as
    they were, and the refusal is a 503 exactly when the assistant is not
    initialized and a 400 otherwise. *)
Theorem refused_before_any_call {W} (E : env W) (w : W) (py : interpreter)
    (key : option string) (exn_text : exn -> string)
    (request : ChatRequest) (sv : server) :
  rag_instance sv = None \/ PyStr.blank (message request) = true
  \/ PyStr.blank (user_id request) = true ->
  let o := run E (chat_with_teddy py key exn_text request sv) w in
  trace o = [] /\ snd (result o) = sv /\ world o = w
  /\ exists status detail,
       fst (result o) = inl (HTTPException status detail)
       /\ (status = 503 <-> rag_instance sv = None)
       /\ (status = 503 \/ status = 400).
Proof.
  intros H. cbv zeta. unfold chat_with_teddy. repeat run_step.
  destruct (rag_instance sv) as [rag|] eqn:Hrag.
  - destruct (PyStr.blank (message request)) eqn:Hm.
    + repeat split. eexists _, _. split; [reflexivity|].
      split; [split; discriminate|now right].
    + destruct (PyStr.blank (user_id request)) eqn:Hu.
      * repeat split. eexists _, _. split; [reflexivity|].
        split; [split; discriminate|now right].
      * destruct H as [H|[H|H]]; discriminate.
  - repeat split. eexists _, _. split; [reflexivity|]. split; [now split|now left].
Qed.

Lemma refused_before_any_call_witness :
  let o := run friendly
             (chat_with_teddy python311 sample_key (fun _ => "")
                {| message := "what did I spend?"; user_id := "   " |} started) tt in
  trace o = [] /\ snd (result o) = started /\ world o = tt
  /\ exists status detail,
       fst (result o) = inl (HTTPException status detail)
       /\ (status = 503 <-> rag_instance started = None)
       /\ (status = 503 \/ status = 400).
Proof.
  cbv zeta.
  apply (refused_before_any_call friendly tt python311 sample_key (fun _ => "")
           {| message := "what did I spend?"; user_id := "   " |} started).
  right. right. vm_compute. reflexivity.
Defined.

Lemma init_ok_iff (key : option string) :
  (exists rag, __init__ key API_BASE_URL key = ok rag)
  <-> exists k, key = Some k /\ _validate_api_key_format k = true.
Proof.
  unfold __init__. split.
  - intros [rag H]. destruct key as [[|c k]|]; try discriminate.
    exists (String c k). split; [reflexivity|].
    destruct (_validate_api_key_format (String c k)); [reflexivity|discriminate].
  - intros (k & -> & Hk). destruct k as [|c k]; [discriminate|].
    rewrite Hk. cbn. now eexists.
Qed.

Lemma init_ok_fresh (key : option string) (rag : SimpleExpenseRAG) :
  __init__ key API_BASE_URL key = ok rag -> rag = Session [] [] None [].
Proof.
  unfold __init__. destruct key as [[|c k]|]; try discriminate.
  destruct (_validate_api_key_format (String c k)); [|discriminate].
  now intros [= <-].
Qed.

(** X8 -- The startup sets the assistant exactly when the configured API
    key is well-formed (it starts with [sk-] and has 51 characters or more),
    and it always leaves the cache empty. With a key that is missing or not
    well-formed, the server answers every request of every sequence with the
    refusal 503, makes no call and never changes. With a well-formed key,
    the construction of a session never fails afterwards. *)
Theorem startup_event_spec (key : option string) :
  let sv := startup_event key in
  let well_formed := exists k, key = Some k /\ _validate_api_key_format k = true in
  user_rag_cache sv = []
  /\ (rag_instance sv <> None <-> well_formed)
  /\ (well_formed -> __init__ key API_BASE_URL key = ok (Session [] [] None []))
  /\ (~ well_formed ->
      forall W (E : env W) py exn_text requests (w : W),
        serve_all E py key exn_text requests sv w = (sv, w)
        /\ forall request,
             run E (chat_with_teddy py key exn_text request sv) w
             = {| result := (inl (HTTPException 503 "RAG system not initialized"), sv);
                  trace := []; world := w |}).
Proof.
  cbv zeta. unfold startup_event, initialize_rag_system.
  destruct (__init__ key API_BASE_URL key) as [e|rag] eqn:Hinit.
  - assert (Hbad : ~ exists k, key = Some k /\ _validate_api_key_format k = true).
    { intros H. apply init_ok_iff in H as [rag H]. unfold ok in H. congruence. }
    assert (Hsv : match key with
                  | Some (String _ _) => None
                  | _ => @None SimpleExpenseRAG
                  end = None) by now destruct key as [[|]|].
    rewrite Hsv. split; [reflexivity|]. split; [split; [now intros []|contradiction]|].
    split; [contradiction|]. intros _ W E py exn_text requests w.
    assert (H503 : forall request w0,
               run E (chat_with_teddy py key exn_text request imported) w0
               = {| result := (inl (HTTPException 503 "RAG system not initialized"),
                               imported);
                    trace := []; world := w0 |}) by reflexivity.
    split; [|intros request; apply H503].
    induction requests as [|request rest IH]; [reflexivity|].
    cbn [serve_all]. cbv zeta. rewrite H503. exact IH.
  - assert (Hgood : exists k, key = Some k /\ _validate_api_key_format k = true).
    { apply init_ok_iff. now exists rag. }
    destruct Hgood as (k & -> & Hk). destruct k as [|c k]; [discriminate|].
    split; [reflexivity|]. split; [split; [intros _; now eexists|discriminate]|].
    split; [|intros Hbad; exfalso; apply Hbad; now eexists].
    intros _. now rewrite (init_ok_fresh _ _ Hinit).
Qed.

(** ** The stages of a turn *)

Section TurnProofs.

Variable py : interpreter.
Variable OPENAI_API_KEY : option string.
Variable exn_text : exn -> string.

Lemma quiet_refresh_records (key : string) (data : option dict) :
  quiet (refresh_records py key data).
Proof.
  unfold refresh_records.
  destruct data as [[|kv d]|]; apply quiet_on_session, quiet_set_expense_data.
Qed.

Lemma handle_stages {W} (E : env W) (w : W) (request : ChatRequest) (sv : server) :
  PyStr.blank (message request) = false ->
  PyStr.blank (user_id request) = false ->
  turn_stage py OPENAI_API_KEY E w request sv
    (run E (handle py OPENAI_API_KEY request sv) w).
Proof.
  intros Hm Hu.
  destruct (blank_false_strip _ Hu) as [Hsu _].
  destruct (blank_false_strip _ Hm) as [Hsm _].
  set (key := PyStr.strip (user_id request)) in *.
  unfold handle. fold key.
  (* get-or-create *)
  rewrite run_mbind. cbv zeta.
  destruct (quiet_get_or_create OPENAI_API_KEY key W E w sv) as [Hq0 Hw0].
  destruct (result (run E (get_or_create OPENAI_API_KEY key sv) w)) as [[e|[]] sv0] eqn:Hr0.
  { apply (create_failed _ _ _ _ _ _ _ e sv0); cbn [result trace world]; auto. }
  rewrite Hq0, Hw0. cbn [app].
  (* record fetch *)
  rewrite run_mbind, run_lift_prog. cbv zeta. cbn [result trace world ok].
  set (o1 := run E (fetch_user_specific_expense_data key) w).
  (* records to the session *)
  rewrite run_mbind. cbv zeta.
  change (match result o1 with
          | Some (_ :: _) => on_session key (set_expense_data py (result o1))
          | _ => on_session key (set_expense_data py None)
          end) with (refresh_records py key (result o1)).
  destruct (quiet_refresh_records key (result o1) W E (world o1) sv0) as [Hq2 Hw2].
  destruct (result (run E (refresh_records py key (result o1) sv0) (world o1)))
    as [[e|[]] sv2] eqn:Hr2.
  { apply (refresh_failed _ _ _ _ _ _ _ e sv0 sv2); fold key o1;
      cbn [result trace world]; auto. now rewrite Hq2, app_nil_r. }
  rewrite Hq2, Hw2. cbn [app].
  (* the session answers *)
  rewrite run_mbind, run_on_session. cbv zeta.
  destruct (cache_get key (user_rag_cache sv2)) as [self|] eqn:Hget.
  2:{ apply (session_missing _ _ _ _ _ _ _ sv0 sv2); fold key o1;
        cbn [result trace world]; auto. now rewrite app_nil_r. }
  cbn [result trace world].
  set (o3 := run E (chat py (PyStr.strip (message request)) key self) (world o1)).
  pose proof (chat_endings py E (world o1) (PyStr.strip (message request)) key self)
    as Hend. fold o3 in Hend.
  assert (Hv : forall a v, fst (result o3) = ok (a, v) -> v = key).
  { intros a v Hr.
    destruct Hend as [e He _ _|req msg He _ _ _|req a' He _ _ _];
      rewrite He in Hr; try discriminate; injection Hr as _ <-;
      rewrite Hsu; subst key; apply strip_idempotent. }
  destruct (fst (result o3)) as [e|[a v]] eqn:Hr3.
  { apply (session_ran _ _ _ _ _ _ _ sv0 sv2 self); auto; fold key o1 o3;
      cbn [result trace fst snd]; try reflexivity.
    left. exists e. rewrite Hr3. auto. }
  specialize (Hv a v eq_refl). subst v.
  (* the response is not empty *)
  rewrite run_mbind. cbv zeta.
  destruct (PyStr.truthy a) eqn:Ha; cbn [negb].
  2:{ rewrite run_mraise. cbn [result trace world].
      apply (session_ran _ _ _ _ _ _ _ sv0 sv2 self); auto; fold key o1 o3;
        cbn [result trace fst snd]; try reflexivity.
      left. eexists. split; [reflexivity|]. rewrite app_nil_r. split; [reflexivity|].
      right. split; [reflexivity|].
      exists key. rewrite Hr3. destruct a; [reflexivity|discriminate]. }
  rewrite run_mret. cbn [result trace world app].
  (* persist *)
  rewrite run_mbind. cbv zeta. fold key. rewrite Hsu. cbn [andb].
  apply (session_ran _ _ _ _ _ _ _ sv0 sv2 self); auto; fold key o1 o3.
  - destruct (is_greeting (message request)); cbn [negb]; repeat run_step; reflexivity.
  - right. exists a. rewrite Hr3. repeat split; auto.
    + destruct (is_greeting (message request)); cbn [negb]; repeat run_step; reflexivity.
    + destruct (is_greeting (message request)); cbn [negb]; repeat run_step;
        now rewrite ?app_nil_r.
Qed.

Lemma route_run {W} (E : env W) (w : W) (request : ChatRequest) (sv : server) :
  rag_instance sv <> None ->
  PyStr.blank (message request) = false ->
  PyStr.blank (user_id request) = false ->
  run E (chat_with_teddy py OPENAI_API_KEY exn_text request sv) w
  = let oh := run E (handle py OPENAI_API_KEY request sv) w in
    {| result := (match fst (result oh) with
                  | inl e => inl (http_error exn_text e)
                  | inr a => inr a
                  end, snd (result oh));
       trace := trace oh; world := world oh |}.
Proof.
  intros Hrag Hm Hu. unfold chat_with_teddy. repeat run_step.
  destruct (rag_instance sv); [|contradiction]. rewrite Hm, Hu.
  rewrite run_try_except. cbv zeta.
  destruct (run E (handle py OPENAI_API_KEY request sv) w) as [[[e|a] sv'] t w'];
    cbn [result trace world fst snd]; [|reflexivity].
  destruct e; cbn [http_error]; repeat run_step; try now rewrite app_nil_r.
  destruct (PyStr.contains "Invalid user_id" msg || PyStr.contains "User not found" msg);
    repeat run_step; now rewrite app_nil_r.
Qed.

Lemma fetch_reads_only {W} (E : env W) (w : W) (user_id : string) :
  forallb is_read (trace (run E (fetch_user_specific_expense_data user_id) w)) = true.
Proof.
  destruct (PyStr.blank user_id) eqn:Hb.
  - unfold fetch_user_specific_expense_data. now rewrite Hb.
  - rewrite (fetch_user_specific_expense_data_eq E w user_id Hb). cbv zeta.
    now destruct (is_accepted _).
Qed.

Lemma chat_writes_nothing {W} (E : env W) (w : W) (user_query user_id : string)
    (self : SimpleExpenseRAG) :
  existsb is_write (trace (run E (chat py user_query user_id self) w)) = false.
Proof.
  destruct (PyStr.blank user_id) eqn:Hb.
  - rewrite (chat_blank_eq py E w user_query user_id self Hb).
    destruct (PyStr.truthy user_id); [reflexivity|]. rewrite answer_eq.
    now destruct (_build_context py _ user_query).
  - rewrite (chat_eq py E w user_query user_id self Hb). cbv zeta.
    destruct (is_accepted _); [|reflexivity]. cbn [trace existsb is_write orb].
    rewrite answer_eq. now destruct (_build_context py _ user_query).
Qed.

Lemma reads_are_no_writes (t : list event) :
  forallb is_read t = true -> existsb is_write t = false.
Proof.
  induction t as [|e t IH]; [reflexivity|]. cbn [forallb existsb].
  intros [He Ht]%andb_prop. rewrite (IH Ht). now destruct e.
Qed.

(** X9 -- A message that contains [hi], [hello] or [hey] anywhere, in any
    case, also inside a word, is never persisted: whatever the store and
    the provider answer and however the turn ends, the route makes no write
    to the history-create endpoint. *)
Theorem greeting_never_persisted {W} (E : env W) (w : W) (request : ChatRequest)
    (sv : server) :
  is_greeting (message request) = true ->
  existsb is_write
    (trace (run E (chat_with_teddy py OPENAI_API_KEY exn_text request sv) w)) = false.
Proof.
  intros Hg.
  destruct (rag_instance sv) as [rag|] eqn:Hrag.
  2:{ now rewrite (refused_trace E w py OPENAI_API_KEY exn_text
                            request sv (or_introl Hrag)). }
  destruct (PyStr.blank (message request)) eqn:Hm.
  { now rewrite (refused_trace E w py OPENAI_API_KEY exn_text
                          request sv (or_intror (or_introl Hm))). }
  destruct (PyStr.blank (user_id request)) eqn:Hu.
  { now rewrite (refused_trace E w py OPENAI_API_KEY exn_text
                          request sv (or_intror (or_intror Hu))). }
  rewrite route_run by (auto; congruence). cbv zeta. cbn [trace].
  pose proof (fetch_reads_only E w (PyStr.strip (user_id request))) as Hreads.
  apply reads_are_no_writes in Hreads.
  destruct (handle_stages E w request sv Hm Hu)
    as [e sv0 key _ _ Ht _|e sv0 sv2 key o1 _ _ _ Ht|sv0 sv2 key o1 _ _ _ _ Ht
       |sv0 sv2 self key o1 o3 _ _ _ _ Hrest].
  - now rewrite Ht.
  - now rewrite Ht.
  - now rewrite Ht.
  - pose proof (chat_writes_nothing E (world o1) (PyStr.strip (message request)) key self)
      as Hchat. fold o3 in Hchat.
    destruct Hrest as [(e & _ & Ht & _)|(a & _ & _ & _ & Ht)]; rewrite Ht, ?Hg;
      subst o3 o1 key; rewrite ?existsb_app, Hreads, Hchat; reflexivity.
Qed.

Lemma no_write_In (t : list event) who url payload r :
  existsb is_write t = false -> ~ In (EPost who url payload r) t.
Proof.
  intros Hno Hin. assert (H : existsb is_write t = true).
  { apply existsb_exists. exists (EPost who url payload r). now split. }
  congruence.
Qed.

(** X10 -- The route writes to the history-create endpoint only in a turn
    that it answers, and only as the last call of the turn: when a write is
    made, the message is no greeting, the response is returned with status
    [success], and what is written is the trimmed identifier, the trimmed
    message and the trimmed response. *)
Theorem write_means_answered {W} (E : env W) (w : W) (request : ChatRequest)
    (sv : server) (who : caller) (url : string) (payload : list (string * string))
    (r : http_result) :
  let o := run E (chat_with_teddy py OPENAI_API_KEY exn_text request sv) w in
  In (EPost who url payload r) (trace o) ->
  exists a t,
    fst (result o) = ok {| response := a; status := "success" |}
    /\ is_greeting (message request) = false
    /\ who = in_validate_and_send_to_history /\ url = create_url
    /\ payload = [("userId", PyStr.strip (user_id request));
                  ("human", PyStr.strip (message request));
                  ("assistant", PyStr.strip a)]
    /\ trace o = (t ++ [EPost who url payload r])%list
    /\ existsb is_write t = false.
Proof.
  cbv zeta.
  destruct (rag_instance sv) as [rag|] eqn:Hrag.
  2:{ now rewrite (refused_trace E w py OPENAI_API_KEY exn_text
                            request sv (or_introl Hrag)). }
  destruct (PyStr.blank (message request)) eqn:Hm.
  { now rewrite (refused_trace E w py OPENAI_API_KEY exn_text
                          request sv (or_intror (or_introl Hm))). }
  destruct (PyStr.blank (user_id request)) eqn:Hu.
  { now rewrite (refused_trace E w py OPENAI_API_KEY exn_text
                          request sv (or_intror (or_intror Hu))). }
  destruct (blank_false_strip _ Hm) as [Hsm _].
  rewrite route_run by (auto; congruence). cbv zeta. cbn [trace result fst].
  pose proof (fetch_reads_only E w (PyStr.strip (user_id request))) as Hreads.
  apply reads_are_no_writes in Hreads.
  destruct (handle_stages E w request sv Hm Hu)
    as [e sv0 key _ _ Ht _|e sv0 sv2 key o1 _ _ _ Ht|sv0 sv2 key o1 _ _ _ _ Ht
       |sv0 sv2 self key o1 o3 _ _ _ _ Hrest].
  - rewrite Ht. intros [].
  - rewrite Ht. intros Hin. now apply no_write_In in Hin.
  - rewrite Ht. intros Hin. now apply no_write_In in Hin.
  - pose proof (chat_writes_nothing E (world o1) (PyStr.strip (message request)) key self)
      as Hchat. fold o3 in Hchat.
    assert (Hno : existsb is_write (trace o1 ++ trace o3) = false).
    { subst o3 o1 key. now rewrite existsb_app, Hreads, Hchat. }
    destruct Hrest as [(e & _ & Ht & _)|(a & _ & Ha & -> & Ht)]; rewrite Ht.
    { intros Hin. now apply no_write_In in Hin. }
    destruct (is_greeting (message request)).
    { rewrite app_nil_r. intros Hin. now apply no_write_In in Hin. }
    rewrite app_assoc.
    rewrite (validate_and_send_to_history_eq E (world o3) _ _ _ Hsm Ha)
      by (subst key; now rewrite blank_strip).
    cbv zeta. subst key. rewrite !strip_idempotent.
    destruct (is_accepted _); cbn [trace].
    + intros [Hin|[Hin|[Hin|[]]]]%in_app_or; [now apply no_write_In in Hin|discriminate|].
      injection Hin as <- <- <- <-.
      exists a. eexists ((trace o1 ++ trace o3) ++ [_])%list.
      repeat split.
      * now rewrite <- (app_assoc (trace o1 ++ trace o3)).
      * now rewrite existsb_app, Hno.
    + intros [Hin|[Hin|[]]]%in_app_or; [now apply no_write_In in Hin|discriminate].
Qed.

Lemma cache_get_absent {V} (k : string) (d : list (string * V)) :
  in_cache k d = false -> cache_get k d = None.
Proof.
  unfold in_cache, keys. induction d as [|[k' v] d IH]; [reflexivity|].
  cbn [map fst existsb cache_get]. destruct (String.eqb k k'); [discriminate|].
  exact IH.
Qed.

Lemma cache_get_present {V} (k : string) (d : list (string * V)) :
  in_cache k d = true -> exists v, cache_get k d = Some v.
Proof.
  unfold in_cache, keys. induction d as [|[k' v] d IH]; [discriminate|].
  cbn [map fst existsb cache_get]. destruct (String.eqb k k'); [now exists v|].
  exact IH.
Qed.

Lemma cache_get_new {V} (k : string) (v : V) (d : list (string * V)) :
  in_cache k d = false -> cache_get k (d ++ [(k, v)]) = Some v.
Proof.
  unfold in_cache, keys. induction d as [|[k' v'] d IH].
  - intros _. cbn. now rewrite String.eqb_refl.
  - cbn [map fst existsb cache_get app]. destruct (String.eqb k k'); [discriminate|].
    exact IH.
Qed.

Lemma cache_get_cache_set {V} (k : string) (v : V) (d : list (string * V)) :
  cache_get k (cache_set k v d) = Some v.
Proof.
  induction d as [|[k' v'] d IH]; cbn [cache_set cache_get].
  - now rewrite String.eqb_refl.
  - destruct (String.eqb k k') eqn:Hk; cbn [cache_get]; now rewrite Hk.
Qed.

(** The get-or-create step on a cache within the configured maximum:
    nothing is evicted, and an unseen key gets a fresh session at the end. *)
Lemma get_or_create_small {W} (E : env W) (w : W) (key : option string)
    (user_id_key : string) (sv : server) :
  (List.length (user_rag_cache sv) <= 100)%nat ->
  result (run E (get_or_create key user_id_key sv) w)
  = if in_cache user_id_key (user_rag_cache sv) then (ok tt, sv)
    else match __init__ key API_BASE_URL key with
         | inl e => (inl e, sv)
         | inr self =>
             (ok tt, set_cache (user_rag_cache sv ++ [(user_id_key, self)])%list sv)
         end.
Proof.
  intros Hlen. unfold get_or_create. repeat run_step. unfold MAX_CACHE_SIZE.
  destruct (Z.ltb_spec 100 (Z.of_nat (List.length (user_rag_cache sv)))); [lia|].
  repeat run_step.
  destruct (in_cache user_id_key (user_rag_cache sv)); cbn [negb]; repeat run_step;
    [reflexivity|].
  destruct (__init__ key API_BASE_URL key) as [e|self]; repeat run_step; reflexivity.
Qed.

(** The get-or-create step on a cache of 101 sessions: the 20 oldest are
    evicted first, the requesting user among them. *)
Lemma get_or_create_full {W} (E : env W) (w : W) (key : option string)
    (user_id_key : string) (sv : server) :
  NoDup (keys (user_rag_cache sv)) ->
  List.length (user_rag_cache sv) = 101%nat ->
  let cache := skipn 20 (user_rag_cache sv) in
  result (run E (get_or_create key user_id_key sv) w)
  = if in_cache user_id_key cache then (ok tt, set_cache cache sv)
    else match __init__ key API_BASE_URL key with
         | inl e => (inl e, set_cache cache sv)
         | inr self => (ok tt, set_cache (cache ++ [(user_id_key, self)])%list sv)
         end.
Proof.
  intros Hnd Hlen. cbv zeta. unfold get_or_create. repeat run_step. unfold MAX_CACHE_SIZE.
  destruct (Z.ltb_spec 100 (Z.of_nat (List.length (user_rag_cache sv)))); [|lia].
  rewrite cleanup_rag_cache_evicts by (auto; lia).
  rewrite Hlen. change (101 / 5)%nat with 20%nat.
  repeat run_step. cbn [user_rag_cache set_cache].
  destruct (in_cache user_id_key (skipn 20 (user_rag_cache sv))); cbn [negb];
    repeat run_step; [reflexivity|].
  destruct (__init__ key API_BASE_URL key) as [e|self]; repeat run_step; reflexivity.
Qed.

(** Handing records to a session never touches its memory nor its loaded
    history, also when the processing of the records raises. *)
Lemma set_expense_data_memory {W} (E : env W) (w : W) (d : option dict)
    (self : SimpleExpenseRAG) :
  let self' := snd (result (run E (set_expense_data py d self) w)) in
  current_conversation self' = current_conversation self
  /\ chat_history self' = chat_history self.
Proof.
  cbv zeta. unfold set_expense_data. repeat run_step.
  destruct d as [[|kv d]|]; repeat run_step; try now split.
  destruct (_process_data py (kv :: d)) as [e|chunks]; repeat run_step; now split.
Qed.

Lemma refresh_records_session {W} (E : env W) (w : W) (key : string)
    (data : option dict) (sv0 : server) (self : SimpleExpenseRAG) :
  cache_get key
    (user_rag_cache (snd (result (run E (refresh_records py key data sv0) w))))
  = Some self ->
  exists self0,
    cache_get key (user_rag_cache sv0) = Some self0
    /\ current_conversation self = current_conversation self0
    /\ chat_history self = chat_history self0.
Proof.
  assert (H : forall d,
    cache_get key
      (user_rag_cache (snd (result (run E (on_session key (set_expense_data py d) sv0) w))))
    = Some self ->
    exists self0,
      cache_get key (user_rag_cache sv0) = Some self0
      /\ current_conversation self = current_conversation self0
      /\ chat_history self = chat_history self0).
  { intros d. rewrite run_on_session.
    destruct (cache_get key (user_rag_cache sv0)) as [self0|] eqn:Hg.
    - cbv zeta. cbn [result snd user_rag_cache set_cache].
      rewrite cache_get_cache_set. intros [= <-]. exists self0.
      split; [reflexivity|]. apply set_expense_data_memory.
    - cbn [result snd]. congruence. }
  unfold refresh_records. destruct data as [[|kv d]|]; apply H.
Qed.

Lemma reads_hold_no_completion (t : list event) who req r :
  forallb is_read t = true -> ~ In (ECreate who req r) t.
Proof.
  intros Hall Hin. rewrite forallb_forall in Hall. now apply Hall in Hin.
Qed.

(** What a completed call of the provider leaves behind: the session of
    the user, as the get-or-create step found or made it, with the exchange
    appended to its memory. *)
Lemma turn_memory {W} (E : env W) (w : W) (request : ChatRequest) (sv : server)
    (req : completion_request) (a : string) :
  let key := PyStr.strip (user_id request) in
  let o := run E (chat_with_teddy py OPENAI_API_KEY exn_text request sv) w in
  In (ECreate in_chat req (Completion a)) (trace o) ->
  exists sv0 self0 self',
    result (run E (get_or_create OPENAI_API_KEY key sv) w) = (ok tt, sv0)
    /\ cache_get key (user_rag_cache sv0) = Some self0
    /\ cache_get key (user_rag_cache (snd (result o))) = Some self'
    /\ current_conversation self'
       = remember (PyStr.strip (message request)) a (current_conversation self0).
Proof.
  cbv zeta.
  destruct (rag_instance sv) as [rag|] eqn:Hrag.
  2:{ now rewrite (refused_trace E w py OPENAI_API_KEY exn_text
                            request sv (or_introl Hrag)). }
  destruct (PyStr.blank (message request)) eqn:Hm.
  { now rewrite (refused_trace E w py OPENAI_API_KEY exn_text
                          request sv (or_intror (or_introl Hm))). }
  destruct (PyStr.blank (user_id request)) eqn:Hu.
  { now rewrite (refused_trace E w py OPENAI_API_KEY exn_text
                          request sv (or_intror (or_intror Hu))). }
  destruct (blank_false_strip _ Hm) as [Hsm _].
  rewrite route_run by (auto; congruence). cbv zeta. cbn [trace result fst snd].
  pose proof (fetch_reads_only E w (PyStr.strip (user_id request))) as Hreads.
  destruct (handle_stages E w request sv Hm Hu)
    as [e sv0 key _ _ Ht _|e sv0 sv2 key o1 _ _ _ Ht|sv0 sv2 key o1 _ _ _ _ Ht
       |sv0 sv2 self key o1 o3 Hr0 Hr2 Hget Hsv Hrest].
  - rewrite Ht. intros [].
  - rewrite Ht. intros Hin. now apply reads_hold_no_completion in Hin.
  - rewrite Ht. intros Hin. now apply reads_hold_no_completion in Hin.
  - intros Hin.
    assert (Hin3 : In (ECreate in_chat req (Completion a)) (trace o3)).
    { destruct Hrest as [(e & _ & Ht & _)|(a' & _ & Ha & _ & Ht)]; rewrite Ht in Hin.
      - apply in_app_or in Hin as [Hin|Hin]; [|assumption].
        now apply reads_hold_no_completion in Hin.
      - apply in_app_or in Hin as [Hin|Hin];
          [now apply reads_hold_no_completion in Hin|].
        apply in_app_or in Hin as [Hin|Hin]; [assumption|].
        destruct (is_greeting (message request)); [destruct Hin|].
        exfalso. revert Hin. apply no_completion.
        apply validate_and_send_to_history_calls; auto.
        subst key. now rewrite blank_strip. }
    pose proof (chat_endings py E (world o1) (PyStr.strip (message request)) key self)
      as Hend. fold o3 in Hend.
    assert (Hcc : current_conversation (snd (result o3))
                  = remember (PyStr.strip (message request)) a (current_conversation self)).
    { destruct Hend as [e _ _ Hno|req' msg _ _ _ Hall|req' a' _ Hcc _ Hall].
      - now apply Hno in Hin3.
      - destruct (Hall _ _ Hin3) as [_ Heq]. discriminate Heq.
      - destruct (Hall _ _ Hin3) as [_ Heq]. injection Heq as Heq.
        now rewrite Heq. }
    assert (Hget' : cache_get key (user_rag_cache
              (snd (result (run E (refresh_records py key (result o1) sv0) (world o1)))))
            = Some self) by (rewrite Hr2; exact Hget).
    apply refresh_records_session in Hget' as (self0 & Hg0 & Hc0 & _).
    exists sv0, self0, (snd (result o3)). split; [exact Hr0|]. split; [exact Hg0|].
    split.
    + rewrite Hsv. cbn [user_rag_cache set_cache]. apply cache_get_cache_set.
    + now rewrite Hcc, Hc0.
Qed.

(** X11 -- Every completed call of the provider is remembered: on a cache
    within the configured maximum, a turn whose completion call returned an
    answer leaves the session of the user in the cache, under the trimmed
    identifier, with the trimmed message and the answer appended to the
    memory the session had before the turn (an empty memory for a user
    without a session), cut to the last five exchanges. This holds whether
    or not the route then answers. *)
Theorem completion_remembered {W} (E : env W) (w : W) (request : ChatRequest)
    (sv : server) (req : completion_request) (a : string) :
  (List.length (user_rag_cache sv) <= 100)%nat ->
  let key := PyStr.strip (user_id request) in
  let o := run E (chat_with_teddy py OPENAI_API_KEY exn_text request sv) w in
  In (ECreate in_chat req (Completion a)) (trace o) ->
  exists self',
    cache_get key (user_rag_cache (snd (result o))) = Some self'
    /\ current_conversation self'
       = remember (PyStr.strip (message request)) a
           match cache_get key (user_rag_cache sv) with
           | Some self => current_conversation self
           | None => []
           end.
Proof.
  intros Hlen key o Hin. subst key o.
  destruct (turn_memory E w request sv req a Hin)
    as (sv0 & self0 & self' & Hr0 & Hg0 & Hg & Hcc).
  exists self'. split; [exact Hg|]. rewrite Hcc. f_equal.
  rewrite get_or_create_small in Hr0 by assumption.
  destruct (in_cache (PyStr.strip (user_id request)) (user_rag_cache sv)) eqn:Hin0.
  - injection Hr0 as <-. now rewrite Hg0.
  - rewrite (cache_get_absent _ _ Hin0).
    destruct (__init__ OPENAI_API_KEY API_BASE_URL OPENAI_API_KEY) as [e|fresh] eqn:Hi;
      [discriminate|].
    injection Hr0 as <-. cbn [user_rag_cache set_cache] in Hg0.
    rewrite (cache_get_new _ _ _ Hin0) in Hg0. injection Hg0 as <-.
    now rewrite (init_ok_fresh _ _ Hi).
Qed.

Lemma NoDup_app_apart {A} (l1 l2 : list A) (x : A) :
  NoDup (l1 ++ l2) -> In x l1 -> ~ In x l2.
Proof.
  induction l1 as [|y l1 IH]; intros Hnd H1 H2; [destruct H1|].
  cbn [app] in Hnd. apply NoDup_cons_iff in Hnd as [Hy Hnd'].
  destruct H1 as [->|H1]; [|now apply IH].
  apply Hy, in_or_app. now right.
Qed.

(** X12 -- The cache is no least-recently-used cache: when it holds 101
    sessions and the requesting user is among the 20 oldest keys, the
    session of that very user is evicted before the turn and made anew, so
    that after a completed turn the memory of the user holds this one
    exchange only, and the key of the user has moved to the end. *)
Theorem active_user_evicted {W} (E : env W) (w : W) (request : ChatRequest)
    (sv : server) (req : completion_request) (a : string) :
  NoDup (keys (user_rag_cache sv)) ->
  List.length (user_rag_cache sv) = 101%nat ->
  let key := PyStr.strip (user_id request) in
  In key (firstn 20 (keys (user_rag_cache sv))) ->
  let o := run E (chat_with_teddy py OPENAI_API_KEY exn_text request sv) w in
  In (ECreate in_chat req (Completion a)) (trace o) ->
  exists self',
    cache_get key (user_rag_cache (snd (result o))) = Some self'
    /\ current_conversation self' = [(PyStr.strip (message request), a)]
    /\ keys (user_rag_cache (snd (result o)))
       = (skipn 20 (keys (user_rag_cache sv)) ++ [key])%list.
Proof.
  intros Hnd Hlen key Hold o Hin. subst o.
  assert (Hout : in_cache key (skipn 20 (user_rag_cache sv)) = false).
  { destruct (in_cache key (skipn 20 (user_rag_cache sv))) eqn:Hc; [|reflexivity].
    apply in_cache_spec in Hc. rewrite keys_skipn in Hc.
    rewrite <- (firstn_skipn 20 (keys (user_rag_cache sv))) in Hnd.
    exfalso. exact (NoDup_app_apart _ _ _ Hnd Hold Hc). }
  destruct (turn_memory E w request sv req a Hin)
    as (sv0 & self0 & self' & Hr0 & Hg0 & Hg & Hcc).
  fold key in Hr0, Hg0, Hg.
  rewrite (get_or_create_full E w OPENAI_API_KEY key sv Hnd Hlen) in Hr0.
  cbv zeta in Hr0. rewrite Hout in Hr0.
  destruct (__init__ OPENAI_API_KEY API_BASE_URL OPENAI_API_KEY) as [e|fresh] eqn:Hi;
    [discriminate|].
  injection Hr0 as <-. cbn [user_rag_cache set_cache] in Hg0.
  rewrite (cache_get_new _ _ _ Hout) in Hg0. injection Hg0 as <-.
  rewrite (init_ok_fresh _ _ Hi) in Hcc. cbn in Hcc.
  exists self'. split; [exact Hg|]. split; [exact Hcc|].
  assert (Hguard : rag_instance sv <> None /\ PyStr.blank (message request) = false
                   /\ PyStr.blank (user_id request) = false).
  { destruct (rag_instance sv) as [rag|] eqn:Hrag.
    2:{ now rewrite (refused_trace E w py OPENAI_API_KEY exn_text
                              request sv (or_introl Hrag)) in Hin. }
    destruct (PyStr.blank (message request)) eqn:Hm.
    { now rewrite (refused_trace E w py OPENAI_API_KEY exn_text
                            request sv (or_intror (or_introl Hm))) in Hin. }
    destruct (PyStr.blank (user_id request)) eqn:Hu.
    { now rewrite (refused_trace E w py OPENAI_API_KEY exn_text
                            request sv (or_intror (or_intror Hu))) in Hin. }
    repeat split. discriminate. }
  destruct Hguard as (Hrag & Hm & Hu).
  rewrite route_run by assumption. cbv zeta. cbn [result snd].
  rewrite handle_keys. unfold cache_after. fold key.
  rewrite (get_or_create_full E w OPENAI_API_KEY key sv Hnd Hlen).
  cbv zeta. rewrite Hout, Hi. cbn [result snd user_rag_cache set_cache].
  now rewrite keys_app, keys_skipn.
Qed.

Lemma refresh_no_records {W} (E : env W) (w : W) (key : string) (sv0 : server)
    (self0 : SimpleExpenseRAG) :
  cache_get key (user_rag_cache sv0) = Some self0 ->
  exists self2,
    result (run E (refresh_records py key None sv0) w)
    = (ok tt, set_cache (cache_set key self2 (user_rag_cache sv0)) sv0).
Proof.
  intros Hg. unfold refresh_records. rewrite run_on_session, Hg. cbv zeta.
  unfold set_expense_data. repeat run_step. cbn [result fst snd]. now eexists.
Qed.

(** The get-or-create step on a cache that the server can reach, with a
    well-formed key: it returns, the session of the user is there
    afterwards, and the keys are those left by the eviction, with the key of
    the user at the end when it was not among them. *)
Lemma get_or_create_ok {W} (E : env W) (w : W) (user_id_key : string) (sv : server)
    (rag : SimpleExpenseRAG) :
  NoDup (keys (user_rag_cache sv)) ->
  (List.length (user_rag_cache sv) <= 101)%nat ->
  __init__ OPENAI_API_KEY API_BASE_URL OPENAI_API_KEY = ok rag ->
  let base := if (List.length (user_rag_cache sv) =? 101)%nat
              then skipn 20 (user_rag_cache sv) else user_rag_cache sv in
  exists sv0 self0,
    result (run E (get_or_create OPENAI_API_KEY user_id_key sv) w) = (ok tt, sv0)
    /\ cache_get user_id_key (user_rag_cache sv0) = Some self0
    /\ keys (user_rag_cache sv0)
       = (keys base ++ if in_cache user_id_key base then [] else [user_id_key])%list.
Proof.
  intros Hnd Hlen Hi. cbv zeta.
  destruct (Nat.eqb_spec (List.length (user_rag_cache sv)) 101) as [Hfull|Hnot].
  - rewrite (get_or_create_full E w OPENAI_API_KEY user_id_key sv Hnd Hfull). cbv zeta.
    destruct (in_cache user_id_key (skipn 20 (user_rag_cache sv))) eqn:Hin0.
    + destruct (cache_get_present _ _ Hin0) as [self0 Hg0].
      eexists _, self0. split; [reflexivity|]. cbn [user_rag_cache set_cache].
      split; [exact Hg0|]. now rewrite app_nil_r.
    + rewrite Hi. eexists _, rag. split; [reflexivity|].
      cbn [user_rag_cache set_cache]. split; [now apply cache_get_new|].
      now rewrite keys_app.
  - rewrite get_or_create_small by lia.
    destruct (in_cache user_id_key (user_rag_cache sv)) eqn:Hin0.
    + destruct (cache_get_present _ _ Hin0) as [self0 Hg0].
      exists sv, self0. split; [reflexivity|]. split; [exact Hg0|].
      now rewrite app_nil_r.
    + rewrite Hi. eexists _, rag. split; [reflexivity|].
      cbn [user_rag_cache set_cache]. split; [now apply cache_get_new|].
      now rewrite keys_app.
Qed.

(** X13 -- An identifier that the store does not know costs two identity
    checks and nothing else, and still takes a place in the cache. On a
    server whose assistant is initialized, on every cache that it can reach
    (distinct keys, at most 101 sessions) and with a well-formed API key,
    when every identity check is rejected, a well-formed request is answered
    with a 404 that names the trimmed identifier, after exactly two reads of
    the history endpoint and no read of the records, no completion call and
    no write; and a session stays in the cache under the identifier, as a
    new last key when there was none. On a cache of 101 sessions the 20
    oldest sessions are evicted first, for this unknown user as for any
    other. *)
Theorem unknown_user_not_found {W} (E : env W) (w : W) (request : ChatRequest)
    (sv : server) (rag : SimpleExpenseRAG) :
  let key := PyStr.strip (user_id request) in
  rag_instance sv <> None ->
  PyStr.blank (message request) = false ->
  PyStr.blank (user_id request) = false ->
  NoDup (keys (user_rag_cache sv)) ->
  (List.length (user_rag_cache sv) <= 101)%nat ->
  __init__ OPENAI_API_KEY API_BASE_URL OPENAI_API_KEY = ok rag ->
  (forall w', is_accepted (fst (on_get E w' history_url [("userId", key)])) = false) ->
  let o := run E (chat_with_teddy py OPENAI_API_KEY exn_text request sv) w in
  let base := if (List.length (user_rag_cache sv) =? 101)%nat
              then skipn 20 (user_rag_cache sv) else user_rag_cache sv in
  fst (result o)
  = inl (HTTPException 404 ("Unable to fetch chat data. Invalid user_id: " ++ key
                            ++ ". User not found."))
  /\ (exists r1 r2,
        trace o = [EGet in_validate_user_exists history_url [("userId", key)] r1;
                   EGet in_validate_user_exists history_url [("userId", key)] r2])
  /\ in_cache key (user_rag_cache (snd (result o))) = true
  /\ keys (user_rag_cache (snd (result o)))
     = (keys base ++ if in_cache key base then [] else [key])%list.
Proof.
  intros key Hrag Hm Hu Hnd Hlen Hi Hrej o base. subst o.
  assert (Hkb : PyStr.blank key = false) by (subst key; now rewrite blank_strip).
  destruct (get_or_create_ok E w key sv rag Hnd Hlen Hi) as (sv0 & self0 & Hr0 & Hg0 & Hkeys).
  fold base in Hkeys.
  rewrite route_run by assumption. cbv zeta. cbn [result trace fst snd].
  pose proof (handle_keys py OPENAI_API_KEY E w request sv) as Hhk.
  unfold cache_after in Hhk. fold key in Hhk. rewrite Hr0 in Hhk. cbn [snd] in Hhk.
  pose proof (fetch_user_specific_expense_data_eq E w key Hkb) as Ho1.
  cbv zeta in Ho1. subst key. rewrite strip_idempotent in Ho1.
  rewrite Hrej in Ho1.
  destruct (handle_stages E w request sv Hm Hu)
    as [e sv1 key Hr0' _ _ _|e sv1 sv2 key o1 Hr0' Hr2 _ _|sv1 sv2 key o1 Hr0' Hr2 Hnone _ _
       |sv1 sv2 self key o1 o3 Hr0' Hr2 Hget Hsv Hrest].
  - subst key. rewrite Hr0 in Hr0'. discriminate.
  - subst o1 key. rewrite Hr0 in Hr0'. injection Hr0' as <-.
    rewrite Ho1 in Hr2. cbn [result world] in Hr2.
    destruct (refresh_no_records E
                (snd (on_get E w history_url [("userId", PyStr.strip (user_id request))]))
                _ _ _ Hg0) as [self2 Hok].
    rewrite Hok in Hr2. discriminate.
  - subst o1 key. rewrite Hr0 in Hr0'. injection Hr0' as <-.
    rewrite Ho1 in Hr2. cbn [result world] in Hr2.
    destruct (refresh_no_records E
                (snd (on_get E w history_url [("userId", PyStr.strip (user_id request))]))
                _ _ _ Hg0) as [self2 Hok].
    rewrite Hok in Hr2. injection Hr2 as <-.
    cbn [user_rag_cache set_cache] in Hnone. rewrite cache_get_cache_set in Hnone.
    discriminate.
  - pose proof (chat_eq py E (world o1) (PyStr.strip (message request)) key self
                  ltac:(subst key; now rewrite blank_strip)) as Ho3.
    cbv zeta in Ho3. fold o3 in Ho3. subst key. rewrite strip_idempotent in Ho3.
    rewrite Hrej in Ho3.
    destruct Hrest as [(e & He & Ht & Hres)|(a & Ha & _)].
    2:{ rewrite Ho3 in Ha. discriminate. }
    rewrite He, Ht. rewrite Ho3 in Hres. cbn [result fst] in Hres.
    destruct Hres as [Hres|[_ [v Hres]]]; [|discriminate].
    injection Hres as <-. cbn [http_error]. split.
    { rewrite contains_here by reflexivity. reflexivity. }
    split.
    { subst o1. rewrite Ho3, Ho1. cbn [trace app]. now eexists _, _. }
    split.
    { rewrite Hsv. cbn [user_rag_cache set_cache]. apply in_cache_spec.
      eapply cache_get_In. apply cache_get_cache_set. }
    rewrite Hhk. exact Hkeys.
Qed.

Lemma refresh_raises {W} (E : env W) (w : W) (key : string) (sv0 : server)
    (self0 : SimpleExpenseRAG) (d : dict) (e : exn) :
  cache_get key (user_rag_cache sv0) = Some self0 ->
  _process_data py d = inl e ->
  fst (result (run E (refresh_records py key (Some d) sv0) w)) = inl e.
Proof.
  intros Hg He. destruct d as [|kv d]; [discriminate|].
  unfold refresh_records. rewrite run_on_session, Hg. cbv zeta.
  unfold set_expense_data. repeat run_step. rewrite He. repeat run_step. reflexivity.
Qed.

(** X14 -- Records that the Summarizer cannot process fail the whole turn:
    on a server whose assistant is initialized, on every cache that it can
    reach (distinct keys, at most 101 sessions) and with a well-formed API
    key, when the processing of the
    fetched records raises, a well-formed request is answered with the error
    of the [except] clauses for that exception (a 500 with the text of the
    exception, unless it is a [ValueError]), having made no call but the
    reads of the record fetch: no history is loaded, the provider is not
    called and nothing is persisted. *)
Theorem unprocessable_records_fail_turn {W} (E : env W) (w : W) (request : ChatRequest)
    (sv : server) (rag : SimpleExpenseRAG) (d : dict) (e : exn) :
  let key := PyStr.strip (user_id request) in
  let fetched := run E (fetch_user_specific_expense_data key) w in
  rag_instance sv <> None ->
  PyStr.blank (message request) = false ->
  PyStr.blank (user_id request) = false ->
  NoDup (keys (user_rag_cache sv)) ->
  (List.length (user_rag_cache sv) <= 101)%nat ->
  __init__ OPENAI_API_KEY API_BASE_URL OPENAI_API_KEY = ok rag ->
  result fetched = Some d ->
  _process_data py d = inl e ->
  let o := run E (chat_with_teddy py OPENAI_API_KEY exn_text request sv) w in
  fst (result o) = inl (http_error exn_text e)
  /\ ((forall msg, e <> ValueError msg) ->
      fst (result o) = inl (HTTPException 500 ("Error processing chat: " ++ exn_text e)))
  /\ trace o = trace fetched
  /\ forallb is_read (trace o) = true.
Proof.
  intros key fetched Hrag Hm Hu Hnd Hlen Hi Hd He o. subst o.
  destruct (get_or_create_ok E w key sv rag Hnd Hlen Hi) as (sv0 & self0 & Hr0 & Hg0 & _).
  pose proof (refresh_raises E (world fetched) key sv0 self0 d e Hg0 He) as Hraise.
  rewrite <- Hd in Hraise.
  assert (Hmain : fst (result (run E (handle py OPENAI_API_KEY request sv) w)) = inl e
                  /\ trace (run E (handle py OPENAI_API_KEY request sv) w)
                     = trace fetched).
  { destruct (handle_stages E w request sv Hm Hu)
      as [e' sv1 key' Hr0' _ _ _|e' sv1 sv2 key' o1 Hr0' Hr2 Hres Ht
         |sv1 sv2 key' o1 Hr0' Hr2 _ _ _
         |sv1 sv2 self key' o1 o3 Hr0' Hr2 _ _ _];
      subst key'; fold key in Hr0'; rewrite Hr0 in Hr0'; try discriminate;
      injection Hr0' as <-; subst o1; fold key fetched in Hr2;
      rewrite Hr2 in Hraise; cbn [fst] in Hraise; try discriminate.
    injection Hraise as ->. rewrite Hres, Ht. now split. }
  destruct Hmain as [Hres Ht].
  rewrite route_run by assumption. cbv zeta. cbn [result trace fst snd].
  rewrite Hres, Ht. split; [reflexivity|]. split; [|split; [reflexivity|]].
  - intros Hne. destruct e; try reflexivity. now destruct (Hne msg).
  - apply fetch_reads_only.
Qed.

Lemma refresh_records_ok {W} (E : env W) (w : W) (key : string) (data : option dict)
    (sv0 sv2 : server) (self : SimpleExpenseRAG) :
  result (run E (refresh_records py key data sv0) w) = (ok tt, sv2) ->
  cache_get key (user_rag_cache sv2) = Some self ->
  exists self0,
    cache_get key (user_rag_cache sv0) = Some self0
    /\ current_conversation self = current_conversation self0
    /\ processed_chunks self
       = match data with
         | Some d => match _process_data py d with inr cs => cs | inl _ => [] end
         | None => []
         end.
Proof.
  unfold refresh_records. intros Hr Hg.
  destruct (cache_get key (user_rag_cache sv0)) as [self0|] eqn:Hg0.
  2:{ destruct data as [[|kv d]|]; rewrite run_on_session, Hg0 in Hr; discriminate. }
  exists self0. split; [reflexivity|].
  destruct data as [[|kv d]|]; rewrite run_on_session, Hg0 in Hr; cbv zeta in Hr;
    unfold set_expense_data in Hr; revert Hr; repeat run_step.
  - cbn [result fst snd]. intros [= <-]. cbn [user_rag_cache set_cache] in Hg.
    rewrite cache_get_cache_set in Hg. injection Hg as <-. now split.
  - destruct (_process_data py (kv :: d)) as [e|cs]; repeat run_step;
      cbn [result fst snd]; [discriminate|].
    intros [= <-]. cbn [user_rag_cache set_cache] in Hg.
    rewrite cache_get_cache_set in Hg. injection Hg as <-. now split.
  - cbn [result fst snd]. intros [= <-]. cbn [user_rag_cache set_cache] in Hg.
    rewrite cache_get_cache_set in Hg. injection Hg as <-. now split.
Qed.

(** X19 -- What the provider is asked comes from this turn and from the
    memory alone: on a cache within the configured maximum, the one request
    that a turn sends to the provider carries the prompt template filled
    with the trimmed message and with the context assembled from the chunks
    of the records fetched in this turn (none when the fetch gave none), the
    history that the History Loader read in this turn, and the memory that
    the session of the user had before the turn (an empty one for a user
    without a session). Chunks and history of earlier turns are never
    reused. *)
Theorem provider_asked_from_this_turn {W} (E : env W) (w : W) (request : ChatRequest)
    (sv : server) (req : completion_request) (r : completion_result) :
  (List.length (user_rag_cache sv) <= 100)%nat ->
  let key := PyStr.strip (user_id request) in
  let o := run E (chat_with_teddy py OPENAI_API_KEY exn_text request sv) w in
  In (ECreate in_chat req r) (trace o) ->
  let memory := match cache_get key (user_rag_cache sv) with
                | Some self => current_conversation self
                | None => []
                end in
  let chunks := match result (run E (fetch_user_specific_expense_data key) w) with
                | Some d => match _process_data py d with inr cs => cs | inl _ => [] end
                | None => []
                end in
  exists loaded,
    In (EGet in_fetch_chat_history_for_validated_user history_url [("userId", key)] loaded)
       (trace o)
    /\ req = chat_request
               (prompt_template (assemble py chunks (history_of loaded) memory)
                  (PyStr.strip (message request))).
Proof.
  intros Hlen key o. subst o key. cbv zeta.
  destruct (rag_instance sv) as [rag|] eqn:Hrag.
  2:{ now rewrite (refused_trace E w py OPENAI_API_KEY exn_text
                            request sv (or_introl Hrag)). }
  destruct (PyStr.blank (message request)) eqn:Hm.
  { now rewrite (refused_trace E w py OPENAI_API_KEY exn_text
                          request sv (or_intror (or_introl Hm))). }
  destruct (PyStr.blank (user_id request)) eqn:Hu.
  { now rewrite (refused_trace E w py OPENAI_API_KEY exn_text
                          request sv (or_intror (or_intror Hu))). }
  destruct (blank_false_strip _ Hm) as [Hsm _].
  rewrite route_run by (auto; congruence). cbv zeta. cbn [trace result fst snd].
  pose proof (fetch_reads_only E w (PyStr.strip (user_id request))) as Hreads.
  destruct (handle_stages E w request sv Hm Hu)
    as [e sv0 key' _ _ Ht _|e sv0 sv2 key' o1 _ _ _ Ht|sv0 sv2 key' o1 _ _ _ _ Ht
       |sv0 sv2 self key' o1 o3 Hr0 Hr2 Hget Hsv Hrest]; subst key';
    set (key := PyStr.strip (user_id request)) in *;
    assert (Hkb : PyStr.blank key = false) by (subst key; now rewrite blank_strip).
  - rewrite Ht. intros [].
  - rewrite Ht. intros Hin. now apply reads_hold_no_completion in Hin.
  - rewrite Ht. intros Hin. now apply reads_hold_no_completion in Hin.
  - intros Hin.
    assert (Hsub : forall x, In x (trace o3) ->
              In x (trace (run E (handle py OPENAI_API_KEY request sv) w))).
    { intros x Hx.
      destruct Hrest as [(e & _ & Ht & _)|(a' & _ & _ & _ & Ht)]; rewrite Ht.
      - apply in_or_app. now right.
      - apply in_or_app. right. apply in_or_app. now left. }
    assert (Hin3 : In (ECreate in_chat req r) (trace o3)).
    { destruct Hrest as [(e & _ & Ht & _)|(a' & _ & Ha & _ & Ht)]; rewrite Ht in Hin.
      - apply in_app_or in Hin as [Hin|Hin]; [|assumption].
        now apply reads_hold_no_completion in Hin.
      - apply in_app_or in Hin as [Hin|Hin];
          [now apply reads_hold_no_completion in Hin|].
        apply in_app_or in Hin as [Hin|Hin]; [assumption|].
        destruct (is_greeting (message request)); [destruct Hin|].
        exfalso. revert Hin. apply no_completion.
        apply validate_and_send_to_history_calls; auto. }
    clear Hin.
    destruct (refresh_records_ok E (world o1) key (result o1) sv0 sv2 self Hr2 Hget)
      as (self0 & Hg0 & Hcc & Hchunks).
    assert (Hmem : current_conversation self
                   = match cache_get key (user_rag_cache sv) with
                     | Some s => current_conversation s
                     | None => []
                     end).
    { rewrite Hcc. rewrite get_or_create_small in Hr0 by assumption.
      destruct (in_cache key (user_rag_cache sv)) eqn:Hin0.
      - injection Hr0 as <-. now rewrite Hg0.
      - rewrite (cache_get_absent _ _ Hin0).
        destruct (__init__ OPENAI_API_KEY API_BASE_URL OPENAI_API_KEY) as [e|fresh] eqn:Hi;
          [discriminate|].
        injection Hr0 as <-. cbn [user_rag_cache set_cache] in Hg0.
        rewrite (cache_get_new _ _ _ Hin0) in Hg0. injection Hg0 as <-.
        now rewrite (init_ok_fresh _ _ Hi). }
    pose proof (chat_eq py E (world o1) (PyStr.strip (message request)) key self Hkb)
      as Ho3. cbv zeta in Ho3. fold o3 in Ho3.
    assert (Hkk : PyStr.strip key = key) by (subst key; apply strip_idempotent).
    rewrite Hkk in Ho3.
    destruct (is_accepted (fst (on_get E (world o1) history_url [("userId", key)]))).
    2:{ rewrite Ho3 in Hin3. destruct Hin3 as [Hin3|[]]. discriminate. }
    set (rw2 := on_get E (snd (on_get E (world o1) history_url [("userId", key)]))
                  history_url [("userId", key)]) in *.
    exists (fst rw2). split.
    { apply Hsub. rewrite Ho3. cbn [trace]. right. now left. }
    rewrite Ho3 in Hin3. cbn [trace] in Hin3.
    destruct Hin3 as [Hin3|[Hin3|Hin3]]; [discriminate|discriminate|].
    rewrite answer_eq in Hin3.
    unfold _build_context in Hin3. rewrite context_parts_spec in Hin3.
    cbn [chat_history set_chat_history processed_chunks current_conversation] in Hin3.
    destruct (forallb Py.is_dict (last_three (history_of (fst rw2))));
      cbn [ebind ok raise] in Hin3; [|destruct Hin3].
    cbv zeta in Hin3. cbn [trace] in Hin3. destruct Hin3 as [Hin3|[]].
    injection Hin3 as <- _. unfold assemble. subst o1. now rewrite Hmem, Hchunks.
Qed.


(** X20 -- Once the provider has completed, the outcome of the turn is
    settled, whatever the store answers to the persist: a non-empty answer
    is returned with status [success], also when the identity check of the
    persist or the write itself fails; an empty answer is refused with a 500
    whose detail wraps the route's own [No response from assistant] error,
    which the last [except] clause of the route catches. *)
Theorem completed_turn_outcome {W} (E : env W) (w : W) (request : ChatRequest)
    (sv : server) (req : completion_request) (a : string) :
  let o := run E (chat_with_teddy py OPENAI_API_KEY exn_text request sv) w in
  In (ECreate in_chat req (Completion a)) (trace o) ->
  fst (result o)
  = if PyStr.truthy a
    then ok {| response := a; status := "success" |}
    else inl (HTTPException 500
                ("Error processing chat: "
                 ++ exn_text (HTTPException 500 "No response from assistant"))).
Proof.
  cbv zeta.
  destruct (rag_instance sv) as [rag|] eqn:Hrag.
  2:{ now rewrite (refused_trace E w py OPENAI_API_KEY exn_text
                            request sv (or_introl Hrag)). }
  destruct (PyStr.blank (message request)) eqn:Hm.
  { now rewrite (refused_trace E w py OPENAI_API_KEY exn_text
                          request sv (or_intror (or_introl Hm))). }
  destruct (PyStr.blank (user_id request)) eqn:Hu.
  { now rewrite (refused_trace E w py OPENAI_API_KEY exn_text
                          request sv (or_intror (or_intror Hu))). }
  destruct (blank_false_strip _ Hm) as [Hsm _].
  rewrite route_run by (auto; congruence). cbv zeta. cbn [trace result fst snd].
  pose proof (fetch_reads_only E w (PyStr.strip (user_id request))) as Hreads.
  destruct (handle_stages E w request sv Hm Hu)
    as [e sv0 key _ _ Ht _|e sv0 sv2 key o1 _ _ _ Ht|sv0 sv2 key o1 _ _ _ _ Ht
       |sv0 sv2 self key o1 o3 Hr0 Hr2 Hget Hsv Hrest].
  - rewrite Ht. intros [].
  - rewrite Ht. intros Hin. now apply reads_hold_no_completion in Hin.
  - rewrite Ht. intros Hin. now apply reads_hold_no_completion in Hin.
  - intros Hin.
    assert (Hin3 : In (ECreate in_chat req (Completion a)) (trace o3)).
    { destruct Hrest as [(e & _ & Ht & _)|(a' & _ & Ha & _ & Ht)]; rewrite Ht in Hin.
      - apply in_app_or in Hin as [Hin|Hin]; [|assumption].
        now apply reads_hold_no_completion in Hin.
      - apply in_app_or in Hin as [Hin|Hin];
          [now apply reads_hold_no_completion in Hin|].
        apply in_app_or in Hin as [Hin|Hin]; [assumption|].
        destruct (is_greeting (message request)); [destruct Hin|].
        exfalso. revert Hin. apply no_completion.
        apply validate_and_send_to_history_calls; auto.
        subst key. now rewrite blank_strip. }
    pose proof (chat_endings py E (world o1) (PyStr.strip (message request)) key self)
      as Hend. fold o3 in Hend.
    assert (Hres3 : exists v, fst (result o3) = ok (a, v)).
    { destruct Hend as [e _ _ Hno|req' msg _ _ _ Hall|req' a' Hres _ _ Hall].
      - now apply Hno in Hin3.
      - destruct (Hall _ _ Hin3) as [_ Heq]. discriminate Heq.
      - destruct (Hall _ _ Hin3) as [_ Heq]. injection Heq as Heq.
        rewrite Heq, Hres. now eexists. }
    destruct Hres3 as [v Hres3].
    destruct Hrest as [(e & He & _ & [Hraised|[-> [v' Hempty]]])|(a' & Ha' & Hta & Hres & _)].
    + rewrite Hres3 in Hraised. discriminate.
    + rewrite Hres3 in Hempty. injection Hempty as -> _. now rewrite He.
    + rewrite Hres3 in Ha'. injection Ha' as -> _. now rewrite Hres, Hta.
Qed.

End TurnProofs.

Lemma completion_remembered_witness :
  let request := ask "u1" in
  let sv := crowded 3 in
  let key := PyStr.strip (user_id request) in
  let o := run friendly (chat_with_teddy python311 sample_key (fun _ => "")
                           request sv) tt in
  exists self',
    cache_get key (user_rag_cache (snd (result o))) = Some self'
    /\ current_conversation self'
       = remember (PyStr.strip (message request)) "Happy to help."
           match cache_get key (user_rag_cache sv) with
           | Some self => current_conversation self
           | None => []
           end.
Proof.
  cbv zeta.
  apply (completion_remembered python311 sample_key (fun _ => "") friendly tt
           (ask "u1") (crowded 3)
           (chat_request
              (prompt_template
                 (nl ++ "=== CURRENT CONVERSATION ===" ++ nl ++ "Exchange 1:" ++ nl
                  ++ "Human: an earlier question" ++ nl
                  ++ "Assistant: an earlier answer")
                 "what did I spend?"))
           "Happy to help.").
  - vm_compute. lia.
  - vm_compute. do 4 right. left. reflexivity.
Defined.

Lemma active_user_evicted_witness :
  let request := ask "u3" in
  let sv := crowded 101 in
  let key := PyStr.strip (user_id request) in
  let o := run friendly (chat_with_teddy python311 sample_key (fun _ => "")
                           request sv) tt in
  exists self',
    cache_get key (user_rag_cache (snd (result o))) = Some self'
    /\ current_conversation self' = [(PyStr.strip (message request), "Happy to help.")]
    /\ keys (user_rag_cache (snd (result o)))
       = (skipn 20 (keys (user_rag_cache sv)) ++ [key])%list.
Proof.
  cbv zeta.
  apply (active_user_evicted python311 sample_key (fun _ => "") friendly tt
           (ask "u3") (crowded 101)
           (chat_request (prompt_template "" "what did I spend?")) "Happy to help.").
  - replace (keys (user_rag_cache (crowded 101)))
      with (nodup string_dec (keys (user_rag_cache (crowded 101))))
      by (vm_compute; reflexivity).
    apply NoDup_nodup.
  - vm_compute. reflexivity.
  - vm_compute. do 3 right. left. reflexivity.
  - vm_compute. do 4 right. left. reflexivity.
Defined.

Lemma unknown_user_not_found_witness :
  let request := ask "ghost" in
  let sv := crowded 101 in
  let key := PyStr.strip (user_id request) in
  let o := run unknown_to_store
             (chat_with_teddy python311 sample_key (fun _ => "") request sv) tt in
  let base := if (List.length (user_rag_cache sv) =? 101)%nat
              then skipn 20 (user_rag_cache sv) else user_rag_cache sv in
  fst (result o)
  = inl (HTTPException 404 ("Unable to fetch chat data. Invalid user_id: " ++ key
                            ++ ". User not found."))
  /\ (exists r1 r2,
        trace o = [EGet in_validate_user_exists history_url [("userId", key)] r1;
                   EGet in_validate_user_exists history_url [("userId", key)] r2])
  /\ in_cache key (user_rag_cache (snd (result o))) = true
  /\ keys (user_rag_cache (snd (result o)))
     = (keys base ++ if in_cache key base then [] else [key])%list.
Proof.
  cbv zeta.
  apply (unknown_user_not_found python311 sample_key (fun _ => "") unknown_to_store tt
           (ask "ghost") (crowded 101) (Session [] [] None [])).
  - discriminate.
  - vm_compute. reflexivity.
  - vm_compute. reflexivity.
  - replace (keys (user_rag_cache (crowded 101)))
      with (nodup string_dec (keys (user_rag_cache (crowded 101))))
      by (vm_compute; reflexivity).
    apply NoDup_nodup.
  - vm_compute. lia.
  - vm_compute. reflexivity.
  - intros w'. vm_compute. reflexivity.
Defined.

Lemma unprocessable_records_fail_turn_witness :
  let request := ask "u1" in
  let d := [("daily", JList [JObj [("_id", JStr "2024-01-01");
                                   ("transactions",
                                    JList [JObj [("transactionType", JStr "expense")]])]])] in
  let e := KeyError "amount" in
  let exn_text := fun e => match e with KeyError k => "'" ++ k ++ "'" | _ => "" end in
  let key := PyStr.strip (user_id request) in
  let fetched := run broken_records (fetch_user_specific_expense_data key) tt in
  let o := run broken_records
             (chat_with_teddy python312 sample_key exn_text request (crowded 101)) tt in
  fst (result o) = inl (http_error exn_text e)
  /\ ((forall msg, e <> ValueError msg) ->
      fst (result o) = inl (HTTPException 500 ("Error processing chat: " ++ exn_text e)))
  /\ trace o = trace fetched
  /\ forallb is_read (trace o) = true.
Proof.
  cbv zeta.
  apply (unprocessable_records_fail_turn python312 sample_key
           (fun e => match e with KeyError k => "'" ++ k ++ "'" | _ => "" end)
           broken_records tt (ask "u1") (crowded 101) (Session [] [] None [])
           [("daily", JList [JObj [("_id", JStr "2024-01-01");
                                   ("transactions",
                                    JList [JObj [("transactionType", JStr "expense")]])]])]
           (KeyError "amount")).
  - discriminate.
  - vm_compute. reflexivity.
  - vm_compute. reflexivity.
  - replace (keys (user_rag_cache (crowded 101)))
      with (nodup string_dec (keys (user_rag_cache (crowded 101))))
      by (vm_compute; reflexivity).
    apply NoDup_nodup.
  - vm_compute. lia.
  - vm_compute. reflexivity.
  - vm_compute. reflexivity.
  - vm_compute. reflexivity.
Defined.

Lemma provider_asked_from_this_turn_witness :
  let request := ask "u1" in
  let sv := crowded 3 in
  let req := chat_request
               (prompt_template
                  (nl ++ "=== CURRENT CONVERSATION ===" ++ nl ++ "Exchange 1:" ++ nl
                   ++ "Human: an earlier question" ++ nl
                   ++ "Assistant: an earlier answer")
                  "what did I spend?") in
  let key := PyStr.strip (user_id request) in
  let o := run friendly (chat_with_teddy python311 sample_key (fun _ => "")
                           request sv) tt in
  let memory := match cache_get key (user_rag_cache sv) with
                | Some self => current_conversation self
                | None => []
                end in
  let chunks := match result (run friendly (fetch_user_specific_expense_data key) tt) with
                | Some d => match _process_data python311 d with
                            | inr cs => cs
                            | inl _ => []
                            end
                | None => []
                end in
  exists loaded,
    In (EGet in_fetch_chat_history_for_validated_user history_url [("userId", key)] loaded)
       (trace o)
    /\ req = chat_request
               (prompt_template (assemble python311 chunks (history_of loaded) memory)
                  (PyStr.strip (message request))).
Proof.
  cbv zeta.
  apply (provider_asked_from_this_turn python311 sample_key (fun _ => "") friendly tt
           (ask "u1") (crowded 3) _ (Completion "Happy to help.")).
  - vm_compute. lia.
  - vm_compute. do 4 right. left. reflexivity.
Defined.

Lemma completed_turn_outcome_witness :
  let o := run friendly (chat_with_teddy python311 sample_key (fun _ => "")
                           (ask "u1") started) tt in
  fst (result o)
  = if PyStr.truthy "Happy to help."
    then ok {| response := "Happy to help."; status := "success" |}
    else inl (HTTPException 500
                ("Error processing chat: "
                 ++ (fun _ : exn => "") (HTTPException 500 "No response from assistant"))).
Proof.
  cbv zeta.
  apply (completed_turn_outcome python311 sample_key (fun _ => "") friendly tt
           (ask "u1") started (chat_request (prompt_template "" "what did I spend?"))).
  vm_compute. do 4 right. left. reflexivity.
Defined.

Lemma write_means_answered_witness :
  let o := run friendly (chat_with_teddy python311 sample_key (fun _ => "")
                           (ask " u1 ") started) tt in
  exists a t,
    fst (result o) = ok {| response := a; status := "success" |}
    /\ is_greeting (message (ask " u1 ")) = false
    /\ in_validate_and_send_to_history = in_validate_and_send_to_history
    /\ create_url = create_url
    /\ [("userId", "u1"); ("human", "what did I spend?"); ("assistant", "Happy to help.")]
       = [("userId", PyStr.strip (user_id (ask " u1 ")));
          ("human", PyStr.strip (message (ask " u1 ")));
          ("assistant", PyStr.strip a)]
    /\ trace o
       = (t ++ [EPost in_validate_and_send_to_history create_url
                      [("userId", "u1"); ("human", "what did I spend?");
                       ("assistant", "Happy to help.")] (Response 201 None)])%list
    /\ existsb is_write t = false.
Proof.
  cbv zeta.
  apply (write_means_answered python311 sample_key (fun _ => "") friendly tt
           (ask " u1 ") started).
  vm_compute. do 6 right. left. reflexivity.
Defined.

Lemma greeting_never_persisted_witness :
  existsb is_write
    (trace (run friendly
              (chat_with_teddy python311 sample_key (fun _ => "")
                 {| message := "What did I spend this month?"; user_id := "u1" |} started)
              tt)) = false.
Proof.
  apply greeting_never_persisted. vm_compute. reflexivity.
Defined.


(** ** The route sees a request through its trimmed fields *)

Lemma is_space_lower_char (c : ascii) :
  PyStr.is_space (PyStr.lower_char c) = PyStr.is_space c.
Proof.
  destruct c as [b0 b1 b2 b3 b4 b5 b6 b7].
  destruct b0, b1, b2, b3, b4, b5, b6, b7; reflexivity.
Qed.

Lemma lower_lstrip (s : string) :
  PyStr.lower (PyStr.lstrip s) = PyStr.lstrip (PyStr.lower s).
Proof.
  induction s as [|c s IH]; [reflexivity|].
  cbn [PyStr.lstrip PyStr.lower]. rewrite is_space_lower_char.
  now destruct (PyStr.is_space c).
Qed.

Lemma lower_rstrip (s : string) :
  PyStr.lower (PyStr.rstrip s) = PyStr.rstrip (PyStr.lower s).
Proof.
  induction s as [|c s IH]; [reflexivity|].
  cbn [PyStr.lower]. rewrite !rstrip_cons, <- IH, is_space_lower_char.
  destruct (PyStr.rstrip s) as [|c' r]; cbn [PyStr.lower]; [|reflexivity].
  now destruct (PyStr.is_space c).
Qed.

Lemma prefix_rstrip (g s : string) :
  forallb (fun c => negb (PyStr.is_space c)) (list_ascii_of_string g) = true ->
  prefix g (PyStr.rstrip s) = prefix g s.
Proof.
  revert g. induction s as [|c s IH]; intros g Hg; [reflexivity|].
  destruct g as [|a g]; [now destruct (PyStr.rstrip (String c s))|].
  cbn [list_ascii_of_string forallb] in Hg. apply andb_prop in Hg as [Ha Hg].
  apply negb_true_iff in Ha.
  rewrite rstrip_cons. specialize (IH g Hg).
  destruct (PyStr.rstrip s) as [|c' r].
  - destruct (PyStr.is_space c) eqn:Hc; cbn [prefix].
    + destruct (ascii_dec a c) as [->|_]; [congruence|reflexivity].
    + destruct (ascii_dec a c); [exact IH|reflexivity].
  - cbn [prefix]. destruct (ascii_dec a c); [exact IH|reflexivity].
Qed.

Lemma contains_rstrip (g s : string) :
  g <> "" ->
  forallb (fun c => negb (PyStr.is_space c)) (list_ascii_of_string g) = true ->
  PyStr.contains g (PyStr.rstrip s) = PyStr.contains g s.
Proof.
  intros Hne Hg. induction s as [|c s IH]; [reflexivity|].
  cbn [PyStr.contains]. rewrite <- (prefix_rstrip g (String c s) Hg), <- IH.
  rewrite rstrip_cons.
  destruct (PyStr.rstrip s) as [|c' r]; [|reflexivity].
  destruct (PyStr.is_space c); [|reflexivity].
  destruct g; [contradiction|reflexivity].
Qed.

Lemma contains_lstrip (g s : string) :
  g <> "" ->
  forallb (fun c => negb (PyStr.is_space c)) (list_ascii_of_string g) = true ->
  PyStr.contains g (PyStr.lstrip s) = PyStr.contains g s.
Proof.
  intros Hne Hg. induction s as [|c s IH]; [reflexivity|].
  cbn [PyStr.lstrip]. destruct (PyStr.is_space c) eqn:Hc; [|reflexivity].
  rewrite IH. cbn [PyStr.contains].
  destruct g as [|a g]; [contradiction|].
  cbn [list_ascii_of_string forallb] in Hg. apply andb_prop in Hg as [Ha _].
  apply negb_true_iff in Ha. cbn [prefix].
  destruct (ascii_dec a c) as [->|_]; [congruence|reflexivity].
Qed.

Lemma is_greeting_strip (message : string) :
  is_greeting (PyStr.strip message) = is_greeting message.
Proof.
  unfold is_greeting, PyStr.strip. cbn [existsb].
  rewrite lower_rstrip, lower_lstrip.
  rewrite !contains_rstrip, !contains_lstrip by (discriminate || reflexivity).
  reflexivity.
Qed.

(** X15 -- The route sees a request only through its trimmed fields:
    whitespace around the message or around the identifier changes nothing,
    neither the answer or the refusal, nor the calls made, nor the session
    and its key in the cache, nor what the store and the provider are left
    with. *)
Theorem request_seen_trimmed {W} (E : env W) (w : W) (py : interpreter)
    (key : option string) (exn_text : exn -> string)
    (request : ChatRequest) (sv : server) :
  run E (chat_with_teddy py key exn_text request sv) w
  = run E (chat_with_teddy py key exn_text
             {| message := PyStr.strip (message request);
                user_id := PyStr.strip (user_id request) |} sv) w.
Proof.
  unfold chat_with_teddy, handle. cbn [message user_id].
  now rewrite !blank_strip, !strip_idempotent, is_greeting_strip.
Qed.

(** ** More on the Summarizer *)

Lemma amounts_skip (kind : string) (t ty : json) (before after : list json) :
  Py.getitem t "transactionType" = ok ty ->
  Py.eq_str ty kind = false ->
  amounts_of kind (before ++ t :: after) = amounts_of kind (before ++ after).
Proof.
  intros Ht Hty. induction before as [|b before IH]; cbn [app amounts_of].
  - rewrite Ht. cbn [ebind ok]. now rewrite Hty.
  - now rewrite IH.
Qed.

(** X16 -- The types of the transactions are matched exactly: a
    transaction whose type is neither [income] nor [expense], as written,
    in lower case, counts in neither total of its period, wherever it stands
    among the transactions and whatever its amount is, or whether it has one. *)
Theorem other_types_in_no_total (py : interpreter) (t ty : json)
    (before after : list json) :
  Py.getitem t "transactionType" = ok ty ->
  Py.eq_str ty "income" = false ->
  Py.eq_str ty "expense" = false ->
  total_of py "income" (JList (before ++ t :: after))
  = total_of py "income" (JList (before ++ after))
  /\ total_of py "expense" (JList (before ++ t :: after))
     = total_of py "expense" (JList (before ++ after)).
Proof.
  intros Ht Hi He. unfold total_of. cbn [Py.iter ebind ok].
  now rewrite (amounts_skip "income" t ty), (amounts_skip "expense" t ty).
Qed.

Lemma other_types_in_no_total_witness :
  let t := transaction "Income" (PyInt 100) in
  let before := [transaction "income" (PyInt 5)] in
  let after := [transaction "expense" (PyInt 2)] in
  total_of python312 "income" (JList (before ++ t :: after))
  = total_of python312 "income" (JList (before ++ after))
  /\ total_of python312 "expense" (JList (before ++ t :: after))
     = total_of python312 "expense" (JList (before ++ after)).
Proof.
  cbv zeta.
  apply (other_types_in_no_total python312
           (transaction "Income" (PyInt 100)) (JStr "Income")
           [transaction "income" (PyInt 5)] [transaction "expense" (PyInt 2)]).
  - reflexivity.
  - reflexivity.
  - reflexivity.
Defined.

Lemma efold_process_rel (R : json -> chunk -> Prop) (process : json -> exc chunk)
    (es : list json) :
  (forall e c, process e = ok c -> R e c) ->
  forall chunks chunks',
    efold (fun chunks e => (c <- process e ;; ok (chunks ++ [c])%list)%exc) es chunks
    = ok chunks' ->
    exists cs, chunks' = (chunks ++ cs)%list /\ Forall2 R es cs.
Proof.
  intros Hp. induction es as [|e es IH]; intros chunks chunks' H; cbn [efold] in H.
  - injection H as <-. exists []. now rewrite app_nil_r.
  - ebind_inv H. ebind_inv Hv. injection Hv as <-.
    apply IH in H as (cs & -> & Hcs).
    exists (v0 :: cs). rewrite <- app_assoc. split; [reflexivity|].
    constructor; auto.
Qed.

Lemma process_granularity_rel (R : json -> chunk -> Prop) (key : string)
    (process : json -> exc chunk) (expense_data : dict) (chunks chunks' : list chunk) :
  (forall e c, process e = ok c -> R e c) ->
  process_granularity key process expense_data chunks = ok chunks' ->
  exists cs, chunks' = (chunks ++ cs)%list /\ Forall2 R (entries_of key expense_data) cs.
Proof.
  intros Hp. unfold process_granularity, entries_of.
  destruct (Py.lookup key expense_data) as [entries|].
  - intros H. ebind_inv H. rewrite Hv. exact (efold_process_rel R process _ Hp _ _ H).
  - intros [= <-]. exists []. now rewrite app_nil_r.
Qed.

(** X17 -- The chunks of a report come grouped by granularity, the days
    first, then the weeks, then the months, whatever the order of the keys
    of the report, one chunk per period entry in the order of the entries;
    each chunk is labelled with the kind of its group and carries the [_id]
    of its entry, as its date for a day and as its period for a week or a
    month. *)
Theorem chunks_grouped_and_labelled (py : interpreter) (expense_data : dict)
    (chunks : list chunk) :
  _process_data py expense_data = ok chunks ->
  exists days weeks months,
    chunks = (days ++ weeks ++ months)%list
    /\ Forall2 (labelled "daily") (entries_of "daily" expense_data) days
    /\ Forall2 (labelled "weekly") (entries_of "weekly" expense_data) weeks
    /\ Forall2 (labelled "monthly") (entries_of "monthly" expense_data) months.
Proof.
  unfold _process_data. intros H. ebind_inv H. ebind_inv H.
  apply (process_granularity_rel (labelled "daily")) in Hv as (cs1 & -> & H1).
  2:{ intros e c Hc. unfold process_day in Hc. repeat ebind_inv Hc.
      injection Hc as <-. split; [reflexivity|]. eexists. split; [eassumption|].
      now split. }
  apply (process_granularity_rel (labelled "weekly")) in Hv0 as (cs2 & -> & H2).
  2:{ intros e c Hc. unfold process_week in Hc. repeat ebind_inv Hc.
      injection Hc as <-. split; [reflexivity|]. eexists. split; [eassumption|].
      now split. }
  apply (process_granularity_rel (labelled "monthly")) in H as (cs3 & -> & H3).
  2:{ intros e c Hc. unfold process_month in Hc. repeat ebind_inv Hc.
      injection Hc as <-. split; [reflexivity|]. eexists. split; [eassumption|].
      now split. }
  exists cs1, cs2, cs3. cbn [app]. rewrite <- app_assoc. auto.
Qed.

Lemma chunks_grouped_and_labelled_witness :
  let expense_data :=
    [("monthly", JList [JObj [("_id", JStr "2024-01"); ("transactions", JList [])]]);
     ("daily", JList [JObj [("_id", JStr "2024-01-01"); ("transactions", JList [])]])] in
  let chunks :=
    [Chunk "daily" (Some (JStr "2024-01-01")) None
       ("Date: 2024-01-01" ++ nl ++ "Income: $0.00, Expenses: $0.00, Net: $0.00" ++ nl
        ++ "Transactions:" ++ nl)
       (PyNum.PyInt 0) (PyNum.PyInt 0) (PyNum.PyInt 0);
     Chunk "monthly" None (Some (JStr "2024-01"))
       ("Month: 2024-01" ++ nl ++ "Income: $0.00, Expenses: $0.00" ++ nl
        ++ "Net: $0.00" ++ nl)
       (PyNum.PyInt 0) (PyNum.PyInt 0) (PyNum.PyInt 0)] in
  exists days weeks months,
    chunks = (days ++ weeks ++ months)%list
    /\ Forall2 (labelled "daily") (entries_of "daily" expense_data) days
    /\ Forall2 (labelled "weekly") (entries_of "weekly" expense_data) weeks
    /\ Forall2 (labelled "monthly") (entries_of "monthly" expense_data) months.
Proof.
  cbv zeta.
  apply (chunks_grouped_and_labelled python311).
  vm_compute. reflexivity.
Defined.

(** ** Reset *)

(** X18 -- A reset brings a session back to the state in which the
    constructor makes it, whatever it held: no records, no chunks, no
    loaded history and an empty memory; and the context assembled from a
    session after a reset is the empty text. *)
Theorem reset_is_fresh (py : interpreter) (env_key : option string)
    (api_base_url : string) (openai_api_key : option string)
    (rag self : SimpleExpenseRAG) (query : string) :
  __init__ env_key api_base_url openai_api_key = ok rag ->
  reset_conversation_state self = rag
  /\ _build_context py (reset_conversation_state self) query = ok "".
Proof.
  intros Hi. split; [|reflexivity].
  unfold __init__ in Hi.
  destruct (match openai_api_key with
            | Some (String _ _ as k) => Some k
            | _ => env_key
            end) as [[|c k]|]; try discriminate.
  destruct (negb (_validate_api_key_format (String c k))); [discriminate|].
  now injection Hi as <-.
Qed.

Lemma reset_is_fresh_witness :
  let self := Session [("an earlier question", "an earlier answer")]
                [JObj [("human", JStr "hello")]] (Some [("daily", JList [])]) [] in
  reset_conversation_state self = Session [] [] None []
  /\ _build_context python311 (reset_conversation_state self) "what now?" = ok "".
Proof.
  cbv zeta.
  apply (reset_is_fresh python311 None API_BASE_URL sample_key).
  vm_compute. reflexivity.
Defined.
